(** * Trash: the trash/restore engine of artemisfowl/trash

  A shallow embedding of the Go sources

    - internal/config  (RestoreItem, RestoreMetadata, GetConfigDir,
      EnsureConfigDir, CreateTrashTimestampDir, MoveToTrash,
      SaveRestoreMetadata, CopyFile, CopyDir),
    - cmd/root.go      (the trash command),
    - cmd/list.go      (loading a sidecar),
    - cmd/restore.go   (the restore command),

  together with the properties of the engine that the specification
  states.

  Go strings are byte sequences: they are modelled by [string], whose
  characters are the 256 values of [ascii].  A Go slice is modelled by
  [slice], which keeps the difference between the nil slice and an empty
  one (the JSON encoder prints them differently).  Calls into the
  operating system are the events of a small free monad, [prog]; a
  [World] answers them.  Statements that start "for every world" hold
  whatever the operating system answers. *)

From Stdlib Require Import String Ascii List Bool Arith NArith ZArith Lia ZifyN.
From Stdlib Require Import Sorting.Sorted Sorting.Permutation.
From Stdlib Require Import DecimalString.
Import ListNotations.

Local Open Scope list_scope.
Local Open Scope string_scope.

Set Implicit Arguments.
Set Warnings "-register-all".

(* ================================================================== *)
(** * Go values *)
(* ================================================================== *)

Module Go.

(** Characters that cannot be written inside a literal. *)
Definition dq  : ascii := "034"%char.   (* the double quote *)
Definition bsl : ascii := "092"%char.   (* the backslash    *)
Definition lf  : ascii := "010"%char.
Definition cr  : ascii := "013"%char.
Definition tab : ascii := "009"%char.
Definition bs  : ascii := "008"%char.
Definition ff  : ascii := "012"%char.

Definition nl : string := String lf "".

Definition code (c : ascii) : N := N_of_ascii c.
Definition chr (n : N) : ascii := ascii_of_N n.

(** [s[n:]] *)
Fixpoint drop (n : nat) (s : string) : string :=
  match n, s with
  | O, _ => s
  | S _, "" => ""
  | S n', String _ s' => drop n' s'
  end.

(** Slices: [None] is the nil slice. *)
Definition slice (A : Type) : Type := option (list A).

Definition elems {A} (s : slice A) : list A :=
  match s with None => [] | Some l => l end.

Definition len {A} (s : slice A) : nat := length (elems s).

Definition append {A} (s : slice A) (x : A) : slice A :=
  Some (elems s ++ [x])%list.

(** [strconv.Itoa] on a non-negative int, as [%d] prints it. *)
Definition itoa (n : nat) : string :=
  NilEmpty.string_of_uint (Nat.to_uint n).

(** Errors.  [os.IsNotExist] inspects the error the operating system
    returned; an error built by [fmt.Errorf] never satisfies it. *)
Record error : Type := mkError { IsNotExist : bool; Error : string }.

Definition Errorf (msg : string) : error :=
  {| IsNotExist := false; Error := msg |}.

End Go.
Import Go.

(* ================================================================== *)
(** * unicode/utf8 *)
(* ================================================================== *)

Module utf8.

Definition RuneError : N := 65533.   (* U+FFFD *)
Definition MaxRune   : N := 1114111. (* U+10FFFF *)

Definition inRange (lo hi b : N) : bool := (lo <=? b)%N && (b <=? hi)%N.

(** The table [first] with [acceptRanges]: for a leading byte, the
    length of the sequence and the range accepted for the second byte;
    [None] for a byte that starts no sequence. *)
Definition first (p0 : N) : option (nat * N * N) :=
  if inRange 194 223 p0 then Some (2%nat, 128, 191)%N
  else if (p0 =? 224)%N then Some (3%nat, 160, 191)%N
  else if inRange 225 236 p0 then Some (3%nat, 128, 191)%N
  else if (p0 =? 237)%N then Some (3%nat, 128, 159)%N
  else if inRange 238 239 p0 then Some (3%nat, 128, 191)%N
  else if (p0 =? 240)%N then Some (4%nat, 144, 191)%N
  else if inRange 241 243 p0 then Some (4%nat, 128, 191)%N
  else if (p0 =? 244)%N then Some (4%nat, 128, 143)%N
  else None.

Definition cont (b : N) : bool := inRange 128 191 b.

(** [utf8.DecodeRuneInString]: the rune and its width in bytes. *)
Definition DecodeRune (s : string) : N * nat :=
  match s with
  | "" => (RuneError, 0%nat)
  | String c0 s1 =>
    let p0 := code c0 in
    if (p0 <? 128)%N then (p0, 1%nat)
    else match first p0 with
    | None => (RuneError, 1%nat)
    | Some (sz, lo, hi) =>
      match s1 with
      | "" => (RuneError, 1%nat)
      | String c1 s2 =>
        let b1 := code c1 in
        if negb (inRange lo hi b1) then (RuneError, 1%nat)
        else if (sz <=? 2)%nat then
          (N.lor (N.shiftl (N.land p0 31) 6) (N.land b1 63), 2%nat)
        else match s2 with
        | "" => (RuneError, 1%nat)
        | String c2 s3 =>
          let b2 := code c2 in
          if negb (cont b2) then (RuneError, 1%nat)
          else if (sz <=? 3)%nat then
            (N.lor (N.shiftl (N.land p0 15) 12)
               (N.lor (N.shiftl (N.land b1 63) 6) (N.land b2 63)), 3%nat)
          else match s3 with
          | "" => (RuneError, 1%nat)
          | String c3 _ =>
            let b3 := code c3 in
            if negb (cont b3) then (RuneError, 1%nat)
            else
              (N.lor (N.shiftl (N.land p0 7) 18)
                 (N.lor (N.shiftl (N.land b1 63) 12)
                    (N.lor (N.shiftl (N.land b2 63) 6) (N.land b3 63))),
               4%nat)
          end
        end
      end
    end
  end.

(** [utf8.AppendRune] / [utf8.EncodeRune]. *)
Definition EncodeRune (r : N) : string :=
  let tx x := chr (N.lor 128 (N.land x 63)) in
  let bad := String (chr 239) (String (chr 191) (String (chr 189) "")) in
  if (r <=? 127)%N then String (chr r) ""
  else if (r <=? 2047)%N then
    String (chr (N.lor 192 (N.shiftr r 6))) (String (tx r) "")
  else if (MaxRune <? r)%N || inRange 55296 57343 r then bad
  else if (r <=? 65535)%N then
    String (chr (N.lor 224 (N.shiftr r 12)))
      (String (tx (N.shiftr r 6)) (String (tx r) ""))
  else
    String (chr (N.lor 240 (N.shiftr r 18)))
      (String (tx (N.shiftr r 12))
         (String (tx (N.shiftr r 6)) (String (tx r) ""))).

(** [utf8.ValidString], by the same decoder. *)
Fixpoint validFuel (fuel : nat) (s : string) : bool :=
  match fuel with
  | O => match s with "" => true | _ => false end
  | S fuel' =>
    match s with
    | "" => true
    | String c s' =>
      if (code c <? 128)%N then validFuel fuel' s'
      else
        let '(_, size) := DecodeRune s in
        if (size =? 1)%nat then false else validFuel fuel' (drop size s)
    end
  end.

Definition ValidString (s : string) : bool := validFuel (String.length s) s.

End utf8.

(* ================================================================== *)
(** * internal/config: the sidecar record *)
(* ================================================================== *)

(** [RestoreItem] represents metadata for a single trashed item. *)
Record RestoreItem : Type := mkItem {
Name         : string;   (* json:"name"          *)
OriginalPath : string;   (* json:"original_path" *)
TrashedAt    : string    (* json:"trashed_at"    *)
}.

(** [RestoreMetadata] represents the .restore file structure. *)
Record RestoreMetadata : Type := mkMetadata {
Items : slice RestoreItem   (* json:"items" *)
}.

Definition zeroItem : RestoreItem := mkItem "" "" "".
Definition zeroMetadata : RestoreMetadata := mkMetadata None.

(* ================================================================== *)
(** * encoding/json, as far as [RestoreMetadata] uses it

  [json.MarshalIndent] and [json.Unmarshal] belong to the Go standard
  library.  They are modelled after the package's documented behaviour:
  the encoder writes the text that [MarshalIndent(v, "", "  ")] prints
  for a [RestoreMetadata]; the decoder first checks the whole input
  against the JSON grammar and then stores the members it knows into
  the record.  The text of the library's error messages is not
  modelled. *)
(* ================================================================== *)

Module json.

(** ** Encoding *)

Definition hex (n : N) : ascii :=
  if (n <? 10)%N then chr (48 + n) else chr (87 + n).

(** [htmlSafeSet]: the ASCII characters written as they are. *)
Definition htmlSafe (b : N) : bool :=
  (32 <=? b)%N && (b <? 128)%N &&
  negb ((b =? 34)%N || (b =? 92)%N || (b =? 60)%N || (b =? 62)%N || (b =? 38)%N).

Definition esc (c : ascii) : string := String bsl (String c "").

(** The escape written for an ASCII byte outside [htmlSafeSet]
    (Go 1.22 and later; earlier versions print backspace and form
    feed as \u0008 and \u000c). *)
Definition escapeByte (b : N) : string :=
  if (b =? 92)%N || (b =? 34)%N then esc (chr b)
  else if (b =? 8)%N then esc "b"
  else if (b =? 12)%N then esc "f"
  else if (b =? 10)%N then esc "n"
  else if (b =? 13)%N then esc "r"
  else if (b =? 9)%N then esc "t"
  else
    String bsl (String "u" (String "0" (String "0"
      (String (hex (N.shiftr b 4)) (String (hex (N.land b 15)) ""))))).

Definition take (n : nat) (s : string) : string := substring 0 n s.

(** The body of [appendString] with [escapeHTML] set, between the two
    quotes. *)
Fixpoint appendBody (fuel : nat) (src : string) : string :=
  match fuel with
  | O => ""
  | S fuel' =>
    match src with
    | "" => ""
    | String c src' =>
      let b := code c in
      if (b <? 128)%N then
        if htmlSafe b then String c (appendBody fuel' src')
        else escapeByte b ++ appendBody fuel' src'
      else
        let '(r, size) := utf8.DecodeRune src in
        if (r =? utf8.RuneError)%N && (size =? 1)%nat then
          String bsl "ufffd" ++ appendBody fuel' (drop size src)
        else if (r =? 8232)%N || (r =? 8233)%N then
          String bsl "u202" ++ String (hex (N.land r 15)) ""
            ++ appendBody fuel' (drop size src)
        else
          take size src ++ appendBody fuel' (drop size src)
    end
  end.

Definition appendString (src : string) : string :=
  String dq (appendBody (String.length src) src ++ String dq "").

Definition indent (n : nat) : string := String.concat "" (repeat "  " n).

Definition member (depth : nat) (key val : string) : string :=
  indent depth ++ appendString key ++ ": " ++ val.

Definition marshalItem (it : RestoreItem) : string :=
  indent 2 ++ "{" ++ nl ++
  member 3 "name" (appendString (Name it)) ++ "," ++ nl ++
  member 3 "original_path" (appendString (OriginalPath it)) ++ "," ++ nl ++
  member 3 "trashed_at" (appendString (TrashedAt it)) ++ nl ++
  indent 2 ++ "}".

Definition marshalItems (items : slice RestoreItem) : string :=
  match items with
  | None => "null"
  | Some [] => "[]"
  | Some l =>
    "[" ++ nl ++ String.concat ("," ++ nl) (map marshalItem l) ++ nl ++ indent 1 ++ "]"
  end.

(** [json.MarshalIndent(metadata, "", "  ")].  Encoding a record of
    strings cannot fail: the error is always nil. *)
Definition MarshalIndent (metadata : RestoreMetadata) : string * option error :=
  ("{" ++ nl ++ member 1 "items" (marshalItems (Items metadata)) ++ nl ++ "}",
   None).

(** ** The grammar *)

Inductive value : Type :=
| Null
| Bool (b : bool)
| Number (lit : string)
| Str (s : string)
| Array (l : list value)
| Object (m : list (string * value)).

Definition isSpace (c : ascii) : bool :=
  let b := code c in
  (b =? 32)%N || (b =? 9)%N || (b =? 13)%N || (b =? 10)%N.

Fixpoint skipSpace (s : string) : string :=
  match s with
  | String c s' => if isSpace c then skipSpace s' else s
  | "" => ""
  end.

Definition isDigit (c : ascii) : bool := utf8.inRange 48 57 (code c).

Definition hexVal (c : ascii) : option N :=
  let b := code c in
  if utf8.inRange 48 57 b then Some (b - 48)%N
  else if utf8.inRange 97 102 b then Some (b - 87)%N
  else if utf8.inRange 65 70 b then Some (b - 55)%N
  else None.

(** Four hexadecimal digits. *)
Definition hex4 (s : string) : option (N * string) :=
  match s with
  | String h1 (String h2 (String h3 (String h4 rest))) =>
    match hexVal h1, hexVal h2, hexVal h3, hexVal h4 with
    | Some a, Some b, Some c, Some d =>
      Some ((((a * 16 + b) * 16 + c) * 16 + d)%N, rest)
    | _, _, _, _ => None
    end
  | _ => None
  end.

(** [getu4]: a \uXXXX escape at the head of [s]. *)
Definition getu4 (s : string) : option (N * string) :=
  match s with
  | String c (String "u" s') => if Ascii.eqb c bsl then hex4 s' else None
  | _ => None
  end.

Definition IsSurrogate (r : N) : bool := (55296 <=? r)%N && (r <? 57344)%N.

(** [utf16.DecodeRune]. *)
Definition utf16DecodeRune (r1 r2 : N) : N :=
  if ((55296 <=? r1)%N && (r1 <? 56320)%N) && ((56320 <=? r2)%N && (r2 <? 57344)%N)
  then (N.lor (N.shiftl (r1 - 55296) 10) (r2 - 56320) + 65536)%N
  else utf8.RuneError.

Definition simpleEscape (e : ascii) : option ascii :=
  if Ascii.eqb e dq then Some dq
  else if Ascii.eqb e bsl then Some bsl
  else if Ascii.eqb e "/" then Some "/"%char
  else if Ascii.eqb e "b" then Some bs
  else if Ascii.eqb e "f" then Some ff
  else if Ascii.eqb e "n" then Some lf
  else if Ascii.eqb e "r" then Some cr
  else if Ascii.eqb e "t" then Some tab
  else None.

Definition prepend (p : string) (r : option (string * string))
  : option (string * string) :=
  match r with
  | Some (s, rest) => Some (p ++ s, rest)
  | None => None
  end.

(** A string literal after its opening quote: the scanner's check and
    [unquote] in one pass.  Gives the decoded string and the input
    after the closing quote. *)
Fixpoint scanString (fuel : nat) (s : string) : option (string * string) :=
  match fuel with
  | O => None
  | S fuel' =>
    match s with
    | "" => None
    | String c s' =>
      let b := code c in
      if (b =? 34)%N then Some ("", s')
      else if (b =? 92)%N then
        match s' with
        | "" => None
        | String e s'' =>
          if Ascii.eqb e "u" then
            match hex4 s'' with
            | None => None
            | Some (rr, s5) =>
              if IsSurrogate rr then
                match getu4 s5 with
                | Some (rr1, s11) =>
                  let dec := utf16DecodeRune rr rr1 in
                  if (dec =? utf8.RuneError)%N
                  then prepend (utf8.EncodeRune utf8.RuneError) (scanString fuel' s5)
                  else prepend (utf8.EncodeRune dec) (scanString fuel' s11)
                | None =>
                  prepend (utf8.EncodeRune utf8.RuneError) (scanString fuel' s5)
                end
              else prepend (utf8.EncodeRune rr) (scanString fuel' s5)
            end
          else
            match simpleEscape e with
            | Some ch => prepend (String ch "") (scanString fuel' s'')
            | None => None
            end
        end
      else if (b <? 32)%N then None
      else if (b <? 128)%N then prepend (String c "") (scanString fuel' s')
      else
        let '(r, size) := utf8.DecodeRune s in
        prepend (utf8.EncodeRune r) (scanString fuel' (drop size s))
    end
  end.

Fixpoint spanDigits (s : string) : string * string :=
  match s with
  | String c s' =>
    if isDigit c then let '(d, r) := spanDigits s' in (String c d, r)
    else ("", s)
  | "" => ("", "")
  end.

(** A number: an optional minus sign; a zero, or a non-zero digit and
    digits; an optional fraction (a dot and at least one digit); an
    optional exponent (e or E, an optional sign, at least one digit). *)
Definition scanNumber (s : string) : option (string * string) :=
  let '(sign, s0) :=
    match s with
    | String "-" r => ("-", r)
    | _ => ("", s)
    end in
  let int :=
    match s0 with
    | String "0" r => Some ("0", r)
    | String c _ =>
      if isDigit c then Some (spanDigits s0) else None
    | "" => None
    end in
  match int with
  | None => None
  | Some (ip, s1) =>
    let frac :=
      match s1 with
      | String "." r =>
        match spanDigits r with
        | ("", _) => None
        | (d, r') => Some ("." ++ d, r')
        end
      | _ => Some ("", s1)
      end in
    match frac with
    | None => None
    | Some (fp, s2) =>
      let exp :=
        match s2 with
        | String e r =>
          if Ascii.eqb e "e" || Ascii.eqb e "E" then
            let '(sg, r1) :=
              match r with
              | String "+" r' => ("+", r')
              | String "-" r' => ("-", r')
              | _ => ("", r)
              end in
            match spanDigits r1 with
            | ("", _) => None
            | (d, r') => Some (String e sg ++ d, r')
            end
          else Some ("", s2)
        | "" => Some ("", s2)
        end in
      match exp with
      | None => None
      | Some (ep, s3) => Some (sign ++ ip ++ fp ++ ep, s3)
      end
    end
  end.

(** [lit] at the head of [s]. *)
Fixpoint literal (lit s : string) : option string :=
  match lit with
  | "" => Some s
  | String a lit' =>
    match s with
    | String b s' => if Ascii.eqb a b then literal lit' s' else None
    | "" => None
    end
  end.

Definition maxNestingDepth : N := 10000.

Fixpoint parseValue (fuel : nat) (depth : N) (s : string) {struct fuel}
  : option (value * string) :=
  match fuel with
  | O => None
  | S fuel' =>
    match skipSpace s with
    | "" => None
    | String c s' =>
      if Ascii.eqb c "{" then
        if (maxNestingDepth <? depth + 1)%N then None
        else match skipSpace s' with
             | String "}" r => Some (Object [], r)
             | _ =>
               match parseMembers fuel' (depth + 1)%N s' with
               | Some (ms, r) => Some (Object ms, r)
               | None => None
               end
             end
      else if Ascii.eqb c "[" then
        if (maxNestingDepth <? depth + 1)%N then None
        else match skipSpace s' with
             | String "]" r => Some (Array [], r)
             | _ =>
               match parseElems fuel' (depth + 1)%N s' with
               | Some (vs, r) => Some (Array vs, r)
               | None => None
               end
             end
      else if Ascii.eqb c dq then
        match scanString (String.length s') s' with
        | Some (str, r) => Some (Str str, r)
        | None => None
        end
      else if Ascii.eqb c "t" then
        option_map (fun r => (Bool true, r)) (literal "rue" s')
      else if Ascii.eqb c "f" then
        option_map (fun r => (Bool false, r)) (literal "alse" s')
      else if Ascii.eqb c "n" then
        option_map (fun r => (Null, r)) (literal "ull" s')
      else
        match scanNumber (String c s') with
        | Some (lit, r) => Some (Number lit, r)
        | None => None
        end
    end
  end

with parseElems (fuel : nat) (depth : N) (s : string) {struct fuel}
  : option (list value * string) :=
  match fuel with
  | O => None
  | S fuel' =>
    match parseValue fuel' depth s with
    | None => None
    | Some (v, s1) =>
      match skipSpace s1 with
      | String "," s2 =>
        match parseElems fuel' depth s2 with
        | Some (vs, r) => Some (v :: vs, r)
        | None => None
        end
      | String "]" r => Some ([v], r)
      | _ => None
      end
    end
  end

with parseMembers (fuel : nat) (depth : N) (s : string) {struct fuel}
  : option (list (string * value) * string) :=
  match fuel with
  | O => None
  | S fuel' =>
    match skipSpace s with
    | String c s1 =>
      if negb (Ascii.eqb c dq) then None
      else
        match scanString (String.length s1) s1 with
        | None => None
        | Some (key, s2) =>
          match skipSpace s2 with
          | String ":" s3 =>
            match parseValue fuel' depth s3 with
            | None => None
            | Some (v, s4) =>
              match skipSpace s4 with
              | String "," s5 =>
                match parseMembers fuel' depth s5 with
                | Some (ms, r) => Some ((key, v) :: ms, r)
                | None => None
                end
              | String "}" r => Some ([(key, v)], r)
              | _ => None
              end
            end
          | _ => None
          end
        end
    | "" => None
    end
  end.

(** [checkValid] and the scan of the one top-level value. *)
Definition parse (data : string) : option value :=
  match parseValue (S (String.length data)) 0 data with
  | Some (v, rest) =>
    match skipSpace rest with
    | "" => Some v
    | _ => None
    end
  | None => None
  end.

(** ** Decoding into [RestoreMetadata] *)

(** [foldName]: two keys name the same field when their folded forms are
    equal.  ASCII letters fold to upper case.  Outside ASCII only two
    runes have an ASCII letter in their fold orbit: U+017F (long s) and
    U+212A (the Kelvin sign); every other rune folds to a rune outside
    ASCII and is kept as it is here, since the field names of the record
    are ASCII and such a key names none of them either way. *)
Fixpoint foldName (s : string) : string :=
  match s with
  | "" => ""
  | String c s1 =>
    let b := code c in
    if utf8.inRange 97 122 b then String (chr (b - 32)) (foldName s1)
    else
      match s1 with
      | String c1 s2 =>
        if (b =? 197)%N && (code c1 =? 191)%N then String "S" (foldName s2)
        else
          match s2 with
          | String c2 s3 =>
            if (b =? 226)%N && (code c1 =? 132)%N && (code c2 =? 170)%N
            then String "K" (foldName s3)
            else String c (foldName s1)
          | "" => String c (foldName s1)
          end
      | "" => String c ""
      end
  end.

Definition fieldMatch (key field : string) : bool :=
  String.eqb (foldName key) (foldName field).

Definition kind (v : value) : string :=
  match v with
  | Null => "null"
  | Bool _ => "bool"
  | Number _ => "number"
  | Str _ => "string"
  | Array _ => "array"
  | Object _ => "object"
  end.

(** [UnmarshalTypeError] *)
Definition typeError (v : value) (goType : string) : error :=
  Errorf ("json: cannot unmarshal " ++ kind v ++ " into Go value of type " ++ goType).

Definition syntaxError : error := Errorf "json: syntax error".

(** A value stored into a field of type string.  A value of another
    kind leaves the field as it is and records a type error; decoding
    goes on. *)
Definition decodeString (cur : string) (v : value) : string * list error :=
  match v with
  | Str s => (s, [])
  | Null => (cur, [])
  | _ => (cur, [typeError v "string"])
  end.

Definition decodeItemMember (acc : RestoreItem * list error) (kv : string * value)
  : RestoreItem * list error :=
  let '(it, errs) := acc in
  let '(key, v) := kv in
  if fieldMatch key "name" then
    let '(s, e) := decodeString (Name it) v in
    (mkItem s (OriginalPath it) (TrashedAt it), (errs ++ e)%list)
  else if fieldMatch key "original_path" then
    let '(s, e) := decodeString (OriginalPath it) v in
    (mkItem (Name it) s (TrashedAt it), (errs ++ e)%list)
  else if fieldMatch key "trashed_at" then
    let '(s, e) := decodeString (TrashedAt it) v in
    (mkItem (Name it) (OriginalPath it) s, (errs ++ e)%list)
  else (it, errs).   (* an unknown member is skipped *)

Definition decodeItem (cur : RestoreItem) (v : value) : RestoreItem * list error :=
  match v with
  | Object ms => fold_left decodeItemMember ms (cur, [])
  | Null => (cur, [])
  | _ => (cur, [typeError v "config.RestoreItem"])
  end.

(** The elements of an array, each decoded into the slot of the backing
    array it lands in (a new slot holds the zero value). *)
Fixpoint decodeElems (backing : list RestoreItem) (vs : list value)
  : list RestoreItem * list error :=
  match vs with
  | [] => ([], [])
  | v :: vs' =>
    let '(it, e1) := decodeItem (hd zeroItem backing) v in
    let '(rest, e2) := decodeElems (tl backing) vs' in
    (it :: rest, (e1 ++ e2)%list)
  end.

(** A value stored into the field [Items].  The state is the slice and
    its backing array: when the member occurs again in one object, the
    decoder writes into the slots the slice already has. *)
Definition decodeItems (st : slice RestoreItem * list RestoreItem) (v : value)
  : (slice RestoreItem * list RestoreItem) * list error :=
  let '(_, backing) := st in
  match v with
  | Array [] => ((Some [], []), [])
  | Array vs =>
    let '(l, e) := decodeElems backing vs in
    ((Some l, (l ++ skipn (length l) backing)%list), e)
  | Null => ((None, []), [])
  | _ => (st, [typeError v "[]config.RestoreItem"])
  end.

Definition decodeMetadataMember
  (acc : (slice RestoreItem * list RestoreItem) * list error)
  (kv : string * value) :=
  let '(st, errs) := acc in
  let '(key, v) := kv in
  if fieldMatch key "items" then
    let '(st', e) := decodeItems st v in (st', (errs ++ e)%list)
  else (st, errs).

(** [json.Unmarshal(data, &metadata)] on a [metadata] that holds the
    zero value, which is how every caller declares it.  A syntax error
    leaves the record untouched; after type errors the record holds what
    could be stored, and the first of them is returned. *)
Definition Unmarshal (data : string) : RestoreMetadata * option error :=
  match parse data with
  | None => (zeroMetadata, Some syntaxError)
  | Some (Object ms) =>
    let '((items, _), errs) := fold_left decodeMetadataMember ms ((None, []), []) in
    (mkMetadata items, hd_error errs)
  | Some Null => (zeroMetadata, None)
  | Some v => (zeroMetadata, Some (typeError v "config.RestoreMetadata"))
  end.

End json.

(* ================================================================== *)
(** * Programs over the operating system *)
(* ================================================================== *)

(** What [os.Stat] and [os.ReadDir] tell about an entry. *)
Record FileInfo : Type := mkInfo { IsDir : bool; Mode : N }.
Record DirEntry : Type := mkEntry { EntryName : string; EntryIsDir : bool }.

(** An open file ([*os.File]). *)
Definition File : Type := N.

(** A call that returns a value and an error gives [inl] the value when
    the error is nil, and [inr] the error otherwise: every caller of
    such a call looks at the error first and leaves the value alone when
    there is one.  [os.ReadFile] is the exception: it returns the bytes
    read so far together with the error, and restore.go (line 199) drops
    the error and goes on with the bytes; its answer is the pair. *)
Definition result (A : Type) : Type := (A + error)%type.

(** The calls the program makes into [os], [time] and [path/filepath]
    (of the last, only [Abs], which asks for the working directory). *)
Inductive Op : Type -> Type :=
| UserHomeDir : Op (result string)
| Getwd : Op (result string)
| Abs (path : string) : Op (result string)
| Now (layout : string) : Op string          (* time.Now().Format(layout) *)
| Stat (name : string) : Op (result FileInfo)
| ReadDir (name : string) : Op (result (list DirEntry))
| ReadFile (name : string) : Op (string * option error)
                                            (* the bytes read so far, and the error *)
| WriteFile (name data : string) (perm : N) : Op (option error)
| MkdirAll (path : string) (perm : N) : Op (option error)
| Rename (oldpath newpath : string) : Op (option error)
| Remove (name : string) : Op (option error)
| RemoveAll (path : string) : Op (option error)
| Open (name : string) : Op (result File)
| Create (name : string) : Op (result File)
| ReadFrom (dst src : File) : Op (option error)   (* the byte count is dropped *)
| Close (f : File) : Op (option error)
| Chmod (name : string) (mode : N) : Op (option error).

(** The calls that change the file system. *)
Definition mutating {X} (op : Op X) : bool :=
  match op with
  | WriteFile _ _ _ | MkdirAll _ _ | Rename _ _ | Remove _ | RemoveAll _
  | Create _ | ReadFrom _ _ | Chmod _ _ => true
  | _ => false
  end.

Inductive stream : Type := Stdout | Stderr.

(** A program: it returns, leaves through [os.Exit], prints, or calls the
    operating system and goes on with the answer.  [Stuck] stands for a
    recursion over directories that was cut off (see [CopyDir]). *)
Inductive prog (A : Type) : Type :=
| Ret (a : A)
| Exit (code : Z)
| Stuck
| Print (fd : stream) (text : string) (k : prog A)
| Call (X : Type) (op : Op X) (k : X -> prog A).

Arguments Ret {A} a.
Arguments Exit {A} code.
Arguments Stuck {A}.
Arguments Print {A} fd text k.
Arguments Call {A X} op k.

Fixpoint bind {A B} (p : prog A) (f : A -> prog B) : prog B :=
  match p with
  | Ret a => f a
  | Exit c => Exit c
  | Stuck => Stuck
  | Print fd t k => Print fd t (bind k f)
  | Call op k => Call op (fun x => bind (k x) f)
  end.

Definition call {X} (op : Op X) : prog X := Call op Ret.
Definition print (fd : stream) (text : string) : prog unit := Print fd text (Ret tt).
Definition when (b : bool) (p : prog unit) : prog unit := if b then p else Ret tt.

Declare Scope prog_scope.
Delimit Scope prog_scope with prog.
Notation "x <- p ;; q" := (bind p (fun x => q))
  (at level 61, p at next level, right associativity) : prog_scope.
Notation "' pat <- p ;; q" := (bind p (fun x => match x with pat => q end))
  (at level 61, pat pattern, p at next level, right associativity) : prog_scope.
Notation "p ;; q" := (bind p (fun _ => q))
  (at level 61, right associativity) : prog_scope.
Local Open Scope prog_scope.

(** ** Worlds and runs *)

(** A world answers every call from its state. *)
Record World : Type := mkWorld {
  state : Type;
  handle : forall X, Op X -> state -> X * state
}.

Inductive event : Type :=
| EvPrint (fd : stream) (text : string)
| EvCall (X : Type) (op : Op X).
Arguments EvCall {X} op.

Inductive outcome (A : Type) : Type :=
| Done (a : A)
| Exited (code : Z)
| OutOfFuel.
Arguments Done {A} a.
Arguments Exited {A} code.
Arguments OutOfFuel {A}.

(** A run gives the outcome, the final state and the events in order. *)
Fixpoint run (W : World) {A} (p : prog A) (s : state W)
  : outcome A * state W * list event :=
  match p with
  | Ret a => (Done a, s, [])
  | Exit c => (Exited c, s, [])
  | Stuck => (OutOfFuel, s, [])
  | Print fd t k =>
    let '(o, s', tr) := run W k s in (o, s', EvPrint fd t :: tr)
  | Call op k =>
    let '(x, s1) := handle W op s in
    let '(o, s', tr) := run W (k x) s1 in (o, s', EvCall op :: tr)
  end.

Definition isMutation (e : event) : bool :=
  match e with
  | EvPrint _ _ => false
  | EvCall op => mutating op
  end.

(** What a run wrote to a stream. *)
Fixpoint printed (fd : stream) (tr : list event) : list string :=
  match tr with
  | [] => []
  | EvPrint Stdout t :: tr' =>
    match fd with Stdout => t :: printed fd tr' | Stderr => printed fd tr' end
  | EvPrint Stderr t :: tr' =>
    match fd with Stderr => t :: printed fd tr' | Stdout => printed fd tr' end
  | EvCall _ :: tr' => printed fd tr'
  end.

(** The process exit status of a command's [Run]. *)
Definition exitCode {A} (o : outcome A) : option Z :=
  match o with
  | Done _ => Some 0%Z
  | Exited c => Some c
  | OutOfFuel => None
  end.

(* ================================================================== *)
(** * path/filepath

    [Join], [Dir] and [Base] are functions of the Go standard library on
    path strings.  Nothing below depends on what they compute; they are
    an interface here. *)
(* ================================================================== *)

Class Filepath : Type := {
  Join : list string -> string;
  Dir  : string -> string;
  Base : string -> string
}.

(* ================================================================== *)
(** * internal/config *)
(* ================================================================== *)

Section Config.

Context {filepath : Filepath}.

(** The bound on the nesting of directories that [CopyDir] follows; the
    source recurses as deep as the tree is. *)
Variable depth : nat.

(** [GetConfigDir] returns the path to the trash config directory. *)
Definition GetConfigDir : prog (string * option error) :=
  r <- call UserHomeDir ;;
  match r with
  | inr err =>
    Ret ("", Some (Errorf ("failed to get user home directory: " ++ Error err)))
  | inl homeDir =>
    let configDir := Join [homeDir; ".config"; "trash"] in
    Ret (configDir, None)
  end.

(** [EnsureConfigDir] ensures the trash config directory exists. *)
Definition EnsureConfigDir : prog (option error) :=
  '(configDir, err) <- GetConfigDir ;;
  match err with
  | Some e => Ret (Some e)
  | None =>
    r <- call (Stat configDir) ;;
    match r with
    | inr e =>
      if IsNotExist e then
        e' <- call (MkdirAll configDir 493) ;;
        match e' with
        | Some e'' =>
          Ret (Some (Errorf ("failed to create config directory: " ++ Error e'')))
        | None =>
          print Stdout ("Created config directory: " ++ configDir ++ nl) ;;
          Ret None
        end
      else Ret None
    | inl _ => Ret None
    end
  end.

(** [CreateTrashTimestampDir] creates a new timestamped directory in the
    trash config directory and returns its path. *)
Definition CreateTrashTimestampDir : prog (string * option error) :=
  '(configDir, err) <- GetConfigDir ;;
  match err with
  | Some e => Ret ("", Some e)
  | None =>
    timestamp <- call (Now "20060102_150405") ;;
    let trashDir := Join [configDir; timestamp] in
    e <- call (MkdirAll trashDir 493) ;;
    match e with
    | Some e' =>
      Ret ("", Some (Errorf ("failed to create trash directory: " ++ Error e')))
    | None => Ret (trashDir, None)
    end
  end.

(** [CopyFile] copies a single file from src to dst.  The two deferred
    [Close] calls run when the function returns, the later one first. *)
Definition CopyFile (src dst : string) : prog (option error) :=
  r <- call (Open src) ;;
  match r with
  | inr err => Ret (Some err)
  | inl sourceFile =>
    r' <- call (Create dst) ;;
    match r' with
    | inr err => call (Close sourceFile) ;; Ret (Some err)
    | inl destFile =>
      let leave (e : option error) : prog (option error) :=
        call (Close destFile) ;; call (Close sourceFile) ;; Ret e in
      e <- call (ReadFrom destFile sourceFile) ;;
      match e with
      | Some err => leave (Some err)
      | None =>
        r'' <- call (Stat src) ;;
        match r'' with
        | inr err => leave (Some err)
        | inl sourceInfo =>
          e' <- call (Chmod dst (Mode sourceInfo)) ;;
          leave e'
        end
      end
    end
  end.

(** [CopyDir] recursively copies a directory from src to dst. *)
Fixpoint CopyDirN (n : nat) (src dst : string) : prog (option error) :=
  match n with
  | O => Stuck
  | S n' =>
    r <- call (Stat src) ;;
    match r with
    | inr err => Ret (Some err)
    | inl sourceInfo =>
      e <- call (MkdirAll dst (Mode sourceInfo)) ;;
      match e with
      | Some err => Ret (Some err)
      | None =>
        r' <- call (ReadDir src) ;;
        match r' with
        | inr err => Ret (Some err)
        | inl entries =>
          (fix each (entries : list DirEntry) : prog (option error) :=
             match entries with
             | [] => Ret None
             | entry :: rest =>
               let srcPath := Join [src; EntryName entry] in
               let dstPath := Join [dst; EntryName entry] in
               e' <- (if EntryIsDir entry
                      then CopyDirN n' srcPath dstPath
                      else CopyFile srcPath dstPath) ;;
               match e' with
               | Some err => Ret (Some err)
               | None => each rest
               end
             end) entries
        end
      end
    end
  end.

Definition CopyDir : string -> string -> prog (option error) := CopyDirN depth.

(** [MoveToTrash] moves a file or directory to the specified trash
    directory and returns the basename of the moved item for metadata
    tracking. *)
Definition MoveToTrash (sourcePath trashDir : string) : prog (string * option error) :=
  r <- call (Abs sourcePath) ;;
  match r with
  | inr err => Ret ("", Some (Errorf ("failed to get absolute path: " ++ Error err)))
  | inl absPath =>
    r' <- call (Stat absPath) ;;
    match r' with
    | inr err =>
      if IsNotExist err
      then Ret ("", Some (Errorf ("path does not exist: " ++ absPath)))
      else Ret ("", Some (Errorf ("failed to stat source: " ++ Error err)))
    | inl sourceInfo =>
      let baseName := Base absPath in
      let destPath := Join [trashDir; baseName] in
      e <- call (Rename absPath destPath) ;;
      match e with
      | None => Ret (baseName, None)
      | Some _ =>
        if IsDir sourceInfo then
          e1 <- CopyDir absPath destPath ;;
          match e1 with
          | Some err =>
            Ret ("", Some (Errorf ("failed to copy directory " ++ absPath
                                     ++ " to trash: " ++ Error err)))
          | None =>
            e2 <- call (RemoveAll absPath) ;;
            match e2 with
            | Some err =>
              Ret ("", Some (Errorf ("failed to remove original directory "
                                       ++ absPath ++ ": " ++ Error err)))
            | None => Ret (baseName, None)
            end
          end
        else
          e1 <- CopyFile absPath destPath ;;
          match e1 with
          | Some err =>
            Ret ("", Some (Errorf ("failed to copy file " ++ absPath
                                     ++ " to trash: " ++ Error err)))
          | None =>
            e2 <- call (Remove absPath) ;;
            match e2 with
            | Some err =>
              Ret ("", Some (Errorf ("failed to remove original file "
                                       ++ absPath ++ ": " ++ Error err)))
            | None => Ret (baseName, None)
            end
          end
      end
    end
  end.

(** [SaveRestoreMetadata] saves the restore metadata to a .restore file
    in the trash directory. *)
Definition SaveRestoreMetadata (trashDir : string) (metadata : RestoreMetadata)
  : prog (option error) :=
  let restoreFilePath := Join [trashDir; ".restore"] in
  match json.MarshalIndent metadata with
  | (_, Some err) => Ret (Some (Errorf ("failed to marshal metadata: " ++ Error err)))
  | (jsonData, None) =>
    e <- call (WriteFile restoreFilePath jsonData 420) ;;
    match e with
    | Some err => Ret (Some (Errorf ("failed to write .restore file: " ++ Error err)))
    | None => Ret None
    end
  end.

End Config.

(* ================================================================== *)
(** * sort *)
(* ================================================================== *)

(** [sort.Strings] and [sort.Sort(sort.Reverse(sort.StringSlice(x)))]
    leave [x] sorted by the byte order of Go strings, which is
    [String.leb].  Go's algorithm is not stable, but equal strings cannot
    be told apart, so the sorted slice is determined by its elements
    ([sortBy_unique] below); an insertion sort computes it. *)
Fixpoint insertBy (le : string -> string -> bool) (x : string) (l : list string)
  : list string :=
  match l with
  | [] => [x]
  | y :: l' => if le x y then x :: l else y :: insertBy le x l'
  end.

Definition sortBy (le : string -> string -> bool) (l : list string) : list string :=
  fold_right (insertBy le) [] l.

Definition geb (a b : string) : bool := String.leb b a.

Definition sortStrings : list string -> list string := sortBy String.leb.
Definition sortReverse : list string -> list string := sortBy geb.

(* ================================================================== *)
(** * cmd *)
(* ================================================================== *)

Section Cmd.

Context {filepath : Filepath}.
Variable depth : nat.

(** The names of the entries that are directories (the loop that fills
    [trashDirs] in list.go and restore.go). *)
Fixpoint dirNames (entries : list DirEntry) (trashDirs : list string) : list string :=
  match entries with
  | [] => trashDirs
  | entry :: rest =>
    if EntryIsDir entry
    then dirNames rest (trashDirs ++ [EntryName entry])%list
    else dirNames rest trashDirs
  end.

(** What reading a batch's sidecar comes to.  list.go (lines 54-77) and
    restore.go (lines 74-88) go through the same three steps inline and
    skip the batch in the first three cases. *)
Inductive loaded : Type :=
| NoMetadata                       (* os.Stat says the file does not exist *)
| ReadFailed (err : error)         (* os.ReadFile failed *)
| ParseFailed (err : error)        (* json.Unmarshal failed *)
| Loaded (metadata : RestoreMetadata).

Definition load (restoreFile : string) : prog loaded :=
  r <- call (Stat restoreFile) ;;
  if match r with inr err => IsNotExist err | inl _ => false end
  then Ret NoMetadata
  else
    '(data, e) <- call (ReadFile restoreFile) ;;
    match e with
    | Some err => Ret (ReadFailed err)
    | None =>
      match json.Unmarshal data with
      | (_, Some err) => Ret (ParseFailed err)
      | (metadata, None) => Ret (Loaded metadata)
      end
    end.

(** ** cmd/root.go *)

Definition RFC3339 : string := "2006-01-02T15:04:05Z07:00".

(** The loop over the paths given on the command line. *)
Fixpoint trashEach (verbose : bool) (trashDir : string) (args : list string)
  (successCount : nat) (failedPaths : list string) (metadata : RestoreMetadata)
  : prog (nat * list string * RestoreMetadata) :=
  match args with
  | [] => Ret (successCount, failedPaths, metadata)
  | path :: rest =>
    wd <- call Getwd ;;
    absPath <- match wd with
               | inl _ =>
                 a <- call (Abs path) ;;
                 Ret (match a with inl p => p | inr _ => "" end)
               | inr _ => Ret path
               end ;;
    '(baseName, err) <- MoveToTrash depth path trashDir ;;
    match err with
    | Some e =>
      print Stderr ("Error: " ++ Error e ++ nl) ;;
      trashEach verbose trashDir rest successCount (failedPaths ++ [path])%list metadata
    | None =>
      when verbose (print Stdout ("Moved to trash: " ++ path ++ nl)) ;;
      trashedAt <- call (Now RFC3339) ;;
      trashEach verbose trashDir rest (S successCount) failedPaths
        (mkMetadata (append (Items metadata) (mkItem baseName absPath trashedAt)))
    end
  end.

(** [rootCmd.Run] *)
Definition rootCmd_Run (verbose : bool) (args : list string) : prog unit :=
  if (length args =? 0)%nat then
    print Stdout ("Welcome to Trash! Use --help to see available commands." ++ nl) ;;
    print Stdout ("Usage: trash [file/directory paths...] to move items to trash" ++ nl)
  else
    '(trashDir, err) <- CreateTrashTimestampDir ;;
    match err with
    | Some e =>
      print Stderr ("Error creating trash directory: " ++ Error e ++ nl) ;;
      Exit 1
    | None =>
      when verbose (print Stdout ("Created trash directory: " ++ trashDir ++ nl)) ;;
      '(successCount, failedPaths, metadata) <-
        trashEach verbose trashDir args 0 [] (mkMetadata (Some [])) ;;
      when (0 <? len (Items metadata))%nat
        (e <- SaveRestoreMetadata trashDir metadata ;;
         match e with
         | Some e' =>
           print Stderr ("Warning: failed to save restore metadata: " ++ Error e' ++ nl)
         | None => Ret tt
         end) ;;
      when (0 <? successCount)%nat
        (print Stdout ("Successfully moved " ++ itoa successCount
                         ++ " item(s) to trash" ++ nl)) ;;
      if (0 <? length failedPaths)%nat then
        print Stderr ("Failed to trash " ++ itoa (length failedPaths)
                        ++ " item(s)" ++ nl) ;;
        Exit 1
      else Ret tt
    end.

(** [Execute] runs before every command.  [rootCmd.Execute] belongs to
    the cobra library: it parses the command line, runs the [Run] of the
    command it names (which may leave through [os.Exit]) and returns the
    error of the parse, if any; it is a parameter here. *)
Definition Execute (rootCmd_Execute : prog (option error)) : prog unit :=
  e <- EnsureConfigDir ;;
  match e with
  | Some err => print Stderr ("Warning: " ++ Error err ++ nl)
  | None => Ret tt
  end ;;
  e' <- rootCmd_Execute ;;
  match e' with
  | Some err => print Stderr (Error err ++ nl) ;; Exit 1
  | None => Ret tt
  end.

(** ** cmd/version.go *)

(** [versionCmd.Run]; the three variables are set when the program is
    linked (they default to 0.1.0, unknown and unknown). *)
Definition versionCmd_Run (Version BuildDate GitCommit : string) : prog unit :=
  print Stdout ("Trash v" ++ Version ++ nl) ;;
  print Stdout ("Build Date: " ++ BuildDate ++ nl) ;;
  print Stdout ("Git Commit: " ++ GitCommit ++ nl).

(** ** cmd/list.go *)

Fixpoint listItems (verbose : bool) (items : list RestoreItem) (totalItems : nat)
  : prog nat :=
  match items with
  | [] => Ret totalItems
  | item :: rest =>
    (if verbose then
       print Stdout ("  • " ++ Name item ++ nl) ;;
       print Stdout ("    Original: " ++ OriginalPath item ++ nl) ;;
       print Stdout ("    Trashed:  " ++ TrashedAt item ++ nl)
     else
       print Stdout ("  • " ++ Name item ++ " (from " ++ OriginalPath item ++ ")" ++ nl)) ;;
    listItems verbose rest (S totalItems)
  end.

Fixpoint listEach (verbose : bool) (configDir : string) (trashDirs : list string)
  (totalItems : nat) : prog nat :=
  match trashDirs with
  | [] => Ret totalItems
  | dirName :: rest =>
    let dirPath := Join [configDir; dirName] in
    let restoreFile := Join [dirPath; ".restore"] in
    l <- load restoreFile ;;
    match l with
    | NoMetadata =>
      when verbose (print Stdout (nl ++ "[" ++ dirName ++ "] (no metadata)" ++ nl)) ;;
      listEach verbose configDir rest totalItems
    | ReadFailed err =>
      when verbose (print Stdout (nl ++ "[" ++ dirName ++ "] Error reading metadata: "
                                     ++ Error err ++ nl)) ;;
      listEach verbose configDir rest totalItems
    | ParseFailed err =>
      when verbose (print Stdout (nl ++ "[" ++ dirName ++ "] Error parsing metadata: "
                                     ++ Error err ++ nl)) ;;
      listEach verbose configDir rest totalItems
    | Loaded metadata =>
      if (0 <? len (Items metadata))%nat then
        print Stdout (nl ++ "[" ++ dirName ++ "]" ++ nl) ;;
        totalItems' <- listItems verbose (elems (Items metadata)) totalItems ;;
        listEach verbose configDir rest totalItems'
      else listEach verbose configDir rest totalItems
    end
  end.

(** [listCmd.Run] *)
Definition listCmd_Run (verbose : bool) : prog unit :=
  '(configDir, err) <- GetConfigDir ;;
  match err with
  | Some e =>
    print Stderr ("Error getting config directory: " ++ Error e ++ nl) ;; Exit 1
  | None =>
    r <- call (ReadDir configDir) ;;
    match r with
    | inr e =>
      print Stderr ("Error reading trash directory: " ++ Error e ++ nl) ;; Exit 1
    | inl entries =>
      let trashDirs := sortStrings (dirNames entries []) in
      if (length trashDirs =? 0)%nat then
        print Stdout ("Trash is empty" ++ nl)
      else
        totalItems <- listEach verbose configDir trashDirs 0 ;;
        print Stdout (nl ++ "Total: " ++ itoa totalItems ++ " item(s) in trash" ++ nl)
    end
  end.

(** ** cmd/restore.go *)

Record MatchedItem : Type := mkMatch {
  Timestamp    : string;
  Item         : RestoreItem;
  TrashDirPath : string
}.

(** The items of one sidecar that bear the name (lines 91-99). *)
Fixpoint matchItems (itemName dirName dirPath : string) (items : list RestoreItem)
  (matches : list MatchedItem) : list MatchedItem :=
  match items with
  | [] => matches
  | item :: rest =>
    if String.eqb (Name item) itemName
    then matchItems itemName dirName dirPath rest
           (matches ++ [mkMatch dirName item dirPath])%list
    else matchItems itemName dirName dirPath rest matches
  end.

(** The search over the batch directories (lines 65-100). *)
Fixpoint findMatches (itemName specifiedTimestamp configDir : string)
  (trashDirs : list string) (matches : list MatchedItem) : prog (list MatchedItem) :=
  match trashDirs with
  | [] => Ret matches
  | dirName :: rest =>
    if negb (String.eqb specifiedTimestamp "") && negb (String.eqb dirName specifiedTimestamp)
    then findMatches itemName specifiedTimestamp configDir rest matches
    else
      let dirPath := Join [configDir; dirName] in
      let restoreFile := Join [dirPath; ".restore"] in
      l <- load restoreFile ;;
      match l with
      | Loaded metadata =>
        findMatches itemName specifiedTimestamp configDir rest
          (matchItems itemName dirName dirPath (elems (Items metadata)) matches)
      | _ => findMatches itemName specifiedTimestamp configDir rest matches
      end
  end.

(** The display of all candidates under --all (lines 110-118). *)
Fixpoint showEach (i : nat) (matches : list MatchedItem) : prog unit :=
  match matches with
  | [] => Ret tt
  | m :: rest =>
    print Stdout (itoa (i + 1) ++ ". [" ++ Timestamp m ++ "]" ++ nl) ;;
    print Stdout ("   Original: " ++ OriginalPath (Item m) ++ nl) ;;
    print Stdout ("   Trashed:  " ++ TrashedAt (Item m) ++ nl ++ nl) ;;
    showEach (S i) rest
  end.

Definition zeroMatch : MatchedItem := mkMatch "" zeroItem "".

Definition showMatches (itemName : string) (matches : list MatchedItem) : prog unit :=
  print Stdout ("Found " ++ itoa (length matches) ++ " instances of '"
                  ++ itemName ++ "':" ++ nl ++ nl) ;;
  showEach 0 matches ;;
  print Stdout ("Use --timestamp flag to specify which one to restore" ++ nl) ;;
  print Stdout ("Example: trash restore " ++ itemName ++ " --timestamp "
                  ++ Timestamp (hd zeroMatch matches) ++ nl).

(** "Check if destination already exists" (lines 137-152). *)
Definition prepareDestination (verbose force : bool) (destPath : string) : prog unit :=
  r <- call (Stat destPath) ;;
  match r with
  | inl _ =>
    if negb force then
      print Stderr ("Error: destination already exists: " ++ destPath ++ nl) ;;
      print Stderr ("Use --force to overwrite" ++ nl) ;;
      Exit 1
    else
      when verbose (print Stdout ("Overwriting existing file/directory: "
                                    ++ destPath ++ nl)) ;;
      e <- call (RemoveAll destPath) ;;
      match e with
      | Some err =>
        print Stderr ("Error removing existing destination: " ++ Error err ++ nl) ;;
        Exit 1
      | None => Ret tt
      end
  | inr _ => Ret tt
  end.

(** "Ensure parent directory exists" (lines 154-159). *)
Definition ensureParent (destPath : string) : prog unit :=
  let parentDir := Dir destPath in
  e <- call (MkdirAll parentDir 493) ;;
  match e with
  | Some err =>
    print Stderr ("Error creating parent directory: " ++ Error err ++ nl) ;;
    Exit 1
  | None => Ret tt
  end.

(** "Try to move using rename first", with the fallback to copy and
    delete (lines 161-195). *)
Definition transfer (verbose : bool) (itemName sourcePath destPath : string)
  : prog unit :=
  e <- call (Rename sourcePath destPath) ;;
  match e with
  | None =>
    when verbose (print Stdout ("Restored: " ++ itemName ++ " -> " ++ destPath ++ nl))
  | Some _ =>
    r <- call (Stat sourcePath) ;;
    match r with
    | inr err =>
      print Stderr ("Error accessing source: " ++ Error err ++ nl) ;;
      Exit 1
    | inl sourceInfo =>
      (if IsDir sourceInfo then
         e1 <- CopyDir depth sourcePath destPath ;;
         match e1 with
         | Some err =>
           print Stderr ("Error copying directory: " ++ Error err ++ nl) ;; Exit 1
         | None => Ret tt
         end
       else
         e1 <- CopyFile sourcePath destPath ;;
         match e1 with
         | Some err =>
           print Stderr ("Error copying file: " ++ Error err ++ nl) ;; Exit 1
         | None => Ret tt
         end) ;;
      e2 <- call (RemoveAll sourcePath) ;;
      match e2 with
      | Some err =>
        print Stderr ("Warning: failed to remove from trash: " ++ Error err ++ nl)
      | None => Ret tt
      end ;;
      when verbose (print Stdout ("Restored (copied): " ++ itemName ++ " -> "
                                    ++ destPath ++ nl))
    end
  end.

(** The transfer out of the batch (lines 133-195). *)
Definition moveOut (verbose force : bool) (itemName : string) (m : MatchedItem)
  : prog unit :=
  let trashDir := TrashDirPath m in
  let itemToRestore := Item m in
  let sourcePath := Join [trashDir; itemName] in
  let destPath := OriginalPath itemToRestore in
  prepareDestination verbose force destPath ;;
  ensureParent destPath ;;
  transfer verbose itemName sourcePath destPath.

(** The items that stay on record (lines 203-208). *)
Fixpoint removeItem (itemName : string) (items : list RestoreItem)
  (updatedItems : slice RestoreItem) : slice RestoreItem :=
  match items with
  | [] => updatedItems
  | item :: rest =>
    if negb (String.eqb (Name item) itemName)
    then removeItem itemName rest (append updatedItems item)
    else removeItem itemName rest updatedItems
  end.

(** The update of the sidecar after the transfer (lines 197-224). *)
Definition updateMetadata (verbose : bool) (itemName : string) (m : MatchedItem)
  : prog unit :=
  let timestamp := Timestamp m in
  let trashDir := TrashDirPath m in
  let restoreFile := Join [trashDir; ".restore"] in
  '(data, _) <- call (ReadFile restoreFile) ;;
  let '(metadata, _) := json.Unmarshal data in
  let updatedItems := removeItem itemName (elems (Items metadata)) None in
  if (len updatedItems =? 0)%nat then
    e <- call (RemoveAll trashDir) ;;
    match e with
    | Some err =>
      print Stderr ("Warning: failed to remove empty trash directory: "
                      ++ Error err ++ nl)
    | None => Ret tt
    end ;;
    when verbose (print Stdout ("Removed empty trash directory: " ++ timestamp ++ nl))
  else
    e <- SaveRestoreMetadata trashDir (mkMetadata updatedItems) ;;
    match e with
    | Some err =>
      print Stderr ("Warning: failed to update metadata: " ++ Error err ++ nl)
    | None => Ret tt
    end.

(** The restore of the chosen match (lines 127-226). *)
Definition restoreMatch (verbose force : bool) (itemName : string) (m : MatchedItem)
  : prog unit :=
  moveOut verbose force itemName m ;;
  updateMetadata verbose itemName m ;;
  print Stdout ("Successfully restored: " ++ OriginalPath (Item m) ++ nl).

(** The choice among the matches (lines 102-128). *)
Definition restoreMatches (verbose force showAll : bool)
  (itemName specifiedTimestamp : string) (matches : list MatchedItem) : prog unit :=
  if (length matches =? 0)%nat then
    print Stderr ("Error: item '" ++ itemName ++ "' not found in trash" ++ nl) ;;
    Exit 1
  else
    let restoreFirst := restoreMatch verbose force itemName (hd zeroMatch matches) in
    if (1 <? length matches)%nat then
      if showAll then showMatches itemName matches
      else
        when (String.eqb specifiedTimestamp "")
          (print Stdout ("Found " ++ itoa (length matches) ++ " instances of '"
                           ++ itemName ++ "'. Restoring the most recent one." ++ nl) ;;
           print Stdout ("Use --all to see all matches or --timestamp to specify which one."
                           ++ nl ++ nl)) ;;
        restoreFirst
    else restoreFirst.

(** [restoreCmd.Run] *)
Definition restoreCmd_Run (verbose force showAll : bool)
  (specifiedTimestamp itemName : string) : prog unit :=
  '(configDir, err) <- GetConfigDir ;;
  match err with
  | Some e =>
    print Stderr ("Error getting config directory: " ++ Error e ++ nl) ;; Exit 1
  | None =>
    r <- call (ReadDir configDir) ;;
    match r with
    | inr e =>
      print Stderr ("Error reading trash directory: " ++ Error e ++ nl) ;; Exit 1
    | inl entries =>
      let trashDirs := sortReverse (dirNames entries []) in
      matches <- findMatches itemName specifiedTimestamp configDir trashDirs [] ;;
      restoreMatches verbose force showAll itemName specifiedTimestamp matches
    end
  end.

End Cmd.

(* ================================================================== *)
(** * A small file system

    One world to run the commands in: absolute, clean paths; files with
    content and mode; directories; and a list of locked paths, which can
    be read but neither renamed, removed nor written (an immutable
    file).  It serves the concrete runs below; the theorems quantify over
    all worlds. *)
(* ================================================================== *)

Module Sim.

Definition slash : ascii := "/"%char.

(** The path before and after its last slash. *)
Fixpoint splitLast (s : string) : option (string * string) :=
  match s with
  | "" => None
  | String c s' =>
    match splitLast s' with
    | Some (d, b) => Some (String c d, b)
    | None => if Ascii.eqb c slash then Some ("", s') else None
    end
  end.

Definition simJoin (elems : list string) : string :=
  String.concat "/" (filter (fun e => negb (String.eqb e "")) elems).

Definition simDir (p : string) : string :=
  match splitLast p with
  | Some ("", _) => "/"
  | Some (d, _) => d
  | None => "."
  end.

Definition simBase (p : string) : string :=
  match splitLast p with
  | Some (_, b) => b
  | None => p
  end.

(** On clean paths these agree with path/filepath. *)
#[export] Instance paths : Filepath :=
  {| Join := simJoin; Dir := simDir; Base := simBase |}.

Inductive node : Type :=
| FileNode (content : string) (mode : N)
| DirNode (mode : N).

Record fs : Type := mkFs {
  nodes  : list (string * node);
  locked : list string;
  home   : string;
  cwd    : string;
  clock  : string;          (* the time, in the layout of batch names *)
  clock' : string;          (* the time, in RFC 3339 *)
  opened : list string      (* open files, by handle *)
}.

Definition withNodes (s : fs) (ns : list (string * node)) : fs :=
  mkFs ns (locked s) (home s) (cwd s) (clock s) (clock' s) (opened s).

Definition withOpened (s : fs) (o : list string) : fs :=
  mkFs (nodes s) (locked s) (home s) (cwd s) (clock s) (clock' s) o.

Fixpoint lookup (ns : list (string * node)) (p : string) : option node :=
  match ns with
  | [] => None
  | (q, n) :: ns' => if String.eqb q p then Some n else lookup ns' p
  end.

(** The root directory is always there. *)
Definition find (s : fs) (p : string) : option node :=
  if String.eqb p "/" then Some (DirNode 493) else lookup (nodes s) p.

Fixpoint store (ns : list (string * node)) (p : string) (n : node)
  : list (string * node) :=
  match ns with
  | [] => [(p, n)]
  | (q, m) :: ns' => if String.eqb q p then (p, n) :: ns' else (q, m) :: store ns' p n
  end.

(** [p] is [d] or lies below it. *)
Definition under (d p : string) : bool :=
  String.eqb d p || String.prefix (d ++ "/") p.

Definition isLocked (s : fs) (p : string) : bool :=
  existsb (String.eqb p) (locked s).

Definition ENOENT : error := mkError true "no such file or directory".
Definition EPERM : error := mkError false "operation not permitted".
Definition EISDIR : error := mkError false "is a directory".
Definition ENOTDIR : error := mkError false "not a directory".
Definition ENOTEMPTY : error := mkError false "directory not empty".
Definition EBADF : error := mkError false "bad file descriptor".

Definition info (n : node) : FileInfo :=
  match n with
  | FileNode _ m => mkInfo false m
  | DirNode m => mkInfo true m
  end.

Definition isDirNode (o : option node) : bool :=
  match o with Some (DirNode _) => true | _ => false end.

Definition children (s : fs) (d : string) : list (string * node) :=
  filter (fun kn => String.eqb (simDir (fst kn)) d && negb (String.eqb (fst kn) d))
         (nodes s).

Definition entryOf (s : fs) (d name : string) : DirEntry :=
  mkEntry name (isDirNode (find s (simJoin [d; name]))).

Fixpoint mkdirAll (fuel : nat) (s : fs) (p : string) (perm : N)
  : option (list (string * node)) :=
  match find s p with
  | Some (DirNode _) => Some (nodes s)
  | Some (FileNode _ _) => None
  | None =>
    match fuel with
    | O => None
    | S fuel' =>
      match mkdirAll fuel' s (simDir p) perm with
      | Some ns => Some (ns ++ [(p, DirNode perm)])%list
      | None => None
      end
    end
  end.

Definition moved (a b : string) (ns : list (string * node)) : list (string * node) :=
  (filter (fun kn => negb (under a (fst kn)) && negb (under b (fst kn))) ns
   ++ map (fun kn => ((b ++ drop (String.length a) (fst kn))%string, snd kn))
          (filter (fun kn => under a (fst kn)) ns))%list.

Definition writable (s : fs) (p : string) : bool :=
  isDirNode (find s (simDir p)) && negb (isDirNode (find s p)) && negb (isLocked s p).

Definition answer (X : Type) (op : Op X) (s : fs) : X * fs :=
  match op in Op X return X * fs with
  | UserHomeDir => (inl (home s), s)
  | Getwd => (inl (cwd s), s)
  | Abs p =>
    (inl (if String.prefix "/" p then p else simJoin [cwd s; p]), s)
  | Now layout =>
    (if String.eqb layout "20060102_150405" then clock s else clock' s, s)
  | Stat p =>
    (match find s p with Some n => inl (info n) | None => inr ENOENT end, s)
  | ReadDir d =>
    (match find s d with
     | Some (DirNode _) =>
       inl (map (entryOf s d) (sortStrings (map (fun kn => simBase (fst kn)) (children s d))))
     | Some (FileNode _ _) => inr ENOTDIR
     | None => inr ENOENT
     end, s)
  | ReadFile p =>
    (match find s p with
     | Some (FileNode c _) => (c, None)
     | Some (DirNode _) => ("", Some EISDIR)
     | None => ("", Some ENOENT)
     end, s)
  | WriteFile p data perm =>
    if writable s p then
      let mode := match find s p with Some (FileNode _ m) => m | _ => perm end in
      (None, withNodes s (store (nodes s) p (FileNode data mode)))
    else (Some EPERM, s)
  | MkdirAll p perm =>
    match mkdirAll (String.length p) s p perm with
    | Some ns => (None, withNodes s ns)
    | None => (Some ENOTDIR, s)
    end
  | Rename a b =>
    match find s a with
    | None => (Some ENOENT, s)
    | Some _ =>
      if isLocked s a || negb (isDirNode (find s (simDir b))) then (Some EPERM, s)
      else (None, withNodes s (moved a b (nodes s)))
    end
  | Remove p =>
    match find s p with
    | None => (Some ENOENT, s)
    | Some _ =>
      if isLocked s p then (Some EPERM, s)
      else if negb (length (children s p) =? 0)%nat then (Some ENOTEMPTY, s)
      else (None, withNodes s (filter (fun kn => negb (String.eqb (fst kn) p)) (nodes s)))
    end
  | RemoveAll p =>
    if existsb (under p) (locked s) then (Some EPERM, s)
    else (None, withNodes s (filter (fun kn => negb (under p (fst kn))) (nodes s)))
  | Open p =>
    match find s p with
    | Some (FileNode _ _) =>
      (inl (N.of_nat (length (opened s))), withOpened s (opened s ++ [p])%list)
    | Some (DirNode _) => (inr EISDIR, s)
    | None => (inr ENOENT, s)
    end
  | Create p =>
    if writable s p then
      let s' := withNodes s (store (nodes s) p (FileNode "" 420)) in
      (inl (N.of_nat (length (opened s))), withOpened s' (opened s ++ [p])%list)
    else (inr EPERM, s)
  | ReadFrom dst src =>
    match nth_error (opened s) (N.to_nat dst), nth_error (opened s) (N.to_nat src) with
    | Some d, Some f =>
      match find s d, find s f with
      | Some (FileNode _ m), Some (FileNode c _) =>
        (None, withNodes s (store (nodes s) d (FileNode c m)))
      | _, _ => (Some EBADF, s)
      end
    | _, _ => (Some EBADF, s)
    end
  | Close _ => (None, s)
  | Chmod p mode =>
    match find s p with
    | Some (FileNode c _) => (None, withNodes s (store (nodes s) p (FileNode c mode)))
    | Some (DirNode _) => (None, withNodes s (store (nodes s) p (DirNode mode)))
    | None => (Some ENOENT, s)
    end
  end.

Definition world : World := mkWorld answer.

Definition EIO : error := mkError false "input/output error".

(** The same file system on a medium that gives way.  The state counts
    the calls to [os.ReadFile]; the first is answered as before, every
    later one returns the bytes of the file and, with them, an error (a
    read that fails once the content has been delivered). *)
Definition wornAnswer {X : Type} (op : Op X) (st : fs * nat) : X * (fs * nat) :=
  let '(s, reads) := st in
  match op in Op X return X * (fs * nat) with
  | ReadFile p =>
    let '((data, e), s') := answer (ReadFile p) s in
    ((data, if (0 <? reads)%nat then Some EIO else e), (s', S reads))
  | op' => let '(x, s') := answer op' s in (x, (s', reads))
  end.

Definition worn : World := mkWorld (@wornAnswer).

End Sim.

(* ================================================================== *)
(** * The words of the statements *)
(* ================================================================== *)

Unset Implicit Arguments.

Definition keeps (itemName : string) (item : RestoreItem) : bool :=
  negb (String.eqb (Name item) itemName).

Definition quiet (tr : list event) : Prop := Forall (fun e => isMutation e = false) tr.

Definition newer (m1 m2 : MatchedItem) : Prop :=
  String.leb (Timestamp m2) (Timestamp m1) = true.

(** What the search finds in a batch is a match of the name in that
    batch. *)
Definition matchOf {filepath : Filepath}
  (itemName specifiedTimestamp configDir : string)
  (trashDirs : list string) (m : MatchedItem) : Prop :=
  In (Timestamp m) trashDirs
  /\ Name (Item m) = itemName
  /\ TrashDirPath m = Join [configDir; Timestamp m]
  /\ (specifiedTimestamp <> "" -> Timestamp m = specifiedTimestamp).

(** The matches that the sidecar of a batch gives for the name, as it
    loaded. *)
Definition foundIn {filepath : Filepath} (itemName configDir dirName : string)
  (l : loaded) : list MatchedItem :=
  match l with
  | Loaded metadata =>
    map (fun item => mkMatch dirName item (Join [configDir; dirName]))
        (filter (fun item => String.eqb (Name item) itemName) (elems (Items metadata)))
  | _ => []
  end.

(** What the sidecars of a list of batches give for the name. *)
Definition foundAmong {filepath : Filepath} (itemName configDir : string)
  (loads : list (string * loaded)) : list MatchedItem :=
  flat_map (fun dl => foundIn itemName configDir (fst dl) (snd dl)) loads.

(** What the sidecar [restoreFile] comes to when it is read in state [s]:
    no metadata when [os.Stat] says that the file does not exist;
    otherwise [os.ReadFile] is called, and the sidecar is loaded when
    the read gives no error and [json.Unmarshal] gives none on the
    bytes. *)
Inductive Reads (W : World) (restoreFile : string) (s : state W)
  : loaded -> state W -> list event -> Prop :=
| Reads_absent (err : error) (s1 : state W) :
    handle W (Stat restoreFile) s = (inr err, s1) ->
    IsNotExist err = true ->
    Reads W restoreFile s NoMetadata s1 [EvCall (Stat restoreFile)]
| Reads_failed (r : result FileInfo) (data : string) (err : error) (s1 s2 : state W) :
    handle W (Stat restoreFile) s = (r, s1) ->
    match r with inr e => IsNotExist e | inl _ => false end = false ->
    handle W (ReadFile restoreFile) s1 = ((data, Some err), s2) ->
    Reads W restoreFile s (ReadFailed err) s2
          [EvCall (Stat restoreFile); EvCall (ReadFile restoreFile)]
| Reads_unparsed (r : result FileInfo) (data : string) (metadata : RestoreMetadata)
    (err : error) (s1 s2 : state W) :
    handle W (Stat restoreFile) s = (r, s1) ->
    match r with inr e => IsNotExist e | inl _ => false end = false ->
    handle W (ReadFile restoreFile) s1 = ((data, None), s2) ->
    json.Unmarshal data = (metadata, Some err) ->
    Reads W restoreFile s (ParseFailed err) s2
          [EvCall (Stat restoreFile); EvCall (ReadFile restoreFile)]
| Reads_loaded (r : result FileInfo) (data : string) (metadata : RestoreMetadata)
    (s1 s2 : state W) :
    handle W (Stat restoreFile) s = (r, s1) ->
    match r with inr e => IsNotExist e | inl _ => false end = false ->
    handle W (ReadFile restoreFile) s1 = ((data, None), s2) ->
    json.Unmarshal data = (metadata, None) ->
    Reads W restoreFile s (Loaded metadata) s2
          [EvCall (Stat restoreFile); EvCall (ReadFile restoreFile)].

(** The sidecars of the batches [trashDirs] are read one after the other,
    from state [s] to state [s']; [loads] pairs each batch with what its
    sidecar came to when it was read. *)
Inductive Visited {filepath : Filepath} (W : World) (configDir : string)
  : list string -> state W -> list (string * loaded) -> state W -> list event -> Prop :=
| Visited_nil (s : state W) : Visited W configDir [] s [] s []
| Visited_cons (dirName : string) (rest : list string) (l : loaded)
    (loads : list (string * loaded)) (s s1 s' : state W) (tr1 tr2 : list event) :
    Reads W (Join [Join [configDir; dirName]; ".restore"]) s l s1 tr1 ->
    Visited W configDir rest s1 loads s' tr2 ->
    Visited W configDir (dirName :: rest) s ((dirName, l) :: loads) s' (tr1 ++ tr2).

(** The two lines printed before the most recent of several matches is
    restored. *)
Definition announceMostRecent (itemName : string) (n : nat) : list event :=
  [EvPrint Stdout ("Found " ++ itoa n ++ " instances of '" ++ itemName
                     ++ "'. Restoring the most recent one." ++ nl);
   EvPrint Stdout ("Use --all to see all matches or --timestamp to specify which one."
                     ++ nl ++ nl)].

(** The events [pre], then the run [r]. *)
Definition after {A S : Type} (pre : list event) (r : outcome A * S * list event)
  : outcome A * S * list event :=
  let '(o, s, tr) := r in (o, s, (pre ++ tr)%list).

Definition overwriting (verbose : bool) (destPath : string) : list event :=
  if verbose
  then [EvPrint Stdout ("Overwriting existing file/directory: " ++ destPath ++ nl)]
  else [].

(** From state [s]: the parent of the destination is ensured, then the
    transfer runs; a failure of [os.MkdirAll] ends the command. *)
Definition ensuredThenTransferred {filepath : Filepath} (W : World) (depth : nat)
  (verbose : bool) (itemName sourcePath destPath : string) (s : state W)
  : outcome unit * state W * list event :=
  match handle W (MkdirAll (Dir destPath) 493) s with
  | (Some err, s1) =>
    (Exited 1, s1,
     [EvCall (MkdirAll (Dir destPath) 493);
      EvPrint Stderr ("Error creating parent directory: " ++ Error err ++ nl)])
  | (None, s1) =>
    after [EvCall (MkdirAll (Dir destPath) 493)]
          (run W (transfer depth verbose itemName sourcePath destPath) s1)
  end.

(** The items on record in a sidecar text, as the update reads them:
    errors of [json.Unmarshal] are ignored. *)
Definition recorded (data : string) : list RestoreItem :=
  elems (Items (fst (json.Unmarshal data))).

(** The items that stay when the name is taken out. *)
Definition others (itemName : string) (items : list RestoreItem) : list RestoreItem :=
  filter (fun item => negb (String.eqb (Name item) itemName)) items.

Definition removalWarning (e : option error) : list event :=
  match e with
  | Some err =>
    [EvPrint Stderr ("Warning: failed to remove empty trash directory: "
                       ++ Error err ++ nl)]
  | None => []
  end.

Definition removedNote (verbose : bool) (timestamp : string) : list event :=
  if verbose
  then [EvPrint Stdout ("Removed empty trash directory: " ++ timestamp ++ nl)]
  else [].

Definition saveWarning (e : option error) : list event :=
  match e with
  | Some err =>
    [EvPrint Stderr ("Warning: failed to update metadata: "
                       ++ "failed to write .restore file: " ++ Error err ++ nl)]
  | None => []
  end.

(** The text the update writes for the items that stay. *)
Definition sidecarText (items : list RestoreItem) : string :=
  fst (json.MarshalIndent (mkMetadata (Some items))).

(** What the update does from state [s1], once the sidecar has been
    read as [data]. *)
Definition updated {filepath : Filepath} (W : World) (verbose : bool)
  (itemName : string) (m : MatchedItem) (data : string) (s1 : state W)
  : outcome unit * state W * list event :=
  let trashDir := TrashDirPath m in
  let restoreFile := Join [trashDir; ".restore"] in
  match others itemName (recorded data) with
  | [] =>
    let '(e, s2) := handle W (RemoveAll trashDir) s1 in
    (Done tt, s2,
     (EvCall (RemoveAll trashDir) :: removalWarning e
        ++ removedNote verbose (Timestamp m))%list)
  | item :: rest =>
    let '(e, s2) :=
      handle W (WriteFile restoreFile (sidecarText (item :: rest)) 420) s1 in
    (Done tt, s2,
     (EvCall (WriteFile restoreFile (sidecarText (item :: rest)) 420)
        :: saveWarning e)%list)
  end.

(** The fallback of [MoveToTrash] once [os.Rename] has failed: the copy,
    and the removal of the original that follows it. *)
Definition fallbackCopy {filepath : Filepath} (depth : nat) (sourceInfo : FileInfo)
  (absPath destPath : string) : prog (option error) :=
  if IsDir sourceInfo
  then CopyDir depth absPath destPath
  else CopyFile absPath destPath.

Definition removal (sourceInfo : FileInfo) (absPath : string) : Op (option error) :=
  if IsDir sourceInfo then RemoveAll absPath else Remove absPath.

Definition removalError (sourceInfo : FileInfo) (absPath : string) (err : error) : error :=
  Errorf ("failed to remove original "
            ++ (if IsDir sourceInfo then "directory " else "file ")
            ++ absPath ++ ": " ++ Error err).

(** The path recorded as [original_path]: the first lines of the loop
    body of the trash command. *)
Definition absOf (W : World) (path : string) (s : state W)
  : string * state W * list event :=
  match handle W Getwd s with
  | (inl _, s1) =>
    let '(a, s2) := handle W (Abs path) s1 in
    (match a with inl p => p | inr _ => "" end, s2, [EvCall Getwd; EvCall (Abs path)])
  | (inr _, s1) => (path, s1, [EvCall Getwd])
  end.

Definition movedNote (verbose : bool) (path : string) : list event :=
  if verbose then [EvPrint Stdout ("Moved to trash: " ++ path ++ nl)] else [].

(** Every path of the list is moved into the batch by the loop of the
    trash command, which goes from state [s] to state [s']: for each
    path in turn, [MoveToTrash] returns a name and no error. *)
Inductive Trashed {filepath : Filepath} (W : World) (depth : nat) (trashDir : string)
  : list string -> state W -> state W -> Prop :=
| Trashed_nil (s : state W) : Trashed W depth trashDir [] s s
| Trashed_cons (path : string) (rest : list string) (s s1 s2 s' : state W)
    (absPath baseName : string) (tr0 tr1 : list event) :
    absOf W path s = (absPath, s1, tr0) ->
    run W (MoveToTrash depth path trashDir) s1 = (Done (baseName, None), s2, tr1) ->
    Trashed W depth trashDir rest (snd (handle W (Now RFC3339) s2)) s' ->
    Trashed W depth trashDir (path :: rest) s s'.

(** The path does not exist when the loop comes to it in state [s]:
    [os.Stat] on its absolute path [absPath] says so; the loop is then in
    state [s']. *)
Definition Missing (W : World) (path absPath : string) (s s' : state W) : Prop :=
  exists (recordedPath : string) (s1 s2 : state W) (tr0 : list event) (err : error),
    absOf W path s = (recordedPath, s1, tr0)
    /\ handle W (Abs path) s1 = (inl absPath, s2)
    /\ handle W (Stat absPath) s2 = (inr err, s')
    /\ IsNotExist err = true.

Definition validItem (it : RestoreItem) : bool :=
  utf8.ValidString (Name it) && utf8.ValidString (OriginalPath it)
  && utf8.ValidString (TrashedAt it).

(** Every string of every item is valid UTF-8. *)
Definition validMetadata (metadata : RestoreMetadata) : bool :=
  forallb validItem (elems (Items metadata)).

(** What [json.Marshal] makes of a string: it is coerced to valid UTF-8,
    every byte that starts no valid sequence being replaced by U+FFFD. *)
Fixpoint coerceN (fuel : nat) (s : string) : string :=
  match fuel with
  | O => ""
  | S fuel' =>
    match s with
    | "" => ""
    | String c s' =>
      if (code c <? 128)%N then String c (coerceN fuel' s')
      else
        let '(_, size) := utf8.DecodeRune s in
        if (size =? 1)%nat
        then utf8.EncodeRune utf8.RuneError ++ coerceN fuel' s'
        else json.take size s ++ coerceN fuel' (drop size s)
    end
  end.

Definition coerce (s : string) : string := coerceN (String.length s) s.

Definition coerceItem (it : RestoreItem) : RestoreItem :=
  mkItem (coerce (Name it)) (coerce (OriginalPath it)) (coerce (TrashedAt it)).

Definition coerceMetadata (metadata : RestoreMetadata) : RestoreMetadata :=
  mkMetadata match Items metadata with
             | None => None
             | Some l => Some (map coerceItem l)
             end.

(** A file that was written is there, and reads back as written. *)
Definition keepsWrites (W : World) : Prop :=
  forall (name data : string) (perm : N) (s s1 : state W),
    handle W (WriteFile name data perm) s = (None, s1) ->
    exists (info : FileInfo) (s2 s3 : state W),
      handle W (Stat name) s1 = (inl info, s2)
      /\ handle W (ReadFile name) s2 = ((data, None), s3).

(** ** Words of the further properties *)

(** The files a run closed, in the order of the calls. *)
Definition closed (tr : list event) : list File :=
  flat_map (fun ev => match ev with
                      | EvCall op => match op with Close f => [f] | _ => [] end
                      | EvPrint _ _ => []
                      end) tr.

(** The paths a run asked [os.Stat] about, in the order of the calls. *)
Definition statted (tr : list event) : list string :=
  flat_map (fun ev => match ev with
                      | EvCall op => match op with Stat name => [name] | _ => [] end
                      | EvPrint _ _ => []
                      end) tr.

(** [root] itself, or a path made from it by joining names to it. *)
Inductive within {filepath : Filepath} (root : string) : string -> Prop :=
| within_root : within root root
| within_entry (dir name : string) :
    within root dir -> within root (Join [dir; name]).

(** An event of a copy to [dst]: it prints nothing; it creates, fills
    and sets the mode of nothing but [dst] and what lies below it; it
    renames, removes and overwrites nothing.  ([ReadFrom] writes to a
    file that [Create] opened.) *)
Definition confined {filepath : Filepath} (dst : string) (ev : event) : Prop :=
  match ev with
  | EvPrint _ _ => False
  | EvCall op =>
    match op with
    | MkdirAll p _ | Create p | Chmod p _ => within dst p
    | WriteFile _ _ _ | Rename _ _ | Remove _ | RemoveAll _ => False
    | _ => True
    end
  end.

(** The file [src] has its copy at [dst]: it was opened, [dst] was
    created, the content went from the one to the other, and [dst] was
    given the mode that [os.Stat] reported for [src]; both files were
    closed.  The run went from state [s] to state [s']. *)
Definition CopiedFile (W : World) (src dst : string) (s s' : state W)
  (tr : list event) : Prop :=
  exists (sourceFile destFile : File) (sourceInfo : FileInfo)
         (s1 s2 s3 s4 s5 s6 : state W) (c1 c2 : option error),
    handle W (Open src) s = (inl sourceFile, s1)
    /\ handle W (Create dst) s1 = (inl destFile, s2)
    /\ handle W (ReadFrom destFile sourceFile) s2 = (None, s3)
    /\ handle W (Stat src) s3 = (inl sourceInfo, s4)
    /\ handle W (Chmod dst (Mode sourceInfo)) s4 = (None, s5)
    /\ handle W (Close destFile) s5 = (c1, s6)
    /\ handle W (Close sourceFile) s6 = (c2, s')
    /\ tr = [EvCall (Open src); EvCall (Create dst);
             EvCall (ReadFrom destFile sourceFile); EvCall (Stat src);
             EvCall (Chmod dst (Mode sourceInfo));
             EvCall (Close destFile); EvCall (Close sourceFile)].

(** The directory [src] has its copy at [dst], at every depth: [dst] was
    made with the mode of [src], and each entry that [os.ReadDir] listed
    has its copy under [dst], in the order of the listing: a directory
    in the same way, a file as [CopiedFile] says. *)
Inductive Copied {filepath : Filepath} (W : World)
  : string -> string -> state W -> state W -> list event -> Prop :=
| Copied_dir (src dst : string) (sourceInfo : FileInfo) (entries : list DirEntry)
    (s s1 s2 s3 s' : state W) (tr : list event) :
    handle W (Stat src) s = (inl sourceInfo, s1) ->
    handle W (MkdirAll dst (Mode sourceInfo)) s1 = (None, s2) ->
    handle W (ReadDir src) s2 = (inl entries, s3) ->
    CopiedEach W src dst entries s3 s' tr ->
    Copied W src dst s s'
           (EvCall (Stat src) :: EvCall (MkdirAll dst (Mode sourceInfo))
              :: EvCall (ReadDir src) :: tr)
with CopiedEach {filepath : Filepath} (W : World)
  : string -> string -> list DirEntry -> state W -> state W -> list event -> Prop :=
| CopiedEach_nil (src dst : string) (s : state W) : CopiedEach W src dst [] s s []
| CopiedEach_dir (src dst : string) (entry : DirEntry) (rest : list DirEntry)
    (s s1 s' : state W) (tr1 tr2 : list event) :
    EntryIsDir entry = true ->
    Copied W (Join [src; EntryName entry]) (Join [dst; EntryName entry]) s s1 tr1 ->
    CopiedEach W src dst rest s1 s' tr2 ->
    CopiedEach W src dst (entry :: rest) s s' (tr1 ++ tr2)
| CopiedEach_file (src dst : string) (entry : DirEntry) (rest : list DirEntry)
    (s s1 s' : state W) (tr1 tr2 : list event) :
    EntryIsDir entry = false ->
    CopiedFile W (Join [src; EntryName entry]) (Join [dst; EntryName entry]) s s1 tr1 ->
    CopiedEach W src dst rest s1 s' tr2 ->
    CopiedEach W src dst (entry :: rest) s s' (tr1 ++ tr2).

(** None of the paths exists when the loop of the trash command comes to
    it; the loop goes from state [s] to state [s']. *)
Inductive NoneThere (W : World) : list string -> state W -> state W -> Prop :=
| NoneThere_nil (s : state W) : NoneThere W [] s s
| NoneThere_cons (path absPath : string) (rest : list string) (s s1 s' : state W) :
    Missing W path absPath s s1 -> NoneThere W rest s1 s' ->
    NoneThere W (path :: rest) s s'.

Definition createdNote (verbose : bool) (trashDir : string) : list event :=
  if verbose then [EvPrint Stdout ("Created trash directory: " ++ trashDir ++ nl)] else [].

(** The save of the sidecar at the end of the trash command, from state
    [s]: nothing when no item is on record. *)
Definition saving {filepath : Filepath} (W : World) (trashDir : string)
  (metadata : RestoreMetadata) (s : state W) : state W * list event :=
  if (0 <? len (Items metadata))%nat then
    let op := WriteFile (Join [trashDir; ".restore"]) (fst (json.MarshalIndent metadata)) 420 in
    let '(e, s1) := handle W op s in
    (s1,
     EvCall op
       :: match e with
          | Some err =>
            [EvPrint Stderr ("Warning: failed to save restore metadata: "
                               ++ "failed to write .restore file: " ++ Error err ++ nl)]
          | None => []
          end)
  else (s, []).

(** The last lines of the trash command. *)
Definition summary (successCount : nat) (failedPaths : list string) : list event :=
  ((if (0 <? successCount)%nat
    then [EvPrint Stdout ("Successfully moved " ++ itoa successCount
                            ++ " item(s) to trash" ++ nl)]
    else [])
   ++ (if (0 <? length failedPaths)%nat
       then [EvPrint Stderr ("Failed to trash " ++ itoa (length failedPaths)
                               ++ " item(s)" ++ nl)]
       else []))%list.

(** What [Execute] makes of the run of the command. *)
Definition finished (W : World) (r : outcome (option error) * state W * list event)
  : outcome unit * state W * list event :=
  match r with
  | (Done (Some err), s, tr) => (Exited 1, s, (tr ++ [EvPrint Stderr (Error err ++ nl)])%list)
  | (Done None, s, tr) => (Done tt, s, tr)
  | (Exited c, s, tr) => (Exited c, s, tr)
  | (OutOfFuel, s, tr) => (OutOfFuel, s, tr)
  end.

(** The mark that starts the line of an item in the listing. *)
Definition bullet : string := "  • ".

Definition bullets (lines : list string) : nat :=
  length (filter (String.prefix bullet) lines).

(** The sidecar of a batch. *)
Definition sidecarOf {filepath : Filepath} (configDir dirName : string) : string :=
  Join [Join [configDir; dirName]; ".restore"].

Definition restoredNote (verbose : bool) (itemName destPath : string) : list event :=
  if verbose
  then [EvPrint Stdout ("Restored: " ++ itemName ++ " -> " ++ destPath ++ nl)]
  else [].

(** A run without what it printed on standard output. *)
Definition unheard (tr : list event) : list event :=
  filter (fun ev => match ev with EvPrint Stdout _ => false | _ => true end) tr.

(** Two programs that differ at most in what they print on standard
    output: from every state, the same outcome, the same final state,
    the same calls and the same lines on standard error, in the same
    order. *)
Definition alike {A : Type} (W : World) (p q : prog A) : Prop :=
  forall s : state W,
    fst (fst (run W p s)) = fst (fst (run W q s))
    /\ snd (fst (run W p s)) = snd (fst (run W q s))
    /\ unheard (snd (run W p s)) = unheard (snd (run W q s)).

(* ================================================================== *)
(** * States of the small file system *)
(* ================================================================== *)

Module Scenario.

Import Sim.

Definition trashRoot : string := "/home/u/.config/trash".

Definition skeleton : list (string * node) :=
  [("/home", DirNode 493); ("/home/u", DirNode 493);
   ("/home/u/.config", DirNode 493); (trashRoot, DirNode 493);
   ("/data", DirNode 493)].

Definition fsOf (ns : list (string * node)) (lockedPaths : list string) : fs :=
  mkFs (skeleton ++ ns) lockedPaths "/home/u" "/data"
       "20250103_120000" "2025-01-03T12:00:00Z" [].

Definition itemA (t : string) : RestoreItem := mkItem "a.txt" "/data/a.txt" t.
Definition itemB (t : string) : RestoreItem := mkItem "b.txt" "/data/b.txt" t.

Definition batch1 : string := "/home/u/.config/trash/20250101_000000".
Definition batch2 : string := "/home/u/.config/trash/20250102_000000".

(** Nothing in the trash; three entries under /data, one of them locked. *)
Definition fresh : fs :=
  fsOf [("/data/a.txt", FileNode "alpha" 420);
        ("/data/b.txt", FileNode "beta" 420);
        ("/data/d", DirNode 493);
        ("/data/d/x", FileNode "x" 384)]
       ["/data/b.txt"].

(** The batch directory of a trash command that has just started. *)
Definition started : fs :=
  fsOf [("/data/a.txt", FileNode "alpha" 420);
        ("/data/b.txt", FileNode "beta" 420);
        ("/home/u/.config/trash/20250103_120000", DirNode 493)]
       ["/data/b.txt"].

(** a.txt was trashed twice, on two days. *)
Definition twice : fs :=
  fsOf [(batch1, DirNode 493);
        (batch1 ++ "/a.txt", FileNode "first" 420);
        (batch1 ++ "/.restore", FileNode (sidecarText [itemA "2025-01-01T00:00:00Z"]) 420);
        (batch2, DirNode 493);
        (batch2 ++ "/a.txt", FileNode "second" 420);
        (batch2 ++ "/.restore", FileNode (sidecarText [itemA "2025-01-02T00:00:00Z"]) 420)]
       [].

(** One batch with a.txt and b.txt. *)
Definition pair : fs :=
  fsOf [(batch1, DirNode 493);
        (batch1 ++ "/a.txt", FileNode "alpha" 420);
        (batch1 ++ "/b.txt", FileNode "beta" 420);
        (batch1 ++ "/.restore",
         FileNode (sidecarText [itemA "2025-01-01T00:00:00Z"; itemB "2025-01-01T00:00:00Z"]) 420)]
       [].

(** One batch with a.txt alone. *)
Definition single : fs :=
  fsOf [(batch1, DirNode 493);
        (batch1 ++ "/a.txt", FileNode "alpha" 420);
        (batch1 ++ "/.restore", FileNode (sidecarText [itemA "2025-01-01T00:00:00Z"]) 420)]
       [].

(** The sidecar lists a.txt and b.txt, a.txt is no longer in the batch,
    and /data/a.txt exists. *)
Definition gone : fs :=
  fsOf [(batch1, DirNode 493);
        (batch1 ++ "/b.txt", FileNode "beta" 420);
        (batch1 ++ "/.restore",
         FileNode (sidecarText [itemA "2025-01-01T00:00:00Z"; itemB "2025-01-01T00:00:00Z"]) 420);
        ("/data/a.txt", FileNode "precious" 420)]
       [].

(** A batch whose sidecar no longer parses, with b.txt still in it. *)
Definition damaged : fs :=
  fsOf [(batch1, DirNode 493);
        (batch1 ++ "/b.txt", FileNode "beta" 420);
        (batch1 ++ "/.restore", FileNode "{ items: " 420);
        ("/data/a.txt", FileNode "alpha" 420)]
       [].

Definition matchA (batch timestamp t : string) : MatchedItem :=
  mkMatch timestamp (itemA t) batch.

Definition twoMatches : list MatchedItem :=
  [matchA batch2 "20250102_000000" "2025-01-02T00:00:00Z";
   matchA batch1 "20250101_000000" "2025-01-01T00:00:00Z"].

(** The batch of the trash command that runs at the time of the clock. *)
Definition newBatch : string := "/home/u/.config/trash/20250103_120000".

Definition copied : fs :=
  Eval vm_compute in
    snd (fst (run world (CopyFile "/data/b.txt" (newBatch ++ "/b.txt")) started)).

Definition copying : list event :=
  Eval vm_compute in
    snd (run world (CopyFile "/data/b.txt" (newBatch ++ "/b.txt")) started).

Definition movedOut : fs :=
  Eval vm_compute in
    snd (fst (run world (moveOut 0 false false "a.txt"
                           (matchA batch1 "20250101_000000" "2025-01-01T00:00:00Z")) pair)).

Definition batchMade : fs :=
  Eval vm_compute in snd (fst (run world CreateTrashTimestampDir fresh)).

Definition afterFirst : fs :=
  Eval vm_compute in
    snd (fst (run world (trashEach 0 false newBatch ["a.txt"] 0 [] (mkMetadata (Some [])))
                  batchMade)).

Definition afterLast : fs :=
  Eval vm_compute in
    snd (fst (run world (trashEach 0 false newBatch ["d"] 0 [] (mkMetadata (Some [])))
                  afterFirst)).

Definition sidecarOfPair : RestoreMetadata :=
  mkMetadata (Some [itemA "2025-01-01T00:00:00Z"; itemB "2025-01-01T00:00:00Z"]).

(** A name that is not valid UTF-8. *)
Definition rawName : string := String (chr 255) ".txt".

Definition sidecarOfRaw : RestoreMetadata :=
  mkMetadata (Some [mkItem rawName "/data/raw" "2025-01-01T00:00:00Z"]).

(** A file named .restore was trashed together with a.txt, and the
    sidecar took its place in the batch. *)
Definition shadowed : fs :=
  fsOf [(batch1, DirNode 493);
        (batch1 ++ "/a.txt", FileNode "alpha" 420);
        (batch1 ++ "/.restore",
         FileNode (sidecarText [mkItem ".restore" "/data/.restore" "2025-01-01T00:00:00Z";
                                itemA "2025-01-01T00:00:00Z"]) 420)]
       [].

(** One batch with a.txt, and a newer /data/a.txt in the way. *)
Definition occupied : fs :=
  fsOf [(batch1, DirNode 493);
        (batch1 ++ "/a.txt", FileNode "alpha" 420);
        (batch1 ++ "/.restore", FileNode (sidecarText [itemA "2025-01-01T00:00:00Z"]) 420);
        ("/data/a.txt", FileNode "newer" 420)]
       [].

(** ** Further states *)

(** A state with the given entries and nothing else. *)
Definition mkState (ns : list (string * node)) (lockedPaths : list string) : fs :=
  mkFs ns lockedPaths "/home/u" "/data" "20250103_120000" "2025-01-03T12:00:00Z" [].

(** The home directory has no .config yet. *)
Definition firstRun : fs :=
  mkState [("/home", DirNode 493); ("/home/u", DirNode 493); ("/data", DirNode 493)] [].

(** A file lies where the .config directory should be. *)
Definition noConfig : fs :=
  mkState [("/home", DirNode 493); ("/home/u", DirNode 493);
           ("/home/u/.config", FileNode "" 420); ("/data", DirNode 493);
           ("/data/a.txt", FileNode "alpha" 420)] [].

(** A file lies where the trash directory should be. *)
Definition blocked : fs :=
  mkState [("/home", DirNode 493); ("/home/u", DirNode 493);
           ("/home/u/.config", DirNode 493); (trashRoot, FileNode "" 420);
           ("/data", DirNode 493); ("/data/a.txt", FileNode "alpha" 420)] [].

(** Two files named n.txt, one in /data and one in /data/d; the batch
    directory of the trash command has been made. *)
Definition namesakes : fs :=
  fsOf [("/data/n.txt", FileNode "one" 420);
        ("/data/d", DirNode 493);
        ("/data/d/n.txt", FileNode "two" 420);
        (newBatch, DirNode 493)] [].

(** Nothing in the trash, and the sidecar of the next batch cannot be
    written. *)
Definition sealed : fs :=
  fsOf [("/data/a.txt", FileNode "alpha" 420)] [newBatch ++ "/.restore"].

(** One batch with a.txt, which can be read but neither renamed nor
    removed. *)
Definition held : fs :=
  fsOf [(batch1, DirNode 493);
        (batch1 ++ "/a.txt", FileNode "alpha" 384);
        (batch1 ++ "/.restore", FileNode (sidecarText [itemA "2025-01-01T00:00:00Z"]) 420)]
       [batch1 ++ "/a.txt"].

(** A trash command of this second has already left b.txt and its
    sidecar in the batch; /data/a.txt is still in place. *)
Definition again : fs :=
  fsOf [("/data/a.txt", FileNode "alpha" 420);
        (newBatch, DirNode 493);
        (newBatch ++ "/b.txt", FileNode "beta" 420);
        (newBatch ++ "/.restore",
         FileNode (sidecarText [itemB "2025-01-03T12:00:00Z"]) 420)]
       [].

(** /data/d holds the file x and the directory sub, which holds the
    file y; the batch directory has been made. *)
Definition nested : fs :=
  fsOf [("/data/d", DirNode 493);
        ("/data/d/sub", DirNode 448);
        ("/data/d/sub/y", FileNode "why" 384);
        ("/data/d/x", FileNode "x" 420);
        (newBatch, DirNode 493)]
       [].

End Scenario.

(* ================================================================== *)
(** * Lemmas on runs *)
(* ================================================================== *)

Section Runs.

Variable W : World.

Lemma run_bind A B (p : prog A) (f : A -> prog B) (s : state W) :
  run W (bind p f) s =
  match run W p s with
  | (Done a, s1, tr1) =>
    let '(o, s2, tr2) := run W (f a) s1 in (o, s2, (tr1 ++ tr2)%list)
  | (Exited c, s1, tr1) => (Exited c, s1, tr1)
  | (OutOfFuel, s1, tr1) => (OutOfFuel, s1, tr1)
  end.
Proof.
  revert s. induction p as [a | c | | fd t k IH | X op k IH]; intros s; simpl.
  - destruct (run W (f a) s) as [[o s2] tr2]. reflexivity.
  - reflexivity.
  - reflexivity.
  - rewrite IH. destruct (run W k s) as [[[a | c |] s1] tr1]; simpl; try reflexivity.
    destruct (run W (f a) s1) as [[o s2] tr2]. reflexivity.
  - destruct (handle W op s) as [x s1]. rewrite IH.
    destruct (run W (k x) s1) as [[[a | c |] s2] tr1]; simpl; try reflexivity.
    destruct (run W (f a) s2) as [[o s3] tr2]. reflexivity.
Qed.

Lemma run_call X (op : Op X) (s : state W) :
  run W (call op) s = (Done (fst (handle W op s)), snd (handle W op s), [EvCall op]).
Proof. simpl. destruct (handle W op s). reflexivity. Qed.

Lemma run_print fd t (s : state W) :
  run W (print fd t) s = (Done tt, s, [EvPrint fd t]).
Proof. reflexivity. Qed.

Lemma run_when_print (b : bool) fd t (s : state W) :
  run W (when b (print fd t)) s = (Done tt, s, if b then [EvPrint fd t] else []).
Proof. destruct b; reflexivity. Qed.

End Runs.

(* ================================================================== *)
(** * The order of Go strings *)
(* ================================================================== *)

Lemma ascii_compare_refl (c : ascii) : Ascii.compare c c = Eq.
Proof. unfold Ascii.compare. apply N.compare_refl. Qed.

Lemma string_compare_refl (s : string) : String.compare s s = Eq.
Proof.
  induction s as [| c s IH]; simpl; [reflexivity |].
  rewrite ascii_compare_refl. exact IH.
Qed.

Lemma ascii_compare_lt_trans a b c :
  Ascii.compare a b = Lt -> Ascii.compare b c = Lt -> Ascii.compare a c = Lt.
Proof.
  unfold Ascii.compare. rewrite !N.compare_lt_iff. apply N.lt_trans.
Qed.

Lemma string_compare_lt_trans : forall s1 s2 s3,
  String.compare s1 s2 = Lt -> String.compare s2 s3 = Lt -> String.compare s1 s3 = Lt.
Proof.
  induction s1 as [| a s1 IH]; intros [| b s2] [| c s3]; simpl; try discriminate; auto.
  destruct (Ascii.compare a b) eqn:Hab; try discriminate.
  - apply Ascii.compare_eq_iff in Hab. subst b.
    destruct (Ascii.compare a c); try discriminate; auto.
    apply IH.
  - intros _. destruct (Ascii.compare b c) eqn:Hbc; try discriminate.
    + apply Ascii.compare_eq_iff in Hbc. subst c. rewrite Hab. reflexivity.
    + intros _. rewrite (ascii_compare_lt_trans _ _ _ Hab Hbc). reflexivity.
Qed.

Lemma leb_refl (s : string) : String.leb s s = true.
Proof. unfold String.leb. rewrite string_compare_refl. reflexivity. Qed.

Lemma leb_trans (s1 s2 s3 : string) :
  String.leb s1 s2 = true -> String.leb s2 s3 = true -> String.leb s1 s3 = true.
Proof.
  unfold String.leb.
  destruct (String.compare s1 s2) eqn:H12; try discriminate; intros _.
  - apply String.compare_eq_iff in H12. subst s2. auto.
  - destruct (String.compare s2 s3) eqn:H23; try discriminate; intros _.
    + apply String.compare_eq_iff in H23. subst s3. rewrite H12. reflexivity.
    + rewrite (string_compare_lt_trans _ _ _ H12 H23). reflexivity.
Qed.

(** ** Sorting *)

Section Sorting.

Variable le : string -> string -> bool.
Hypothesis le_total : forall a b, le a b = true \/ le b a = true.
Hypothesis le_trans : forall a b c, le a b = true -> le b c = true -> le a c = true.
Hypothesis le_antisym : forall a b, le a b = true -> le b a = true -> a = b.

Let R (a b : string) : Prop := le a b = true.

Lemma insertBy_perm x l : Permutation (x :: l) (insertBy le x l).
Proof.
  induction l as [| y l IH]; simpl; [apply Permutation_refl |].
  destruct (le x y); [apply Permutation_refl |].
  eapply perm_trans; [apply perm_swap |]. apply perm_skip. exact IH.
Qed.

Lemma sortBy_perm l : Permutation l (sortBy le l).
Proof.
  induction l as [| x l IH]; simpl; [apply perm_nil |].
  eapply perm_trans; [apply perm_skip; exact IH |]. apply insertBy_perm.
Qed.

Lemma insertBy_sorted x l : StronglySorted R l -> StronglySorted R (insertBy le x l).
Proof.
  induction 1 as [| y l Hs IH Hy]; simpl.
  - constructor; constructor.
  - destruct (le x y) eqn:Hxy.
    + constructor; [constructor; assumption |].
      constructor; [exact Hxy |].
      eapply Forall_impl; [| exact Hy]. intros z Hz. eapply le_trans; eassumption.
    + constructor; [exact IH |].
      assert (Hyx : R y x) by (destruct (le_total x y); [congruence | assumption]).
      eapply Permutation_Forall; [apply insertBy_perm |].
      constructor; assumption.
Qed.

Lemma sortBy_sorted l : StronglySorted R (sortBy le l).
Proof.
  induction l as [| x l IH]; simpl; [constructor |].
  apply insertBy_sorted. exact IH.
Qed.

(** A sorted list is determined by its elements. *)
Lemma sorted_perm_unique : forall l1 l2,
  StronglySorted R l1 -> StronglySorted R l2 -> Permutation l1 l2 -> l1 = l2.
Proof.
  induction l1 as [| x l1 IH]; intros l2 H1 H2 HP.
  - apply Permutation_nil in HP. subst. reflexivity.
  - destruct l2 as [| y l2].
    + apply Permutation_sym, Permutation_nil in HP. discriminate.
    + inversion H1 as [| ? ? Hs1 Hx]; subst. inversion H2 as [| ? ? Hs2 Hy]; subst.
      assert (Hxy : x = y).
      { assert (Hin1 : In x (y :: l2)) by (eapply Permutation_in; [exact HP | left; reflexivity]).
        assert (Hin2 : In y (x :: l1))
          by (eapply Permutation_in; [apply Permutation_sym; exact HP | left; reflexivity]).
        destruct Hin1 as [-> | Hin1]; [reflexivity |].
        destruct Hin2 as [-> | Hin2]; [reflexivity |].
        rewrite Forall_forall in Hx, Hy. apply le_antisym; [apply Hx | apply Hy]; assumption. }
      subst y. f_equal. apply IH; try assumption.
      eapply Permutation_cons_inv. exact HP.
Qed.

Lemma sortBy_unique l l' :
  Permutation l l' -> StronglySorted R l' -> l' = sortBy le l.
Proof.
  intros HP Hs. apply sorted_perm_unique; [exact Hs | apply sortBy_sorted |].
  eapply perm_trans; [apply Permutation_sym; exact HP | apply sortBy_perm].
Qed.

End Sorting.

Lemma geb_total a b : geb a b = true \/ geb b a = true.
Proof. unfold geb. apply String.leb_total. Qed.

Lemma geb_trans a b c : geb a b = true -> geb b c = true -> geb a c = true.
Proof. unfold geb. intros H1 H2. eapply leb_trans; eassumption. Qed.

Lemma sortReverse_sorted l :
  StronglySorted (fun a b => geb a b = true) (sortReverse l).
Proof. apply sortBy_sorted; [apply geb_total | apply geb_trans]. Qed.

Lemma sortReverse_In x l : In x (sortReverse l) <-> In x l.
Proof.
  split; intros H.
  - eapply Permutation_in; [apply Permutation_sym, sortBy_perm | exact H].
  - eapply Permutation_in; [apply sortBy_perm | exact H].
Qed.

(* ================================================================== *)
(** * Restore Metadata: removing an item *)
(* ================================================================== *)

Lemma removeItem_acc itemName items (acc : slice RestoreItem) :
  elems (removeItem itemName items acc)
  = (elems acc ++ filter (keeps itemName) items)%list.
Proof.
  revert acc. induction items as [| item rest IH]; intros acc; simpl.
  - rewrite app_nil_r. reflexivity.
  - unfold keeps at 1. destruct (negb (String.eqb (Name item) itemName)).
    + rewrite IH. simpl. rewrite <- app_assoc. reflexivity.
    + apply IH.
Qed.

(** C4.  Removing a name from a metadata record (the loop of the
    post-restore update) drops every item that bears the name, however
    many there are, and keeps every other item, in the order of the
    record: the result lists exactly the items of the record whose name
    differs from the given one. *)
Theorem removeItem_drops_every_entry_of_the_name :
  forall (itemName : string) (items : list RestoreItem),
    let updatedItems := elems (removeItem itemName items None) in
    updatedItems = filter (fun item => negb (String.eqb (Name item) itemName)) items
    /\ (forall item, In item updatedItems -> Name item <> itemName)
    /\ (forall item, In item items -> Name item <> itemName -> In item updatedItems)
    /\ (forall before item after,
           items = (before ++ item :: after)%list -> Name item <> itemName ->
           updatedItems
           = (elems (removeItem itemName before None) ++ item
                :: elems (removeItem itemName after None))%list).
Proof.
  intros itemName items updatedItems. subst updatedItems.
  rewrite removeItem_acc. simpl.
  split; [reflexivity |]. split; [| split].
  - intros item Hin. apply filter_In in Hin. destruct Hin as [_ Hk].
    unfold keeps in Hk. intros Heq. apply String.eqb_eq in Heq.
    rewrite Heq in Hk. discriminate.
  - intros item Hin Hne. apply filter_In. split; [exact Hin |].
    unfold keeps. apply String.eqb_neq in Hne. rewrite Hne. reflexivity.
  - intros before item after -> Hne.
    rewrite !removeItem_acc. simpl. rewrite filter_app. simpl.
    unfold keeps at 2. apply String.eqb_neq in Hne. rewrite Hne. reflexivity.
Qed.

(** A record with the name twice: both entries go. *)
Example removeItem_duplicates :
  removeItem "a"
    [mkItem "a" "/x/a" "t1"; mkItem "b" "/x/b" "t1"; mkItem "a" "/y/a" "t1";
     mkItem "c" "/x/c" "t1"] None
  = Some [mkItem "b" "/x/b" "t1"; mkItem "c" "/x/c" "t1"].
Proof. reflexivity. Qed.

(* ================================================================== *)
(** * Restore Resolver *)
(* ================================================================== *)

Lemma quiet_app tr1 tr2 : quiet tr1 -> quiet tr2 -> quiet (tr1 ++ tr2).
Proof. unfold quiet. intros H1 H2. apply Forall_app. split; assumption. Qed.

Section Resolver.

Context {filepath : Filepath}.
Variable W : World.

(** Reading a sidecar always comes to one of the four cases, and changes
    nothing. *)
Lemma load_run restoreFile (s : state W) :
  exists l s' tr, run W (load restoreFile) s = (Done l, s', tr) /\ quiet tr.
Proof.
  unfold load. simpl.
  destruct (handle W (Stat restoreFile) s) as [r s1].
  destruct (match r with inr err => IsNotExist err | inl _ => false end).
  - simpl. do 3 eexists. split; [reflexivity |]. repeat constructor.
  - simpl. destruct (handle W (ReadFile restoreFile) s1) as [[data [err |]] s2]; simpl.
    + do 3 eexists. split; [reflexivity |]. repeat constructor.
    + destruct (json.Unmarshal data) as [metadata [err |]]; simpl;
        do 3 eexists; (split; [reflexivity |]); repeat constructor.
Qed.

Lemma matchItems_spec itemName dirName dirPath items matches :
  matchItems itemName dirName dirPath items matches
  = (matches ++ map (fun item => mkMatch dirName item dirPath)
               (filter (fun item => String.eqb (Name item) itemName) items))%list.
Proof.
  revert matches. induction items as [| item rest IH]; intros matches; simpl.
  - rewrite app_nil_r. reflexivity.
  - destruct (String.eqb (Name item) itemName).
    + rewrite IH. simpl. rewrite <- app_assoc. reflexivity.
    + apply IH.
Qed.

Lemma matchOf_cons itemName ts configDir d trashDirs m :
  matchOf itemName ts configDir trashDirs m ->
  matchOf itemName ts configDir (d :: trashDirs) m.
Proof. unfold matchOf. intros (H1 & H2 & H3 & H4). repeat split; auto. right. exact H1. Qed.

(** The search returns; it only reads; it adds to the matches, batch by
    batch in the order of [trashDirs]. *)
Lemma findMatches_run itemName ts configDir :
  forall trashDirs matches (s : state W),
  exists found s' tr,
    run W (findMatches itemName ts configDir trashDirs matches) s
      = (Done (matches ++ found)%list, s', tr)
    /\ quiet tr
    /\ Forall (matchOf itemName ts configDir trashDirs) found
    /\ (StronglySorted (fun a b => geb a b = true) trashDirs ->
        StronglySorted newer found).
Proof.
  induction trashDirs as [| dirName rest IH]; intros matches s.
  - exists [], s, []. simpl. rewrite app_nil_r.
    split; [reflexivity |]. repeat split; constructor.
  - cbn [findMatches].
    destruct (negb (String.eqb ts "") && negb (String.eqb dirName ts)) eqn:Hskip.
    + destruct (IH matches s) as (found & s' & tr & Hrun & Hq & Hm & Hs).
      exists found, s', tr. split; [exact Hrun |]. split; [exact Hq |]. split.
      * eapply Forall_impl; [| exact Hm]. intros m. apply matchOf_cons.
      * intros Hsorted. apply Hs. inversion Hsorted; assumption.
    + rewrite run_bind.
      destruct (load_run (Join [Join [configDir; dirName]; ".restore"]) s)
        as (l & s1 & tr1 & Hload & Hq1).
      rewrite Hload.
      assert (Hts : ts <> "" -> dirName = ts).
      { intros Hne. apply andb_false_iff in Hskip. destruct Hskip as [Hk | Hk].
        - apply negb_false_iff, String.eqb_eq in Hk. contradiction.
        - apply negb_false_iff, String.eqb_eq in Hk. exact Hk. }
      assert (Hskipped : forall matches',
        (exists here, matches' = (matches ++ here)%list
           /\ Forall (fun m => Timestamp m = dirName /\ Name (Item m) = itemName
                               /\ TrashDirPath m = Join [configDir; dirName]) here) ->
        exists found s' tr,
          (let '(o, s2, tr2) :=
             run W (findMatches itemName ts configDir rest matches') s1 in
           (o, s2, (tr1 ++ tr2)%list))
          = (Done (matches ++ found)%list, s', tr)
          /\ quiet tr
          /\ Forall (matchOf itemName ts configDir (dirName :: rest)) found
          /\ (StronglySorted (fun a b => geb a b = true) (dirName :: rest) ->
              StronglySorted newer found)).
      { intros matches' (here & -> & Hhere).
        destruct (IH (matches ++ here)%list s1) as (found & s' & tr & Hrun & Hq & Hm & Hs).
        rewrite Hrun. exists (here ++ found)%list, s', (tr1 ++ tr)%list.
        rewrite app_assoc. split; [reflexivity |].
        split; [apply quiet_app; assumption |]. split.
        - apply Forall_app. split.
          + eapply Forall_impl; [| exact Hhere]. intros m (H1 & H2 & H3).
            unfold matchOf. rewrite H1. repeat split; auto. left. reflexivity.
          + eapply Forall_impl; [| exact Hm]. intros m. apply matchOf_cons.
        - intros Hsorted. inversion Hsorted as [| ? ? Hrest Hd]; subst.
          specialize (Hs Hrest).
          clear - Hhere Hm Hs Hd.
          induction here as [| h here IHh]; simpl; [exact Hs |].
          inversion Hhere as [| ? ? Hh Hhere']; subst. destruct Hh as (Hh1 & _).
          constructor; [apply IHh; assumption |].
          apply Forall_app. split.
          + eapply Forall_impl; [| exact Hhere']. intros m (Hm1 & _).
            unfold newer. rewrite Hm1, Hh1. apply leb_refl.
          + rewrite Forall_forall in Hm, Hd |- *. intros m Hin.
            unfold newer. rewrite Hh1.
            destruct (Hm m Hin) as (Hin' & _). apply (Hd _ Hin'). }
      destruct l as [| err | err | metadata].
      1-3: apply Hskipped; exists []; rewrite app_nil_r; split; [reflexivity | constructor].
      apply Hskipped. rewrite matchItems_spec. eexists. split; [reflexivity |].
      apply Forall_forall. intros m Hin. apply in_map_iff in Hin.
      destruct Hin as (item & <- & Hin). apply filter_In in Hin.
      destruct Hin as [_ Heq]. apply String.eqb_eq in Heq. simpl. auto.
Qed.

Lemma load_reads restoreFile (s : state W) :
  exists l s' tr,
    run W (load restoreFile) s = (Done l, s', tr) /\ Reads W restoreFile s l s' tr.
Proof.
  unfold load. cbn [bind call]. cbn [run].
  destruct (handle W (Stat restoreFile) s) as [r s1] eqn:Hstat.
  destruct (match r with inr err => IsNotExist err | inl _ => false end) eqn:Hr.
  - destruct r as [info | err]; [discriminate |].
    cbn [run]. do 3 eexists. split; [reflexivity |].
    eapply Reads_absent; eassumption.
  - cbn [run].
    destruct (handle W (ReadFile restoreFile) s1) as [[data [err |]] s2] eqn:Hread;
      cbn [run].
    + do 3 eexists. split; [reflexivity |]. eapply Reads_failed; eassumption.
    + destruct (json.Unmarshal data) as [metadata [err |]] eqn:Hparse; cbn [run];
        do 3 eexists; (split; [reflexivity |]).
      * eapply Reads_unparsed; eassumption.
      * eapply Reads_loaded; eassumption.
Qed.

Lemma Visited_dirs configDir trashDirs (s s' : state W) loads tr :
  Visited W configDir trashDirs s loads s' tr -> map fst loads = trashDirs.
Proof.
  induction 1 as [| dirName rest l loads s s1 s' tr1 tr2 _ _ IH]; [reflexivity |].
  cbn [map fst]. rewrite IH. reflexivity.
Qed.

(** Without --timestamp the search reads the sidecar of every batch, in
    the order of [trashDirs], and collects exactly what each gives. *)
Lemma findMatches_visits itemName configDir :
  forall trashDirs matches (s : state W),
  exists loads s' tr,
    Visited W configDir trashDirs s loads s' tr
    /\ run W (findMatches itemName "" configDir trashDirs matches) s
       = (Done (matches ++ foundAmong itemName configDir loads)%list, s', tr).
Proof.
  induction trashDirs as [| dirName rest IH]; intros matches s.
  - exists [], s, []. split; [constructor |]. cbn. rewrite app_nil_r. reflexivity.
  - cbn [findMatches]. rewrite String.eqb_refl. cbn [negb andb]. rewrite run_bind.
    destruct (load_reads (Join [Join [configDir; dirName]; ".restore"]) s)
      as (l & s1 & tr1 & Hload & Hreads).
    rewrite Hload.
    set (matches' := match l with
                     | Loaded metadata =>
                       matchItems itemName dirName (Join [configDir; dirName])
                                  (elems (Items metadata)) matches
                     | _ => matches
                     end).
    destruct (IH matches' s1) as (loads & s' & tr & Hvis & Hrun).
    exists ((dirName, l) :: loads), s', (tr1 ++ tr)%list.
    split; [econstructor; eassumption |].
    assert (Hm : matches' = (matches ++ foundIn itemName configDir dirName l)%list).
    { subst matches'. destruct l; cbn [foundIn]; rewrite ?app_nil_r; try reflexivity.
      apply matchItems_spec. }
    replace (run W match l with
                   | Loaded metadata =>
                     findMatches itemName "" configDir rest
                       (matchItems itemName dirName (Join [configDir; dirName])
                                   (elems (Items metadata)) matches)
                   | _ => findMatches itemName "" configDir rest matches
                   end s1)
      with (run W (findMatches itemName "" configDir rest matches') s1)
      by (subst matches'; destruct l; reflexivity).
    rewrite Hrun, Hm. unfold foundAmong. cbn [flat_map fst snd].
    rewrite <- app_assoc. reflexivity.
Qed.

Lemma dirNames_In entry :
  forall entries trashDirs,
    In entry entries -> EntryIsDir entry = true ->
    In (EntryName entry) (dirNames entries trashDirs).
Proof.
  assert (Hkeep : forall entries trashDirs x,
             In x trashDirs -> In x (dirNames entries trashDirs)).
  { induction entries as [| e rest IH]; intros trashDirs x Hx; cbn [dirNames]; [exact Hx |].
    destruct (EntryIsDir e); apply IH; [apply in_or_app; left |]; exact Hx. }
  induction entries as [| e rest IH]; intros trashDirs Hin Hdir; [destruct Hin |].
  cbn [dirNames]. destruct Hin as [-> | Hin].
  - rewrite Hdir. apply Hkeep. apply in_or_app. right. left. reflexivity.
  - destruct (EntryIsDir e); apply IH; assumption.
Qed.

End Resolver.

Lemma run_GetConfigDir {filepath : Filepath} (W : World) (s : state W) :
  run W GetConfigDir s
  = match handle W UserHomeDir s with
    | (inl homeDir, s1) =>
      (Done (Join [homeDir; ".config"; "trash"], None), s1, [EvCall UserHomeDir])
    | (inr err, s1) =>
      (Done ("", Some (Errorf ("failed to get user home directory: " ++ Error err))),
       s1, [EvCall UserHomeDir])
    end.
Proof.
  unfold GetConfigDir. simpl.
  destruct (handle W UserHomeDir s) as [[homeDir | err] s1]; reflexivity.
Qed.

(** C1.  A restore without --timestamp (and without --all) of a name that
    has matches in two or more batches restores the match from the batch
    whose identifier is greatest in the order of strings.  The search
    reads the sidecar of every directory that [os.ReadDir] listed, in
    descending order of their names, and collects exactly the items of
    that name which each sidecar gives; so the matches are in descending
    order of their batch, no batch whose sidecar gives such an item has
    a greater identifier than the first match, and the command goes on
    exactly as the restore of the first match. *)
Theorem restore_takes_the_most_recent_batch :
  forall {filepath : Filepath} (W : World) (depth : nat) (verbose force : bool)
         (itemName home : string) (entries : list DirEntry)
         (matches : list MatchedItem) (s s1 s2 s3 : state W) (tr : list event),
    let configDir := Join [home; ".config"; "trash"] in
    handle W UserHomeDir s = (inl home, s1) ->
    handle W (ReadDir configDir) s1 = (inl entries, s2) ->
    run W (findMatches itemName "" configDir (sortReverse (dirNames entries [])) []) s2
      = (Done matches, s3, tr) ->
    (exists m1 m2, In m1 matches /\ In m2 matches /\ Timestamp m1 <> Timestamp m2) ->
    exists m rest,
      matches = m :: rest
      /\ Name (Item m) = itemName
      /\ In (Timestamp m) (dirNames entries [])
      /\ TrashDirPath m = Join [configDir; Timestamp m]
      /\ (forall m', In m' matches -> String.leb (Timestamp m') (Timestamp m) = true)
      /\ StronglySorted newer matches
      /\ run W (restoreCmd_Run depth verbose force false "" itemName) s
         = (let '(o, s', tr') :=
              run W (restoreMatch depth verbose force itemName m) s3 in
            (o, s',
             ([EvCall UserHomeDir; EvCall (ReadDir configDir)] ++ tr
                ++ announceMostRecent itemName (length matches) ++ tr')%list))
      /\ exists loads,
           Visited W configDir (sortReverse (dirNames entries [])) s2 loads s3 tr
           /\ matches = foundAmong itemName configDir loads
           /\ (forall entry, In entry entries -> EntryIsDir entry = true ->
                 In (EntryName entry) (map fst loads))
           /\ (forall dirName l,
                 In (dirName, l) loads ->
                 foundIn itemName configDir dirName l <> [] ->
                 String.leb dirName (Timestamp m) = true).
Proof.
  intros filepath W depth verbose force itemName home entries matches s s1 s2 s3 tr
         configDir Hhome Hdir Hfind (m1 & m2 & Hin1 & Hin2 & Hne).
  destruct (findMatches_run W itemName "" configDir
              (sortReverse (dirNames entries [])) [] s2)
    as (found & s3' & tr' & Hrun & _ & Hm & Hsorted).
  rewrite Hfind in Hrun. simpl in Hrun. inversion Hrun; subst found s3' tr'. clear Hrun.
  specialize (Hsorted (sortReverse_sorted _)).
  destruct (findMatches_visits W itemName configDir
              (sortReverse (dirNames entries [])) [] s2)
    as (loads & s3' & tr' & Hvis & Hrun).
  rewrite Hfind in Hrun. cbn [app] in Hrun.
  injection Hrun as Hfound <- <-.
  destruct matches as [| m rest]; [destruct Hin1 |].
  destruct rest as [| m' rest].
  { destruct Hin1 as [<- | []]. destruct Hin2 as [<- | []]. contradiction. }
  exists m, (m' :: rest).
  inversion Hm as [| ? ? Hm0 _]; subst. destruct Hm0 as (Hd & Hn & Hp & _).
  assert (Hmax : forall x, In x (m :: m' :: rest) ->
                           String.leb (Timestamp x) (Timestamp m) = true).
  { intros x [<- | Hx]; [apply leb_refl |].
    inversion Hsorted as [| ? ? _ Hall]; subst.
    rewrite Forall_forall in Hall. apply (Hall x Hx). }
  split; [reflexivity |]. split; [exact Hn |].
  split; [apply sortReverse_In; exact Hd |]. split; [exact Hp |].
  split; [exact Hmax |].
  split; [exact Hsorted |].
  split.
  { unfold restoreCmd_Run. rewrite run_bind, run_GetConfigDir, Hhome.
    cbn [bind call]. cbn [run]. fold configDir. rewrite Hdir.
    rewrite run_bind, Hfind.
    unfold restoreMatches. cbn [length Nat.eqb Nat.ltb Nat.leb hd].
    rewrite String.eqb_refl. cbn [when].
    rewrite run_bind. cbn [run print bind].
    destruct (run W (restoreMatch depth verbose force itemName m) s3) as [[o s'] tr'].
    reflexivity. }
  exists loads. split; [exact Hvis |]. split; [exact Hfound |]. split.
  - intros entry Hin Hisdir. rewrite (Visited_dirs W _ _ _ _ _ _ Hvis).
    apply sortReverse_In. apply dirNames_In; assumption.
  - intros dirName l Hin Hne'.
    destruct (foundIn itemName configDir dirName l) as [| x xs] eqn:Hx;
      [contradiction |].
    assert (Hts : Timestamp x = dirName).
    { destruct l; cbn [foundIn] in Hx; try discriminate.
      assert (Hi : In x (x :: xs)) by (left; reflexivity).
      rewrite <- Hx in Hi. apply in_map_iff in Hi. destruct Hi as (item & <- & _).
      reflexivity. }
    rewrite <- Hts. apply Hmax. rewrite Hfound. unfold foundAmong.
    apply in_flat_map. exists (dirName, l). split; [exact Hin |].
    cbn [fst snd]. rewrite Hx. left. reflexivity.
Qed.

(* ================================================================== *)
(** * Trash Store: the transfer out of a batch *)
(* ================================================================== *)

Section MoveOut.

Context {filepath : Filepath}.
Variable W : World.
Variable depth : nat.

Lemma run_ensureParent_transfer verbose itemName sourcePath destPath (s : state W) :
  run W (ensureParent destPath ;; transfer depth verbose itemName sourcePath destPath) s
  = ensuredThenTransferred W depth verbose itemName sourcePath destPath s.
Proof.
  unfold ensuredThenTransferred, ensureParent.
  rewrite run_bind. cbn [bind call]. cbn [run].
  destruct (handle W (MkdirAll (Dir destPath) 493) s) as [[err |] s1]; cbn.
  - reflexivity.
  - destruct (run W (transfer depth verbose itemName sourcePath destPath) s1)
      as [[o s'] tr]. reflexivity.
Qed.

Lemma run_prepareDestination verbose force destPath (s : state W) :
  run W (prepareDestination verbose force destPath) s
  = match handle W (Stat destPath) s with
    | (inl _, s1) =>
      if force then
        match handle W (RemoveAll destPath) s1 with
        | (Some err, s2) =>
          (Exited 1, s2,
           (EvCall (Stat destPath) :: overwriting verbose destPath
              ++ [EvCall (RemoveAll destPath);
                  EvPrint Stderr ("Error removing existing destination: "
                                    ++ Error err ++ nl)])%list)
        | (None, s2) =>
          (Done tt, s2,
           (EvCall (Stat destPath) :: overwriting verbose destPath
              ++ [EvCall (RemoveAll destPath)])%list)
        end
      else
        (Exited 1, s1,
         [EvCall (Stat destPath);
          EvPrint Stderr ("Error: destination already exists: " ++ destPath ++ nl);
          EvPrint Stderr ("Use --force to overwrite" ++ nl)])
    | (inr _, s1) => (Done tt, s1, [EvCall (Stat destPath)])
    end.
Proof.
  unfold prepareDestination. cbn [bind call]. cbn [run].
  destruct (handle W (Stat destPath) s) as [[info | err] s1]; [| reflexivity].
  destruct force; cbn [negb]; [| reflexivity].
  rewrite run_bind, run_when_print. cbn [bind call]. cbn [run].
  destruct (handle W (RemoveAll destPath) s1) as [[err |] s2];
    destruct verbose; reflexivity.
Qed.

Lemma transfer_starts_with_rename verbose itemName sourcePath destPath (s : state W) :
  exists o s' tr,
    run W (transfer depth verbose itemName sourcePath destPath) s
    = (o, s', EvCall (Rename sourcePath destPath) :: tr).
Proof.
  unfold transfer. cbn [bind call]. cbn [run].
  destruct (handle W (Rename sourcePath destPath) s) as [e s1].
  match goal with |- context [run W ?p s1] => destruct (run W p s1) as [[o s'] tr] end.
  do 3 eexists. reflexivity.
Qed.

Lemma run_moveOut (verbose force : bool) (itemName : string) (m : MatchedItem)
  (s : state W) :
  let destPath := OriginalPath (Item m) in
  let sourcePath := Join [TrashDirPath m; itemName] in
  match handle W (Stat destPath) s with
  | (inl _, s1) =>
    if force then
      match handle W (RemoveAll destPath) s1 with
      | (Some err, s2) =>
        run W (moveOut depth verbose force itemName m) s
        = (Exited 1, s2,
           (EvCall (Stat destPath) :: overwriting verbose destPath
              ++ [EvCall (RemoveAll destPath);
                  EvPrint Stderr ("Error removing existing destination: "
                                    ++ Error err ++ nl)])%list)
      | (None, s2) =>
        run W (moveOut depth verbose force itemName m) s
        = after (EvCall (Stat destPath) :: overwriting verbose destPath
                   ++ [EvCall (RemoveAll destPath)])%list
                (ensuredThenTransferred W depth verbose itemName sourcePath destPath s2)
      end
    else
      run W (moveOut depth verbose force itemName m) s
      = (Exited 1, s1,
         [EvCall (Stat destPath);
          EvPrint Stderr ("Error: destination already exists: " ++ destPath ++ nl);
          EvPrint Stderr ("Use --force to overwrite" ++ nl)])
  | (inr _, s1) =>
    run W (moveOut depth verbose force itemName m) s
    = after [EvCall (Stat destPath)]
            (ensuredThenTransferred W depth verbose itemName sourcePath destPath s1)
  end.
Proof.
  intros destPath sourcePath.
  unfold moveOut. fold destPath sourcePath.
  rewrite run_bind, run_prepareDestination.
  destruct (handle W (Stat destPath) s) as [[info | err] s1].
  - destruct force; [| reflexivity].
    destruct (handle W (RemoveAll destPath) s1) as [[err |] s2]; [reflexivity |].
    rewrite run_ensureParent_transfer.
    destruct (ensuredThenTransferred W depth verbose itemName sourcePath destPath s2)
      as [[o s'] tr]. reflexivity.
  - rewrite run_ensureParent_transfer.
    destruct (ensuredThenTransferred W depth verbose itemName sourcePath destPath s1)
      as [[o s'] tr]. reflexivity.
Qed.

End MoveOut.

(** C7.  The transfer out of a batch, by what [os.Stat] says of the
    destination.  When it exists and --force is not given, the command
    prints the already-exists error and exits with status 1 having made
    no other call: nothing is moved.  When it exists and --force is
    given, [os.RemoveAll] is called on the destination first; if that
    fails the command exits with status 1, otherwise it goes on.  Whenever
    the command goes on (the destination was absent, or was removed under
    --force), [os.MkdirAll] is called on the parent of the destination
    next, and the transfer, which starts with [os.Rename], runs only after
    it succeeded. *)
Theorem moveOut_checks_the_destination_then_ensures_its_parent :
  forall {filepath : Filepath} (W : World) (depth : nat) (verbose force : bool)
         (itemName : string) (m : MatchedItem) (s : state W),
    let destPath := OriginalPath (Item m) in
    let sourcePath := Join [TrashDirPath m; itemName] in
    (forall s3 : state W, exists o s' tr,
        run W (transfer depth verbose itemName sourcePath destPath) s3
        = (o, s', EvCall (Rename sourcePath destPath) :: tr))
    /\
    match handle W (Stat destPath) s with
    | (inl _, s1) =>
      if force then
        match handle W (RemoveAll destPath) s1 with
        | (Some err, s2) =>
          run W (moveOut depth verbose force itemName m) s
          = (Exited 1, s2,
             (EvCall (Stat destPath) :: overwriting verbose destPath
                ++ [EvCall (RemoveAll destPath);
                    EvPrint Stderr ("Error removing existing destination: "
                                      ++ Error err ++ nl)])%list)
        | (None, s2) =>
          run W (moveOut depth verbose force itemName m) s
          = after (EvCall (Stat destPath) :: overwriting verbose destPath
                     ++ [EvCall (RemoveAll destPath)])%list
                  (ensuredThenTransferred W depth verbose itemName sourcePath destPath s2)
        end
      else
        run W (moveOut depth verbose force itemName m) s
        = (Exited 1, s1,
           [EvCall (Stat destPath);
            EvPrint Stderr ("Error: destination already exists: " ++ destPath ++ nl);
            EvPrint Stderr ("Use --force to overwrite" ++ nl)])
    | (inr _, s1) =>
      run W (moveOut depth verbose force itemName m) s
      = after [EvCall (Stat destPath)]
              (ensuredThenTransferred W depth verbose itemName sourcePath destPath s1)
    end.
Proof.
  intros filepath W depth verbose force itemName m s destPath sourcePath.
  split; [intros s3; apply transfer_starts_with_rename |].
  apply run_moveOut.
Qed.

(** C9.  Under --force, with an existing destination and an item that is
    not in the batch directory ([os.Rename] fails and [os.Stat] finds no
    source): the restore exits with status 1, and by then the destination
    has been removed: [os.RemoveAll] on the destination comes before the
    first call that looks at the source, and nothing puts it back.  (If
    the removal or [os.MkdirAll] fails, the restore exits with status 1
    as well, without looking at the source.) *)
Theorem forced_restore_of_a_missing_item_destroys_the_destination :
  forall {filepath : Filepath} (W : World) (depth : nat) (verbose : bool)
         (itemName : string) (m : MatchedItem)
         (s s1 s2 s3 s4 s5 : state W) (info : FileInfo)
         (e1 e2 : option error) (e3 e4 : error),
    let destPath := OriginalPath (Item m) in
    let sourcePath := Join [TrashDirPath m; itemName] in
    handle W (Stat destPath) s = (inl info, s1) ->
    handle W (RemoveAll destPath) s1 = (e1, s2) ->
    handle W (MkdirAll (Dir destPath) 493) s2 = (e2, s3) ->
    handle W (Rename sourcePath destPath) s3 = (Some e3, s4) ->
    handle W (Stat sourcePath) s4 = (inr e4, s5) ->
    exists s' tr',
      run W (restoreMatch depth verbose true itemName m) s
      = (Exited 1, s',
         (EvCall (Stat destPath) :: overwriting verbose destPath
            ++ EvCall (RemoveAll destPath) :: tr')%list)
      /\ (e1 = None -> e2 = None ->
          s' = s5
          /\ tr' = [EvCall (MkdirAll (Dir destPath) 493);
                    EvCall (Rename sourcePath destPath);
                    EvCall (Stat sourcePath);
                    EvPrint Stderr ("Error accessing source: " ++ Error e4 ++ nl)]).
Proof.
  intros filepath W depth verbose itemName m s s1 s2 s3 s4 s5 info e1 e2 e3 e4
         destPath sourcePath Hstat Hrm Hmk Hmv Hsrc.
  unfold restoreMatch. rewrite run_bind.
  pose proof (run_moveOut W depth verbose true itemName m s) as Hrun. cbv zeta in Hrun.
  fold destPath sourcePath in Hrun. rewrite Hstat, Hrm in Hrun.
  destruct e1 as [err |].
  - rewrite Hrun. do 2 eexists. split; [reflexivity |]. discriminate.
  - rewrite Hrun. unfold ensuredThenTransferred. rewrite Hmk.
    destruct e2 as [err |].
    + cbn. do 2 eexists. split; [rewrite <- app_assoc; reflexivity |]. discriminate.
    + unfold transfer. cbn [bind call]. cbn [run]. rewrite Hmv. cbn [run].
      rewrite Hsrc. cbn.
      do 2 eexists. split; [rewrite <- app_assoc; reflexivity |].
      intros _ _. split; reflexivity.
Qed.

(* ================================================================== *)
(** * Restore Metadata: the update after a restore *)
(* ================================================================== *)

Lemma removeItem_slice itemName items (acc : slice RestoreItem) :
  removeItem itemName items acc
  = match others itemName items with
    | [] => acc
    | l => Some (elems acc ++ l)%list
    end.
Proof.
  revert acc. induction items as [| item rest IH]; intros acc; simpl; [reflexivity |].
  destruct (negb (String.eqb (Name item) itemName)).
  - rewrite IH. unfold append. simpl.
    destruct (others itemName rest) as [| x l]; [reflexivity |].
    rewrite <- app_assoc. reflexivity.
  - apply IH.
Qed.

Section Update.

Context {filepath : Filepath}.
Variable W : World.

Lemma run_SaveRestoreMetadata trashDir metadata (s : state W) :
  run W (SaveRestoreMetadata trashDir metadata) s
  = let op := WriteFile (Join [trashDir; ".restore"])
                        (fst (json.MarshalIndent metadata)) 420 in
    let '(e, s1) := handle W op s in
    (Done (match e with
           | Some err => Some (Errorf ("failed to write .restore file: " ++ Error err))
           | None => None
           end), s1, [EvCall op]).
Proof.
  unfold SaveRestoreMetadata, json.MarshalIndent. cbn [fst bind call]. cbn [run].
  match goal with |- context [handle W ?op s] => destruct (handle W op s) as [[err |] s1] end;
    reflexivity.
Qed.

Lemma run_updateMetadata verbose itemName m (s : state W) :
  run W (updateMetadata verbose itemName m) s
  = let restoreFile := Join [TrashDirPath m; ".restore"] in
    let '((data, _), s1) := handle W (ReadFile restoreFile) s in
    after [EvCall (ReadFile restoreFile)] (updated W verbose itemName m data s1).
Proof.
  unfold updateMetadata, updated. cbn [bind call]. cbn [run]. cbv zeta.
  destruct (handle W (ReadFile (Join [TrashDirPath m; ".restore"])) s) as [[data e0] s1].
  unfold recorded.
  destruct (json.Unmarshal data) as [metadata err]. cbn [fst].
  rewrite removeItem_slice.
  destruct (others itemName (elems (Items metadata))) as [| item rest].
  - cbn [len elems length Nat.eqb]. cbn [run].
    destruct (handle W (RemoveAll (TrashDirPath m)) s1) as [[e |] s2];
      destruct verbose; reflexivity.
  - cbn [len elems app length Nat.eqb]. rewrite run_bind, run_SaveRestoreMetadata.
    cbv zeta. unfold sidecarText.
    match goal with |- context [handle W ?op s1] => destruct (handle W op s1) as [[e |] s2] end;
      reflexivity.
Qed.

End Update.


(** C10.  The update reads the sidecar again and ignores the errors of
    the read and of the parse: it goes by the bytes that [os.ReadFile]
    returned, whatever its error.  If the read returned no byte (as when
    the file cannot be opened), or if the bytes it returned yield no
    item, no item stays on record, and [os.RemoveAll] is called on the
    whole batch directory (whatever else lies in it); nothing is
    written. *)
Theorem update_without_recorded_items_removes_the_batch :
  forall {filepath : Filepath} (W : World) (verbose : bool)
         (itemName : string) (m : MatchedItem)
         (s s1 : state W) (data : string) (e0 : option error),
    let trashDir := TrashDirPath m in
    let restoreFile := Join [trashDir; ".restore"] in
    handle W (ReadFile restoreFile) s = ((data, e0), s1) ->
    data = "" \/ recorded data = [] ->
    removeItem itemName (recorded data) None = None
    /\ let '(e, s2) := handle W (RemoveAll trashDir) s1 in
       run W (updateMetadata verbose itemName m) s
       = (Done tt, s2,
          ([EvCall (ReadFile restoreFile); EvCall (RemoveAll trashDir)]
             ++ removalWarning e ++ removedNote verbose (Timestamp m))%list).
Proof.
  intros filepath W verbose itemName m s s1 data e0 trashDir restoreFile Hread Hnone.
  assert (Hrec : recorded data = []).
  { destruct Hnone as [-> | Hnone]; [reflexivity | exact Hnone]. }
  split.
  - rewrite removeItem_slice, Hrec. reflexivity.
  - rewrite run_updateMetadata. cbv zeta. fold trashDir restoreFile.
    rewrite Hread. unfold updated. rewrite Hrec. cbn [others filter].
    fold trashDir.
    destruct (handle W (RemoveAll trashDir) s1) as [e s2]. reflexivity.
Qed.

(* ================================================================== *)
(** * Trash Store: the transfer into a batch *)
(* ================================================================== *)

Section MoveIn.

Context {filepath : Filepath}.
Variable W : World.
Variable depth : nat.

Lemma run_MoveToTrash_fallback sourcePath trashDir absPath sourceInfo e
      (s s1 s2 s3 : state W) :
  let destPath := Join [trashDir; Base absPath] in
  handle W (Abs sourcePath) s = (inl absPath, s1) ->
  handle W (Stat absPath) s1 = (inl sourceInfo, s2) ->
  handle W (Rename absPath destPath) s2 = (Some e, s3) ->
  run W (MoveToTrash depth sourcePath trashDir) s
  = after [EvCall (Abs sourcePath); EvCall (Stat absPath);
           EvCall (Rename absPath destPath)]
      match run W (fallbackCopy depth sourceInfo absPath destPath) s3 with
      | (Done None, s4, trc) =>
        let '(e2, s5) := handle W (removal sourceInfo absPath) s4 in
        (Done (match e2 with
               | Some err => ("", Some (removalError sourceInfo absPath err))
               | None => (Base absPath, None)
               end), s5, (trc ++ [EvCall (removal sourceInfo absPath)])%list)
      | (Done (Some err), s4, trc) =>
        (Done ("", Some (Errorf ("failed to copy "
                                   ++ (if IsDir sourceInfo then "directory " else "file ")
                                   ++ absPath ++ " to trash: " ++ Error err))),
         s4, trc)
      | (Exited c, s4, trc) => (Exited c, s4, trc)
      | (OutOfFuel, s4, trc) => (OutOfFuel, s4, trc)
      end.
Proof.
  intros destPath Habs Hstat Hmv.
  unfold MoveToTrash. cbn [bind call]. cbn [run].
  rewrite Habs. cbn [run]. rewrite Hstat. cbn [run]. fold destPath. rewrite Hmv.
  unfold fallbackCopy, removal, removalError.
  destruct (IsDir sourceInfo).
  - rewrite run_bind.
    destruct (run W (CopyDir depth absPath destPath) s3) as [[[[cerr |] | c |] s4] trc];
      try (cbn [bind run after app]; rewrite ?app_nil_r; reflexivity).
    cbn [bind call]. cbn [run].
    destruct (handle W (RemoveAll absPath) s4) as [[err2 |] s5]; reflexivity.
  - rewrite run_bind.
    destruct (run W (CopyFile absPath destPath) s3) as [[[[cerr |] | c |] s4] trc];
      try (cbn [bind run after app]; rewrite ?app_nil_r; reflexivity).
    cbn [bind call]. cbn [run].
    destruct (handle W (Remove absPath) s4) as [[err2 |] s5]; reflexivity.
Qed.

Lemma run_MoveToTrash_missing sourcePath trashDir absPath err (s s1 s2 : state W) :
  handle W (Abs sourcePath) s = (inl absPath, s1) ->
  handle W (Stat absPath) s1 = (inr err, s2) ->
  IsNotExist err = true ->
  run W (MoveToTrash depth sourcePath trashDir) s
  = (Done ("", Some (Errorf ("path does not exist: " ++ absPath))), s2,
     [EvCall (Abs sourcePath); EvCall (Stat absPath)]).
Proof.
  intros Habs Hstat Hne.
  unfold MoveToTrash. cbn [bind call]. cbn [run].
  rewrite Habs. cbn [run]. rewrite Hstat, Hne. reflexivity.
Qed.

Lemma run_trashEach_cons verbose trashDir path rest successCount failedPaths metadata
      (s : state W) :
  run W (trashEach depth verbose trashDir (path :: rest) successCount failedPaths metadata) s
  = let '(absPath, s1, tr0) := absOf W path s in
    match run W (MoveToTrash depth path trashDir) s1 with
    | (Done (baseName, Some e), s2, tr1) =>
      after (tr0 ++ tr1 ++ [EvPrint Stderr ("Error: " ++ Error e ++ nl)])%list
            (run W (trashEach depth verbose trashDir rest successCount
                      (failedPaths ++ [path])%list metadata) s2)
    | (Done (baseName, None), s2, tr1) =>
      let '(trashedAt, s3) := handle W (Now RFC3339) s2 in
      after (tr0 ++ tr1 ++ movedNote verbose path ++ [EvCall (Now RFC3339)])%list
            (run W (trashEach depth verbose trashDir rest (S successCount) failedPaths
                      (mkMetadata (append (Items metadata)
                                          (mkItem baseName absPath trashedAt)))) s3)
    | (Exited c, s2, tr1) => (Exited c, s2, (tr0 ++ tr1)%list)
    | (OutOfFuel, s2, tr1) => (OutOfFuel, s2, (tr0 ++ tr1)%list)
    end.
Proof.
  cbn [trashEach]. unfold absOf. cbn [bind call]. cbn [run].
  destruct (handle W Getwd s) as [[wd | werr] s0].
  - cbn [bind]. cbn [run]. destruct (handle W (Abs path) s0) as [a s1].
    cbn [bind]. rewrite run_bind.
    destruct (run W (MoveToTrash depth path trashDir) s1)
      as [[[[baseName [e |]] | c |] s2] tr1]; try (cbn [app]; reflexivity).
    + cbn [bind print]. cbn [run].
      match goal with |- context [run W ?p s2] => destruct (run W p s2) as [[o s'] tr] end.
      cbn [after app]. rewrite <- app_assoc. reflexivity.
    + rewrite run_bind. destruct verbose; cbn [when run print movedNote];
        cbn [bind call]; cbn [run];
        destruct (handle W (Now RFC3339) s2) as [trashedAt s3];
        match goal with |- context [run W ?p s3] => destruct (run W p s3) as [[o s'] tr] end;
        cbn [after app]; rewrite <- ?app_assoc; reflexivity.
  - cbn [bind]. rewrite run_bind.
    destruct (run W (MoveToTrash depth path trashDir) s0)
      as [[[[baseName [e |]] | c |] s2] tr1]; try (cbn [app]; reflexivity).
    + cbn [bind print]. cbn [run].
      match goal with |- context [run W ?p s2] => destruct (run W p s2) as [[o s'] tr] end.
      cbn [after app]. rewrite <- app_assoc. reflexivity.
    + rewrite run_bind. destruct verbose; cbn [when run print movedNote];
        cbn [bind call]; cbn [run];
        destruct (handle W (Now RFC3339) s2) as [trashedAt s3];
        match goal with |- context [run W ?p s3] => destruct (run W p s3) as [[o s'] tr] end;
        cbn [after app]; rewrite <- ?app_assoc; reflexivity.
Qed.

End MoveIn.

(** C2 (amended).  When [os.Rename] fails, the fallback copy succeeds and
    the removal of the original fails, [MoveToTrash] returns the empty
    name and the error "failed to remove original ...", having made no
    call after the failed removal (the copy stays in the batch).  The
    trash command prints that error, adds the path to the failed paths,
    and goes on with the other paths with the success count and the
    metadata unchanged. *)
Theorem MoveToTrash_reports_a_failed_removal_as_an_error :
  forall {filepath : Filepath} (W : World) (depth : nat) (verbose : bool)
         (sourcePath trashDir : string) (rest : list string)
         (successCount : nat) (failedPaths : list string) (metadata : RestoreMetadata)
         (s0 s s1 s2 s3 s4 s5 : state W) (recordedPath absPath : string)
         (tr0 trc : list event) (sourceInfo : FileInfo) (e err : error),
    let destPath := Join [trashDir; Base absPath] in
    let failure := removalError sourceInfo absPath err in
    let moved :=
      ([EvCall (Abs sourcePath); EvCall (Stat absPath); EvCall (Rename absPath destPath)]
         ++ trc ++ [EvCall (removal sourceInfo absPath)])%list in
    absOf W sourcePath s0 = (recordedPath, s, tr0) ->
    handle W (Abs sourcePath) s = (inl absPath, s1) ->
    handle W (Stat absPath) s1 = (inl sourceInfo, s2) ->
    handle W (Rename absPath destPath) s2 = (Some e, s3) ->
    run W (fallbackCopy depth sourceInfo absPath destPath) s3 = (Done None, s4, trc) ->
    handle W (removal sourceInfo absPath) s4 = (Some err, s5) ->
    run W (MoveToTrash depth sourcePath trashDir) s = (Done ("", Some failure), s5, moved)
    /\ run W (trashEach depth verbose trashDir (sourcePath :: rest)
                successCount failedPaths metadata) s0
       = after (tr0 ++ moved ++ [EvPrint Stderr ("Error: " ++ Error failure ++ nl)])%list
               (run W (trashEach depth verbose trashDir rest
                         successCount (failedPaths ++ [sourcePath])%list metadata) s5).
Proof.
  intros filepath W depth verbose sourcePath trashDir rest successCount failedPaths
         metadata s0 s s1 s2 s3 s4 s5 recordedPath absPath tr0 trc sourceInfo e err
         destPath failure moved Hloop Habs Hstat Hmv Hcopy Hrm.
  assert (Hmove : run W (MoveToTrash depth sourcePath trashDir) s
                  = (Done ("", Some failure), s5, moved)).
  { rewrite (run_MoveToTrash_fallback W depth sourcePath trashDir _ _ _ _ _ _ _ Habs Hstat Hmv).
    fold destPath. rewrite Hcopy, Hrm. reflexivity. }
  split; [exact Hmove |].
  rewrite run_trashEach_cons, Hloop, Hmove. reflexivity.
Qed.

(** ** Several paths, one of them missing *)

Lemma printed_app fd tr1 tr2 :
  printed fd (tr1 ++ tr2) = (printed fd tr1 ++ printed fd tr2)%list.
Proof.
  induction tr1 as [| e tr1 IH]; simpl; [reflexivity |].
  destruct e as [fd' t | X op]; [| exact IH].
  destruct fd', fd; simpl; rewrite IH; reflexivity.
Qed.

Section TrashRun.

Context {filepath : Filepath}.
Variable W : World.
Variable depth : nat.

Lemma trashEach_Trashed verbose trashDir pre (s s1 : state W) :
  Trashed W depth trashDir pre s s1 ->
  forall rest successCount failedPaths metadata,
  exists metadata' tr,
    run W (trashEach depth verbose trashDir (pre ++ rest)
             successCount failedPaths metadata) s
    = after tr (run W (trashEach depth verbose trashDir rest
                         (successCount + length pre) failedPaths metadata') s1)
    /\ len (Items metadata') = len (Items metadata) + length pre.
Proof.
  induction 1 as [s | path pre s s1 s2 s' absPath baseName tr0 tr1 Habs Hmove _ IH];
    intros rest successCount failedPaths metadata.
  - exists metadata, []. simpl. rewrite !Nat.add_0_r.
    destruct (run W (trashEach depth verbose trashDir rest successCount failedPaths metadata) s)
      as [[o s'] tr]. split; reflexivity.
  - cbn [app]. rewrite run_trashEach_cons, Habs, Hmove.
    destruct (handle W (Now RFC3339) s2) as [trashedAt s3] eqn:Hnow.
    cbn [snd] in IH.
    destruct (IH rest (S successCount) failedPaths
                 (mkMetadata (append (Items metadata) (mkItem baseName absPath trashedAt))))
      as (metadata' & tr & Hrun & Hlen).
    rewrite Hrun. exists metadata'. eexists. split.
    + replace (successCount + length (path :: pre))
        with (S successCount + length pre) by (cbn [length]; lia).
      destruct (run W (trashEach depth verbose trashDir rest
                         (S successCount + length pre) failedPaths metadata') s')
        as [[o s''] tr']. cbn [after]. rewrite app_assoc. reflexivity.
    + rewrite Hlen. unfold len, append. cbn [Items elems length].
      rewrite length_app. cbn [length]. lia.
Qed.

End TrashRun.

(** C6.  The trash command over the paths [pre ++ p :: post], where [p]
    does not exist and every other path is moved into the batch: the
    missing path is reported and the loop goes on with the paths after
    it; the loop ends with a success count of N-1 and the one failed path
    [p], with N-1 items in the metadata; the command prints the error of
    [p] and "Failed to trash 1 item(s)" on the error stream, and, when
    N-1 is positive, "Successfully moved N-1 item(s) to trash"; it exits
    with status 1. *)
Theorem trash_with_one_missing_path :
  forall {filepath : Filepath} (W : World) (depth : nat) (verbose : bool)
         (pre post : list string) (p absPath trashDir : string)
         (s sdir s1 s2 s3 : state W) (trd : list event),
    let args := (pre ++ p :: post)%list in
    let N := length args in
    run W CreateTrashTimestampDir s = (Done (trashDir, None), sdir, trd) ->
    Trashed W depth trashDir pre sdir s1 ->
    Missing W p absPath s1 s2 ->
    Trashed W depth trashDir post s2 s3 ->
    exists (metadata : RestoreMetadata) (s' : state W) (trl tr : list event),
      run W (trashEach depth verbose trashDir args 0 [] (mkMetadata (Some []))) sdir
        = (Done (N - 1, [p], metadata), s3, trl)
      /\ len (Items metadata) = N - 1
      /\ run W (rootCmd_Run depth verbose args) s = (Exited 1, s', tr)
      /\ In ("Error: path does not exist: " ++ absPath ++ nl) (printed Stderr tr)
      /\ In ("Failed to trash 1 item(s)" ++ nl) (printed Stderr tr)
      /\ (0 < N - 1 ->
          In ("Successfully moved " ++ itoa (N - 1) ++ " item(s) to trash" ++ nl)
             (printed Stdout tr)).
Proof.
  intros filepath W depth verbose pre post p absPath trashDir s sdir s1 s2 s3 trd
         args N Hdir Hpre (recordedPath & s1a & s1b & tr0 & err & Habs0 & Habs & Hstat & Hne)
         Hpost.
  assert (HN : N - 1 = length pre + length post).
  { subst N args. rewrite length_app. cbn [length]. lia. }
  (* the loop *)
  destruct (trashEach_Trashed W depth verbose trashDir _ _ _ Hpre (p :: post) 0 []
              (mkMetadata (Some []))) as (md1 & tr1 & Hrun1 & Hlen1).
  destruct (trashEach_Trashed W depth verbose trashDir _ _ _ Hpost [] (0 + length pre) [p] md1)
    as (md2 & tr2 & Hrun2 & Hlen2).
  rewrite app_nil_r in Hrun2.
  assert (Hloop :
    run W (trashEach depth verbose trashDir args 0 [] (mkMetadata (Some []))) sdir
    = (Done (N - 1, [p], md2), s3,
       (tr1 ++ (tr0 ++ [EvCall (Abs p); EvCall (Stat absPath)]
                  ++ [EvPrint Stderr ("Error: " ++ "path does not exist: " ++ absPath ++ nl)])
            ++ tr2 ++ [])%list)).
  { subst args. rewrite Hrun1, run_trashEach_cons, Habs0.
    rewrite (run_MoveToTrash_missing W depth p trashDir _ _ _ _ _ Habs Hstat Hne).
    cbn [app]. rewrite Hrun2. cbn [trashEach run after].
    rewrite HN. cbn [Error Errorf]. reflexivity. }
  assert (Hlen : len (Items md2) = N - 1).
  { rewrite Hlen2, Hlen1, HN. reflexivity. }
  (* the command *)
  assert (Hargs : (length args =? 0)%nat = false).
  { subst args. rewrite length_app. cbn [length]. apply Nat.eqb_neq. lia. }
  set (trl := (tr1 ++ _)%list) in Hloop.
  assert (Hroot : exists s' warn,
    run W (rootCmd_Run depth verbose args) s
    = (Exited 1, s',
       (trd ++ (if verbose
                then [EvPrint Stdout ("Created trash directory: " ++ trashDir ++ nl)]
                else [])
            ++ trl ++ warn
            ++ (if (0 <? N - 1)%nat
                then [EvPrint Stdout ("Successfully moved " ++ itoa (N - 1)
                                        ++ " item(s) to trash" ++ nl)]
                else [])
            ++ [EvPrint Stderr ("Failed to trash " ++ itoa 1 ++ " item(s)" ++ nl)])%list)).
  { unfold rootCmd_Run. rewrite Hargs, run_bind, Hdir.
    rewrite run_bind, run_when_print. rewrite run_bind, Hloop.
    rewrite run_bind.
    assert (Hsave : exists s' warn,
      run W (when (0 <? len (Items md2))%nat
               (e <- SaveRestoreMetadata trashDir md2 ;;
                match e with
                | Some e' =>
                  print Stderr ("Warning: failed to save restore metadata: "
                                  ++ Error e' ++ nl)
                | None => Ret tt
                end)) s3 = (Done tt, s', warn)).
    { destruct (0 <? len (Items md2))%nat; cbn [when].
      - rewrite run_bind, run_SaveRestoreMetadata. cbv zeta.
        match goal with |- context [handle W ?op s3] =>
          destruct (handle W op s3) as [[e |] s'] end;
          do 2 eexists; reflexivity.
      - do 2 eexists; reflexivity. }
    destruct Hsave as (s' & warn & Hsave). rewrite Hsave.
    rewrite run_bind, run_when_print. cbn [length Nat.ltb Nat.leb run print bind].
    exists s', warn. rewrite <- ?app_assoc. reflexivity. }
  destruct Hroot as (s' & warn & Hroot).
  exists md2, s', trl. eexists.
  split; [exact Hloop |]. split; [exact Hlen |]. split; [exact Hroot |].
  rewrite !printed_app. split; [| split].
  - apply in_or_app. right. apply in_or_app. right. apply in_or_app. left.
    subst trl. rewrite !printed_app. apply in_or_app. right. apply in_or_app. left.
    apply in_or_app. right. apply in_or_app. right. left. reflexivity.
  - do 5 (apply in_or_app; right). left. reflexivity.
  - intros Hpos. apply Nat.ltb_lt in Hpos. rewrite Hpos.
    do 4 (apply in_or_app; right). apply in_or_app. left. left. reflexivity.
Qed.

(* ================================================================== *)
(** * The --all flag *)
(* ================================================================== *)

Lemma quiet_showMatches (W : World) itemName matches (s : state W) :
  exists tr, run W (showMatches itemName matches) s = (Done tt, s, tr) /\ quiet tr.
Proof.
  assert (Heach : forall matches i (s : state W),
             exists tr, run W (showEach i matches) s = (Done tt, s, tr) /\ quiet tr).
  { clear. induction matches as [| m rest IH]; intros i s.
    - exists []. split; [reflexivity | constructor].
    - destruct (IH (S i) s) as (tr & Hrun & Hq).
      cbn [showEach print bind run]. rewrite Hrun.
      eexists. split; [reflexivity |]. repeat constructor. exact Hq. }
  unfold showMatches. cbn [print bind run]. rewrite run_bind.
  destruct (Heach matches 0 s) as (tr & Hrun & Hq). rewrite Hrun.
  cbn [run print bind]. eexists. split; [reflexivity |].
  constructor; [reflexivity |]. apply quiet_app; [exact Hq |]. repeat constructor.
Qed.

(** X19.  With --all and two or more matches the restore command only
    reads and prints: it makes no call that changes the file system, and
    ends with status 0. *)
Lemma restore_all_of_several_matches_only_lists :
  forall {filepath : Filepath} (W : World) (depth : nat) (verbose force : bool)
         (specifiedTimestamp itemName home : string) (entries : list DirEntry)
         (matches : list MatchedItem) (s s1 s2 s3 : state W) (tr : list event),
    let configDir := Join [home; ".config"; "trash"] in
    handle W UserHomeDir s = (inl home, s1) ->
    handle W (ReadDir configDir) s1 = (inl entries, s2) ->
    run W (findMatches itemName specifiedTimestamp configDir
             (sortReverse (dirNames entries [])) []) s2 = (Done matches, s3, tr) ->
    1 < length matches ->
    exists tr',
      run W (restoreCmd_Run depth verbose force true specifiedTimestamp itemName) s
      = (Done tt, s3, tr')
      /\ quiet tr'.
Proof.
  intros filepath W depth verbose force ts itemName home entries matches s s1 s2 s3 tr
         configDir Hhome Hdir Hfind Hlen.
  destruct (findMatches_run W itemName ts configDir
              (sortReverse (dirNames entries [])) [] s2)
    as (found & s3' & tr0 & Hrun & Hq & _).
  rewrite Hfind in Hrun. inversion Hrun; subst found s3' tr0. clear Hrun.
  unfold restoreCmd_Run. rewrite run_bind, run_GetConfigDir, Hhome.
  cbn [bind call]. cbn [run]. fold configDir. rewrite Hdir.
  rewrite run_bind, Hfind. unfold restoreMatches.
  destruct matches as [| m [| m' rest]]; cbn [length] in Hlen; try lia.
  cbn [length Nat.eqb Nat.ltb Nat.leb].
  destruct (quiet_showMatches W itemName (m :: m' :: rest) s3) as (tr' & Hshow & Hq').
  rewrite Hshow. eexists. split; [reflexivity |].
  repeat constructor. apply quiet_app; assumption.
Qed.

(* ================================================================== *)
(** * Restore Metadata: the round trip through the sidecar *)
(* ================================================================== *)

(** ** Sequences of UTF-8 *)

Module utf8_facts.
Import utf8.

#[local] Ltac Zify.zify_post_hook ::= Z.div_mod_to_equations.

Lemma land_shiftl_low (h l k : N) : (l < 2 ^ k)%N -> N.land (N.shiftl h k) l = 0%N.
Proof.
  intros Hl. apply N.bits_inj_0. intros n. rewrite N.land_spec.
  destruct (N.lt_ge_cases n k) as [Hn | Hn].
  - rewrite N.shiftl_spec_low by exact Hn. reflexivity.
  - destruct (N.eq_dec l 0) as [-> | Hl0].
    + rewrite N.bits_0. apply andb_false_r.
    + rewrite (N.bits_above_log2 l n); [apply andb_false_r |].
      apply N.lt_le_trans with k; [| exact Hn].
      apply N.log2_lt_pow2; [lia | exact Hl].
Qed.

Lemma lor_shiftl (h l k : N) : (l < 2 ^ k)%N -> N.lor (N.shiftl h k) l = (h * 2 ^ k + l)%N.
Proof.
  intros Hl. rewrite <- N.lxor_lor, <- N.add_nocarry_lxor, N.shiftl_mul_pow2;
    auto using land_shiftl_low.
Qed.

Lemma land_63 (b : N) : N.land b 63 = (b mod 64)%N.
Proof. change 63%N with (N.ones 6). rewrite N.land_ones. reflexivity. Qed.

Lemma land_31 (b : N) : N.land b 31 = (b mod 32)%N.
Proof. change 31%N with (N.ones 5). rewrite N.land_ones. reflexivity. Qed.

Lemma land_15 (b : N) : N.land b 15 = (b mod 16)%N.
Proof. change 15%N with (N.ones 4). rewrite N.land_ones. reflexivity. Qed.

Lemma land_7 (b : N) : N.land b 7 = (b mod 8)%N.
Proof. change 7%N with (N.ones 3). rewrite N.land_ones. reflexivity. Qed.

Lemma lor_128 (x : N) : (x < 64)%N -> N.lor 128 x = (128 + x)%N.
Proof.
  intros Hx. change 128%N with (N.shiftl 1 7). rewrite lor_shiftl; [reflexivity |].
  change (2 ^ 7)%N with 128%N. lia.
Qed.

Lemma lor_192 (x : N) : (x < 64)%N -> N.lor 192 x = (192 + x)%N.
Proof.
  intros Hx. change 192%N with (N.shiftl 3 6). rewrite lor_shiftl; [reflexivity |].
  change (2 ^ 6)%N with 64%N. lia.
Qed.

Lemma lor_224 (x : N) : (x < 32)%N -> N.lor 224 x = (224 + x)%N.
Proof.
  intros Hx. change 224%N with (N.shiftl 7 5). rewrite lor_shiftl; [reflexivity |].
  change (2 ^ 5)%N with 32%N. lia.
Qed.

Lemma lor_240 (x : N) : (x < 16)%N -> N.lor 240 x = (240 + x)%N.
Proof.
  intros Hx. change 240%N with (N.shiftl 15 4). rewrite lor_shiftl; [reflexivity |].
  change (2 ^ 4)%N with 16%N. lia.
Qed.

Definition rune2 (p0 b1 : N) : N := N.lor (N.shiftl (N.land p0 31) 6) (N.land b1 63).
Definition rune3 (p0 b1 b2 : N) : N :=
  N.lor (N.shiftl (N.land p0 15) 12) (N.lor (N.shiftl (N.land b1 63) 6) (N.land b2 63)).
Definition rune4 (p0 b1 b2 b3 : N) : N :=
  N.lor (N.shiftl (N.land p0 7) 18)
    (N.lor (N.shiftl (N.land b1 63) 12) (N.lor (N.shiftl (N.land b2 63) 6) (N.land b3 63))).

Lemma rune2_value p0 b1 :
  (194 <= p0 <= 223)%N -> (128 <= b1 <= 191)%N ->
  rune2 p0 b1 = ((p0 - 192) * 64 + (b1 - 128))%N.
Proof.
  intros H0 H1. unfold rune2. rewrite land_31, land_63.
  rewrite lor_shiftl by (change (2 ^ 6)%N with 64%N; lia).
  change (2 ^ 6)%N with 64%N. lia.
Qed.

Lemma rune3_value p0 b1 b2 :
  (224 <= p0 <= 239)%N -> (128 <= b1 <= 191)%N -> (128 <= b2 <= 191)%N ->
  rune3 p0 b1 b2 = ((p0 - 224) * 4096 + (b1 - 128) * 64 + (b2 - 128))%N.
Proof.
  intros H0 H1 H2. unfold rune3. rewrite land_15, !land_63.
  rewrite (lor_shiftl (b1 mod 64)) by (change (2 ^ 6)%N with 64%N; lia).
  rewrite lor_shiftl by (change (2 ^ 12)%N with 4096%N; change (2 ^ 6)%N with 64%N; lia).
  change (2 ^ 12)%N with 4096%N; change (2 ^ 6)%N with 64%N. lia.
Qed.

Lemma rune4_value p0 b1 b2 b3 :
  (240 <= p0 <= 247)%N -> (128 <= b1 <= 191)%N -> (128 <= b2 <= 191)%N ->
  (128 <= b3 <= 191)%N ->
  rune4 p0 b1 b2 b3
  = ((p0 - 240) * 262144 + (b1 - 128) * 4096 + (b2 - 128) * 64 + (b3 - 128))%N.
Proof.
  intros H0 H1 H2 H3. unfold rune4. rewrite land_7, !land_63.
  rewrite (lor_shiftl (b2 mod 64)) by (change (2 ^ 6)%N with 64%N; lia).
  rewrite (lor_shiftl (b1 mod 64))
    by (change (2 ^ 12)%N with 4096%N; change (2 ^ 6)%N with 64%N; lia).
  rewrite lor_shiftl
    by (change (2 ^ 18)%N with 262144%N; change (2 ^ 12)%N with 4096%N;
        change (2 ^ 6)%N with 64%N; lia).
  change (2 ^ 18)%N with 262144%N; change (2 ^ 12)%N with 4096%N;
    change (2 ^ 6)%N with 64%N. lia.
Qed.

Lemma tx_value (x b : N) :
  (128 <= b <= 191)%N -> (x mod 64 = b - 128)%N ->
  chr (N.lor 128 (N.land x 63)) = chr b.
Proof.
  intros Hb Hx. rewrite land_63, lor_128 by lia. f_equal. lia.
Qed.

Lemma encode_rune2 p0 b1 :
  (194 <= p0 <= 223)%N -> (128 <= b1 <= 191)%N ->
  EncodeRune (rune2 p0 b1) = String (chr p0) (String (chr b1) "").
Proof.
  intros H0 H1. rewrite rune2_value by assumption.
  set (r := ((p0 - 192) * 64 + (b1 - 128))%N).
  assert (Hr : (128 <= r <= 2047)%N) by (subst r; lia).
  unfold EncodeRune.
  destruct (N.leb_spec r 127); [lia |].
  destruct (N.leb_spec r 2047); [| lia].
  rewrite N.shiftr_div_pow2. change (2 ^ 6)%N with 64%N.
  rewrite lor_192 by lia.
  f_equal; [f_equal; subst r; lia |].
  f_equal. apply tx_value; [exact H1 | subst r; lia].
Qed.

Lemma encode_rune3 p0 b1 b2 :
  (224 <= p0 <= 239)%N -> (128 <= b1 <= 191)%N -> (128 <= b2 <= 191)%N ->
  (p0 = 224 -> 160 <= b1)%N -> (p0 = 237 -> b1 <= 159)%N ->
  EncodeRune (rune3 p0 b1 b2)
  = String (chr p0) (String (chr b1) (String (chr b2) "")).
Proof.
  intros H0 H1 H2 Hlo Hhi. rewrite rune3_value by assumption.
  set (r := ((p0 - 224) * 4096 + (b1 - 128) * 64 + (b2 - 128))%N).
  assert (Hr : (2048 <= r <= 65535)%N) by (subst r; lia).
  assert (Hs : (r < 55296 \/ 57343 < r)%N) by (subst r; lia).
  unfold EncodeRune, MaxRune, inRange.
  destruct (N.leb_spec r 127); [lia |].
  destruct (N.leb_spec r 2047); [lia |].
  destruct (N.ltb_spec 1114111 r); [lia |].
  replace ((55296 <=? r)%N && (r <=? 57343)%N) with false
    by (symmetry; apply andb_false_iff;
        destruct Hs; [left; apply N.leb_gt | right; apply N.leb_gt]; lia).
  cbn [orb].
  destruct (N.leb_spec r 65535); [| lia].
  rewrite !N.shiftr_div_pow2. change (2 ^ 12)%N with 4096%N. change (2 ^ 6)%N with 64%N.
  rewrite lor_224 by lia.
  f_equal; [f_equal; subst r; lia |].
  f_equal; [apply tx_value; [exact H1 | subst r; lia] |].
  f_equal. apply tx_value; [exact H2 | subst r; lia].
Qed.

Lemma encode_rune4 p0 b1 b2 b3 :
  (240 <= p0 <= 244)%N -> (128 <= b1 <= 191)%N -> (128 <= b2 <= 191)%N ->
  (128 <= b3 <= 191)%N ->
  (p0 = 240 -> 144 <= b1)%N -> (p0 = 244 -> b1 <= 143)%N ->
  EncodeRune (rune4 p0 b1 b2 b3)
  = String (chr p0) (String (chr b1) (String (chr b2) (String (chr b3) ""))).
Proof.
  intros H0 H1 H2 H3 Hlo Hhi. rewrite rune4_value by (try assumption; lia).
  set (r := ((p0 - 240) * 262144 + (b1 - 128) * 4096 + (b2 - 128) * 64 + (b3 - 128))%N).
  assert (Hr : (65536 <= r <= 1114111)%N) by (subst r; lia).
  unfold EncodeRune, MaxRune, inRange.
  destruct (N.leb_spec r 127); [lia |].
  destruct (N.leb_spec r 2047); [lia |].
  destruct (N.ltb_spec 1114111 r); [lia |].
  replace ((55296 <=? r)%N && (r <=? 57343)%N) with false
    by (symmetry; apply andb_false_iff; right; apply N.leb_gt; lia).
  cbn [orb].
  destruct (N.leb_spec r 65535); [lia |].
  rewrite !N.shiftr_div_pow2.
  change (2 ^ 18)%N with 262144%N. change (2 ^ 12)%N with 4096%N.
  change (2 ^ 6)%N with 64%N.
  rewrite lor_240 by lia.
  f_equal; [f_equal; subst r; lia |].
  f_equal; [apply tx_value; [exact H1 | subst r; lia] |].
  f_equal; [apply tx_value; [exact H2 | subst r; lia] |].
  f_equal. apply tx_value; [exact H3 | subst r; lia].
Qed.


Lemma first_spec p0 sz lo hi :
  first p0 = Some (sz, lo, hi) ->
  (128 <= lo)%N /\ (hi <= 191)%N
  /\ ((sz = 2%nat /\ (194 <= p0 <= 223)%N)
      \/ (sz = 3%nat /\ (224 <= p0 <= 239)%N
          /\ (p0 = 224 -> lo = 160)%N /\ (p0 = 237 -> hi = 159)%N)
      \/ (sz = 4%nat /\ (240 <= p0 <= 244)%N
          /\ (p0 = 240 -> lo = 144)%N /\ (p0 = 244 -> hi = 143)%N)).
Proof.
  unfold first. intros H.
  repeat match type of H with
         | (if ?c then _ else _) = _ => destruct c eqn:?
         end;
    inversion H; subst; clear H; unfold inRange in *;
    rewrite ?andb_true_iff, ?andb_false_iff, ?N.leb_le, ?N.leb_gt, ?N.eqb_eq, ?N.eqb_neq in *;
    lia.
Qed.

Lemma chr_code (c : ascii) : chr (code c) = c.
Proof. apply ascii_N_embedding. Qed.

(** A sequence that [DecodeRune] accepts, at the head of a string. *)
Inductive sequence : string -> N -> nat -> string -> string -> Prop :=
| seq2 c0 c1 rest :
    sequence (String c0 (String c1 rest)) (rune2 (code c0) (code c1)) 2
             (String c0 (String c1 "")) rest
| seq3 c0 c1 c2 rest :
    sequence (String c0 (String c1 (String c2 rest)))
             (rune3 (code c0) (code c1) (code c2)) 3
             (String c0 (String c1 (String c2 ""))) rest
| seq4 c0 c1 c2 c3 rest :
    sequence (String c0 (String c1 (String c2 (String c3 rest))))
             (rune4 (code c0) (code c1) (code c2) (code c3)) 4
             (String c0 (String c1 (String c2 (String c3 "")))) rest.

Lemma inRange_spec lo hi b : inRange lo hi b = true -> (lo <= b <= hi)%N.
Proof.
  unfold inRange. intros H. apply andb_true_iff in H. destruct H as [H1 H2].
  apply N.leb_le in H1, H2. lia.
Qed.

(** What [DecodeRune] says of a string that starts outside ASCII: either
    one bad byte, or a sequence that [EncodeRune] gives back and that is
    decoded the same whatever follows it. *)
Lemma DecodeRune_sequence c0 s1 r size :
  (code c0 <? 128)%N = false ->
  DecodeRune (String c0 s1) = (r, size) ->
  (size =? 1)%nat = false ->
  exists bytes rest,
    sequence (String c0 s1) r size bytes rest
    /\ EncodeRune r = bytes
    /\ forall tail, DecodeRune (bytes ++ tail) = (r, size).
Proof.
  intros Hhigh Hdec Hsize. unfold DecodeRune in Hdec. rewrite Hhigh in Hdec.
  destruct (first (code c0)) as [[[sz lo] hi] |] eqn:Hfirst;
    [| inversion Hdec; subst; discriminate].
  destruct (first_spec _ _ _ _ Hfirst) as (Hlo & Hhi & Hcases).
  destruct s1 as [| c1 s2]; [inversion Hdec; subst; discriminate |].
  destruct (inRange lo hi (code c1)) eqn:H1; cbn [negb] in Hdec;
    [| inversion Hdec; subst; discriminate].
  apply inRange_spec in H1.
  assert (Hdec' : forall tail, DecodeRune (String c0 (String c1 tail)) =
            if (sz <=? 2)%nat
            then (rune2 (code c0) (code c1), 2%nat)
            else match tail with
                 | "" => (RuneError, 1%nat)
                 | String c2 s3 =>
                   if negb (cont (code c2)) then (RuneError, 1%nat)
                   else if (sz <=? 3)%nat
                        then (rune3 (code c0) (code c1) (code c2), 3%nat)
                        else match s3 with
                             | "" => (RuneError, 1%nat)
                             | String c3 _ =>
                               if negb (cont (code c3)) then (RuneError, 1%nat)
                               else (rune4 (code c0) (code c1) (code c2) (code c3), 4%nat)
                             end
                 end).
  { intros tail. unfold DecodeRune. rewrite Hhigh, Hfirst.
    replace (inRange lo hi (code c1)) with true
      by (symmetry; unfold inRange; apply andb_true_iff; split; apply N.leb_le; lia).
    reflexivity. }
  destruct Hcases as [(-> & H0) | [(-> & H0 & Hl & Hh) | (-> & H0 & Hl & Hh)]].
  - cbn [Nat.leb] in Hdec. inversion Hdec; subst r size.
    exists (String c0 (String c1 "")), s2. split; [constructor |]. split.
    + etransitivity; [apply (encode_rune2 (code c0) (code c1)); lia |].
      rewrite !chr_code. reflexivity.
    + intros tail. cbn [String.append]. rewrite Hdec'. reflexivity.
  - cbn [Nat.leb] in Hdec.
    destruct s2 as [| c2 s3]; [inversion Hdec; subst; discriminate |].
    destruct (cont (code c2)) eqn:H2; cbn [negb] in Hdec;
      [| inversion Hdec; subst; discriminate].
    inversion Hdec; subst r size. apply inRange_spec in H2.
    exists (String c0 (String c1 (String c2 ""))), s3. split; [constructor |]. split.
    + etransitivity; [apply (encode_rune3 (code c0) (code c1) (code c2)); lia |].
      rewrite !chr_code. reflexivity.
    + intros tail. cbn [String.append]. rewrite Hdec'. cbn [Nat.leb].
      replace (cont (code c2)) with true
        by (symmetry; unfold cont, inRange; apply andb_true_iff; split; apply N.leb_le; lia).
      reflexivity.
  - cbn [Nat.leb] in Hdec.
    destruct s2 as [| c2 s3]; [inversion Hdec; subst; discriminate |].
    destruct (cont (code c2)) eqn:H2; cbn [negb] in Hdec;
      [| inversion Hdec; subst; discriminate].
    destruct s3 as [| c3 s4]; [inversion Hdec; subst; discriminate |].
    destruct (cont (code c3)) eqn:H3; cbn [negb] in Hdec;
      [| inversion Hdec; subst; discriminate].
    inversion Hdec; subst r size. apply inRange_spec in H2, H3.
    exists (String c0 (String c1 (String c2 (String c3 "")))), s4.
    split; [constructor |]. split.
    + etransitivity;
        [apply (encode_rune4 (code c0) (code c1) (code c2) (code c3)); lia |].
      rewrite !chr_code. reflexivity.
    + intros tail. cbn [String.append]. rewrite Hdec'. cbn [Nat.leb].
      replace (cont (code c2)) with true
        by (symmetry; unfold cont, inRange; apply andb_true_iff; split; apply N.leb_le; lia).
      replace (cont (code c3)) with true
        by (symmetry; unfold cont, inRange; apply andb_true_iff; split; apply N.leb_le; lia).
      reflexivity.
Qed.

Lemma sequence_parts s r size bytes rest :
  sequence s r size bytes rest ->
  s = bytes ++ rest
  /\ json.take size s = bytes
  /\ drop size s = rest
  /\ (forall tail, drop size (bytes ++ tail) = tail)
  /\ String.length s = (size + String.length rest)%nat
  /\ String.length bytes = size
  /\ (1 <= size)%nat
  /\ exists c0 bytes', bytes = String c0 bytes'.
Proof.
  intros H. destruct H; cbn; repeat split; try lia; try (do 2 eexists; reflexivity);
    unfold json.take; cbn; destruct rest; reflexivity.
Qed.

End utf8_facts.

Lemma append_assoc (a b c : string) : (a ++ b) ++ c = a ++ (b ++ c).
Proof. induction a as [| x a IH]; simpl; [reflexivity | rewrite IH; reflexivity]. Qed.

Lemma append_empty_r (a : string) : a ++ "" = a.
Proof. induction a as [| x a IH]; simpl; [reflexivity | rewrite IH; reflexivity]. Qed.

Lemma length_append (a b : string) :
  String.length (a ++ b) = (String.length a + String.length b)%nat.
Proof. induction a as [| x a IH]; simpl; [reflexivity | rewrite IH; reflexivity]. Qed.

Module json_facts.
Import json utf8_facts.

(** The way an ASCII character is written, by itself or escaped. *)
Definition written (c : ascii) : string :=
  if htmlSafe (code c) then String c "" else escapeByte (code c).

Lemma written_length (c : ascii) : (1 <= String.length (written c))%nat.
Proof.
  unfold written, escapeByte, esc.
  repeat match goal with |- context [if ?b then _ else _] => destruct b end;
    cbn [String.length]; lia.
Qed.

(** Reading back what was written for an ASCII character takes one step
    of the scanner and gives the character. *)
Lemma scan_written (c : ascii) (fuel : nat) (tail : string) :
  (code c <? 128)%N = true ->
  scanString (S fuel) (written c ++ tail) = prepend (String c "") (scanString fuel tail).
Proof.
  destruct c as [b0 b1 b2 b3 b4 b5 b6 b7].
  destruct b7; [intros H; destruct b0, b1, b2, b3, b4, b5, b6; discriminate H |].
  intros _.
  destruct b0, b1, b2, b3, b4, b5, b6; reflexivity.
Qed.

Lemma prepend_Some p s rest : prepend p (Some (s, rest)) = Some (p ++ s, rest).
Proof. reflexivity. Qed.

(** The scanner reads back what the encoder wrote for a valid string. *)
Lemma scan_appendBody : forall (n : nat) (s rest : string) (fuel : nat),
  (String.length s <= n)%nat ->
  utf8.validFuel n s = true ->
  (String.length (appendBody n s) < fuel)%nat ->
  scanString fuel (appendBody n s ++ String dq rest) = Some (s, rest).
Proof.
  induction n as [| n IH]; intros s rest fuel Hlen Hvalid Hfuel.
  - destruct s; [| cbn in Hlen; lia].
    destruct fuel; [cbn in Hfuel; lia |]. reflexivity.
  - destruct s as [| c s'].
    { destruct fuel; [cbn in Hfuel; lia |]. reflexivity. }
    cbn [utf8.validFuel] in Hvalid. cbn [appendBody] in Hfuel |- *.
    cbn [String.length] in Hlen.
    destruct (code c <? 128)%N eqn:Hascii.
    + (* an ASCII character *)
      assert (Hw : (if htmlSafe (code c) then String c (appendBody n s')
                    else escapeByte (code c) ++ appendBody n s')
                   = written c ++ appendBody n s').
      { unfold written. destruct (htmlSafe (code c)); reflexivity. }
      rewrite Hw in Hfuel |- *. rewrite length_append in Hfuel.
      pose proof (written_length c) as Hwl.
      destruct fuel as [| fuel]; [lia |].
      rewrite append_assoc, scan_written by exact Hascii.
      rewrite IH by (try assumption; lia). reflexivity.
    + (* a sequence outside ASCII *)
      destruct (utf8.DecodeRune (String c s')) as [r size] eqn:Hdec.
      destruct (size =? 1)%nat eqn:Hsize; [discriminate |].
      destruct (DecodeRune_sequence _ _ _ _ Hascii Hdec Hsize)
        as (bytes & after & Hseq & Henc & Hagain).
      destruct (sequence_parts _ _ _ _ _ Hseq)
        as (Hs & Htake & Hdrop & Hdrop' & Hl & Hlb & Hpos & c0 & bytes' & Hb).
      rewrite Hdrop in *. rewrite andb_false_r in *.
      assert (Hc0 : c0 = c) by (rewrite Hb in Hs; inversion Hs; reflexivity).
      subst c0.
      assert (Hafter : (String.length after <= n)%nat)
        by (cbn [String.length] in Hl; lia).
      destruct ((r =? 8232)%N || (r =? 8233)%N) eqn:Hsep.
      * (* U+2028 and U+2029 are written as escapes *)
        destruct fuel as [| fuel]; [lia |].
        assert (Hread : forall tail,
                   scanString (S fuel)
                     (String bsl "u202" ++ String (hex (N.land r 15)) "" ++ tail)
                   = prepend (utf8.EncodeRune r) (scanString fuel tail)).
        { intros tail. apply orb_true_iff in Hsep.
          destruct Hsep as [H | H]; apply N.eqb_eq in H; subst r; reflexivity. }
        rewrite !length_append in Hfuel.
        rewrite !append_assoc, Hread, IH by (try assumption; cbn in Hfuel; lia).
        rewrite prepend_Some, Henc, <- Hs. reflexivity.
      * (* every other sequence is copied *)
        rewrite Htake in Hfuel |- *. rewrite length_append, Hlb in Hfuel.
        destruct fuel as [| fuel]; [lia |].
        rewrite append_assoc.
        assert (Hstep : forall tail,
                   scanString (S fuel) (bytes ++ tail)
                   = prepend (utf8.EncodeRune r) (scanString fuel tail)).
        { intros tail. rewrite Hb. cbn [String.append scanString].
          assert (H34 : (code c =? 34)%N = false)
            by (apply N.eqb_neq; apply N.ltb_ge in Hascii; lia).
          assert (H92 : (code c =? 92)%N = false)
            by (apply N.eqb_neq; apply N.ltb_ge in Hascii; lia).
          assert (H32 : (code c <? 32)%N = false)
            by (apply N.ltb_ge; apply N.ltb_ge in Hascii; lia).
          rewrite H34, H92, H32, Hascii.
          change (String c (bytes' ++ tail)) with (String c bytes' ++ tail).
          rewrite <- Hb, Hagain, Hdrop'. reflexivity. }
        rewrite Hstep, IH by (try assumption; lia).
        rewrite prepend_Some, Henc, <- Hs. reflexivity.
Qed.

End json_facts.

(** ** The parser on the text of the encoder *)

Module sidecar_facts.
Import json utf8_facts json_facts.

Definition itemValue (it : RestoreItem) : value :=
  Object [("name", Str (Name it)); ("original_path", Str (OriginalPath it));
          ("trashed_at", Str (TrashedAt it))].

Lemma parse_quoted (s rest : string) (fuel : nat) (depth : N) :
  utf8.ValidString s = true ->
  parseValue (S fuel) depth (appendString s ++ rest) = Some (Str s, rest).
Proof.
  intros Hvalid. unfold appendString. cbn [String.append].
  rewrite append_assoc. cbn [String.append].
  change (parseValue (S fuel) depth (String dq (appendBody (String.length s) s ++ String dq rest)))
    with (match scanString (String.length (appendBody (String.length s) s ++ String dq rest))
                  (appendBody (String.length s) s ++ String dq rest) with
          | Some (str, r) => Some (Str str, r)
          | None => None
          end).
  rewrite scan_appendBody; [reflexivity | lia | exact Hvalid |].
  rewrite length_append. cbn [String.length]. lia.
Qed.


Lemma appendString_app (s rest : string) :
  appendString s ++ rest = String dq (appendBody (String.length s) s ++ String dq rest).
Proof. unfold appendString. cbn [String.append]. rewrite append_assoc. reflexivity. Qed.

Lemma parseValue_space (fuel : nat) (depth : N) (s : string) :
  parseValue (S fuel) depth (String " " s) = parseValue (S fuel) depth s.
Proof. reflexivity. Qed.


Definition membersAfter (key : string) (v : value) (fuel : nat) (depth : N)
  (after : string) : option (list (string * value) * string) :=
  match skipSpace after with
  | String "," s5 =>
    match parseMembers fuel depth s5 with
    | Some (ms, r) => Some ((key, v) :: ms, r)
    | None => None
    end
  | String "}" r => Some ([(key, v)], r)
  | _ => None
  end.

Definition memberAt (fuel : nat) (depth : N) (s : string)
  : option (list (string * value) * string) :=
  match scanString (String.length s) s with
  | None => None
  | Some (key, s2) =>
    match skipSpace s2 with
    | String ":" s3 =>
      match parseValue fuel depth s3 with
      | None => None
      | Some (v, s4) => membersAfter key v fuel depth s4
      end
    | _ => None
    end
  end.

Lemma parseMembers_key1 (fuel : nat) (depth : N) (s : string) :
  parseMembers (S fuel) depth (nl ++ indent 1 ++ String dq s) = memberAt fuel depth s.
Proof. reflexivity. Qed.

Lemma parseMembers_key3 (fuel : nat) (depth : N) (s : string) :
  parseMembers (S fuel) depth (nl ++ indent 3 ++ String dq s) = memberAt fuel depth s.
Proof. reflexivity. Qed.

Lemma memberAt_key (key rest : string) (fuel : nat) (depth : N) :
  utf8.ValidString key = true ->
  memberAt fuel depth (appendBody (String.length key) key ++ String dq (": " ++ rest))
  = match parseValue fuel depth (String " " rest) with
    | None => None
    | Some (v, s4) => membersAfter key v fuel depth s4
    end.
Proof.
  intros Hk. unfold memberAt.
  rewrite scan_appendBody;
    [| lia | exact Hk | rewrite length_append; cbn [String.length]; lia].
  reflexivity.
Qed.

Lemma parse_member (key val after : string) (fuel : nat) (depth : N) :
  utf8.ValidString key = true ->
  utf8.ValidString val = true ->
  parseMembers (S (S fuel)) depth
    (nl ++ indent 3 ++ appendString key ++ ": " ++ appendString val ++ after)
  = membersAfter key (Str val) (S fuel) depth after.
Proof.
  intros Hk Hv.
  rewrite appendString_app, parseMembers_key3, memberAt_key by exact Hk.
  rewrite parseValue_space, parse_quoted by exact Hv.
  reflexivity.
Qed.

Lemma parse_object_open (key rest : string) (fuel : nat) (depth : N) :
  (depth + 1 <= maxNestingDepth)%N ->
  parseValue (S fuel) depth (indent 2 ++ "{" ++ nl ++ indent 3 ++ appendString key ++ rest)
  = match parseMembers fuel (depth + 1)
            (nl ++ indent 3 ++ appendString key ++ rest) with
    | Some (ms, r) => Some (Object ms, r)
    | None => None
    end.
Proof.
  intros Hd. rewrite appendString_app.
  change (parseValue (S fuel) depth
            (indent 2 ++ "{" ++ nl ++ indent 3
               ++ String dq (appendBody (String.length key) key ++ String dq rest)))
    with (if (maxNestingDepth <? depth + 1)%N then None
          else match parseMembers fuel (depth + 1)
                       (nl ++ indent 3
                          ++ String dq (appendBody (String.length key) key ++ String dq rest))
               with
               | Some (ms, r) => Some (Object ms, r)
               | None => None
               end).
  destruct (N.ltb_spec maxNestingDepth (depth + 1)); [lia | reflexivity].
Qed.

Lemma parse_item (it : RestoreItem) (rest : string) (fuel : nat) (depth : N) :
  utf8.ValidString (Name it) = true ->
  utf8.ValidString (OriginalPath it) = true ->
  utf8.ValidString (TrashedAt it) = true ->
  (depth + 1 <= maxNestingDepth)%N ->
  parseValue (5 + fuel) depth (marshalItem it ++ rest) = Some (itemValue it, rest).
Proof.
  intros H1 H2 H3 Hd. unfold marshalItem, member.
  rewrite !append_assoc.
  change (5 + fuel)%nat with (S (S (S (S (S fuel))))).
  rewrite parse_object_open by exact Hd.
  rewrite parse_member by (try assumption; reflexivity).
  unfold membersAfter at 1.
  change (skipSpace ("," ++ ?x)) with (String "," x). cbv iota beta.
  rewrite parse_member by (try assumption; reflexivity).
  unfold membersAfter at 1.
  change (skipSpace ("," ++ ?x)) with (String "," x). cbv iota beta.
  rewrite parse_member by (try assumption; reflexivity).
  reflexivity.
Qed.

Definition elemsAfter (v : value) (fuel : nat) (depth : N) (after : string)
  : option (list value * string) :=
  match skipSpace after with
  | String "," s2 =>
    match parseElems fuel depth s2 with
    | Some (vs, r) => Some (v :: vs, r)
    | None => None
    end
  | String "]" r => Some ([v], r)
  | _ => None
  end.

Lemma parseElems_unfold (fuel : nat) (depth : N) (s : string) :
  parseElems (S fuel) depth s
  = match parseValue fuel depth s with
    | None => None
    | Some (v, s1) => elemsAfter v fuel depth s1
    end.
Proof. reflexivity. Qed.

Lemma parseElems_nl (fuel : nat) (depth : N) (s : string) :
  parseElems (S (S fuel)) depth (nl ++ s) = parseElems (S (S fuel)) depth s.
Proof. reflexivity. Qed.

Definition separator : string := "," ++ nl.

Lemma concat_cons (x y : string) (l : list string) :
  String.concat separator (x :: y :: l) = x ++ separator ++ String.concat separator (y :: l).
Proof. reflexivity. Qed.

Lemma parse_elems : forall (l : list RestoreItem) (it : RestoreItem)
                           (rest : string) (fuel : nat) (depth : N),
  forallb validItem (it :: l) = true ->
  (depth + 1 <= maxNestingDepth)%N ->
  parseElems (length l + 6 + fuel) depth
    (String.concat separator (map marshalItem (it :: l)) ++ nl ++ indent 1 ++ "]" ++ rest)
  = Some (map itemValue (it :: l), rest).
Proof.
  induction l as [| it' l IH]; intros it rest fuel depth Hvalid Hd;
    cbn [forallb] in Hvalid; apply andb_true_iff in Hvalid; destruct Hvalid as [Hit Hl];
    unfold validItem in Hit; apply andb_true_iff in Hit; destruct Hit as [Hit H3];
    apply andb_true_iff in Hit; destruct Hit as [H1 H2].
  - cbn [length map String.concat Nat.add].
    rewrite parseElems_unfold.
    rewrite (parse_item it _ fuel depth H1 H2 H3 Hd).
    reflexivity.
  - cbn [map]. rewrite concat_cons, !append_assoc.
    cbn [length]. change (S (length l) + 6 + fuel)%nat with (S (length l + 6 + fuel)).
    rewrite parseElems_unfold.
    replace (length l + 6 + fuel)%nat with (5 + (length l + 1 + fuel))%nat by lia.
    rewrite (parse_item it _ _ depth H1 H2 H3 Hd).
    unfold elemsAfter.
    change (skipSpace (separator ++ ?x)) with (String "," (nl ++ x)). cbv iota beta.
    replace (5 + (length l + 1 + fuel))%nat with (S (S (length l + 4 + fuel))) by lia.
    rewrite parseElems_nl.
    replace (S (S (length l + 4 + fuel))) with (length l + 6 + fuel)%nat by lia.
    change (marshalItem it' :: map marshalItem l) with (map marshalItem (it' :: l)).
    rewrite (IH it' rest fuel depth Hl Hd). reflexivity.
Qed.

Definition itemsValue (items : slice RestoreItem) : value :=
  match items with
  | None => Null
  | Some l => Array (map itemValue l)
  end.

Lemma marshalItem_length (it : RestoreItem) : (1 <= String.length (marshalItem it))%nat.
Proof. unfold marshalItem. rewrite length_append. cbn. lia. Qed.

Lemma concat_length (l : list RestoreItem) :
  (length l <= String.length (String.concat separator (map marshalItem l)))%nat.
Proof.
  induction l as [| x [| y l] IH].
  - cbn. lia.
  - cbn. pose proof (marshalItem_length x). lia.
  - cbn [map] in *. rewrite concat_cons, !length_append.
    pose proof (marshalItem_length x). cbn [length] in *. lia.
Qed.

Lemma parse_array_open (it : RestoreItem) (text tail rest : string)
      (fuel : nat) (depth : N) :
  text = marshalItem it ++ tail ->
  (depth + 1 <= maxNestingDepth)%N ->
  parseValue (S fuel) depth (String " " ("[" ++ nl ++ text ++ rest))
  = match parseElems fuel (depth + 1) (nl ++ text ++ rest) with
    | Some (vs, r) => Some (Array vs, r)
    | None => None
    end.
Proof.
  intros Htext Hd.
  assert (H : exists t, text ++ rest = indent 2 ++ "{" ++ t).
  { rewrite Htext. unfold marshalItem. rewrite !append_assoc. eexists. reflexivity. }
  destruct H as (t & Ht). rewrite Ht.
  change (parseValue (S fuel) depth (String " " ("[" ++ nl ++ indent 2 ++ "{" ++ t)))
    with (if (maxNestingDepth <? depth + 1)%N then None
          else match parseElems fuel (depth + 1) (nl ++ indent 2 ++ "{" ++ t) with
               | Some (vs, r) => Some (Array vs, r)
               | None => None
               end).
  destruct (N.ltb_spec maxNestingDepth (depth + 1)); [lia | reflexivity].
Qed.

Lemma concat_head (it : RestoreItem) (l : list RestoreItem) :
  exists tail,
    String.concat separator (map marshalItem (it :: l)) = marshalItem it ++ tail.
Proof.
  destruct l as [| y l].
  - exists "". cbn. rewrite append_empty_r. reflexivity.
  - eexists. cbn [map]. rewrite concat_cons. reflexivity.
Qed.

(** The text printed for a record of valid strings parses to the value
    with the one member "items". *)
Lemma parse_MarshalIndent (metadata : RestoreMetadata) :
  forallb validItem (elems (Items metadata)) = true ->
  parse (fst (MarshalIndent metadata)) = Some (Object [("items", itemsValue (Items metadata))]).
Proof.
  destruct metadata as [[[| it l] |]]; intros Hvalid; try reflexivity.
  cbn [Items elems] in Hvalid. unfold parse.
  set (data := fst (MarshalIndent (mkMetadata (Some (it :: l))))).
  assert (Hdata : data = "{" ++ nl ++ indent 1 ++ appendString "items" ++ ": " ++ "[" ++ nl
                    ++ String.concat separator (map marshalItem (it :: l))
                    ++ nl ++ indent 1 ++ "]" ++ nl ++ "}").
  { subst data. unfold MarshalIndent, member, marshalItems. cbn [fst Items].
    rewrite !append_assoc. reflexivity. }
  assert (Hlen : (length l + 9 <= String.length data)%nat).
  { rewrite Hdata. rewrite !length_append.
    pose proof (concat_length (it :: l)) as Hc. cbn [length] in Hc.
    remember (String.length (String.concat separator (map marshalItem (it :: l)))) as n.
    cbn. lia. }
  replace (S (String.length data))
    with (S (S (S (length l + 6 + (String.length data - length l - 8))))) by lia.
  set (fuel := (String.length data - length l - 8)%nat).
  rewrite Hdata.
  match goal with
  | |- match parseValue (S ?f) 0 ("{" ++ ?t) with _ => _ end = _ =>
    change (parseValue (S f) 0 ("{" ++ t))
      with (match parseMembers f 1 t with
            | Some (ms, r) => Some (Object ms, r)
            | None => None
            end)
  end.
  rewrite appendString_app, parseMembers_key1, memberAt_key by reflexivity.
  destruct (concat_head it l) as (tail & Htail).
  rewrite (parse_array_open it _ tail _ _ _ Htail) by (unfold maxNestingDepth; lia).
  replace (length l + 6 + fuel)%nat with (S (S (length l + 4 + fuel))) by lia.
  rewrite parseElems_nl.
  replace (S (S (length l + 4 + fuel))) with (length l + 6 + fuel)%nat by lia.
  change (1 + 1)%N with 2%N.
  rewrite (parse_elems l it _ fuel 2 Hvalid) by (unfold maxNestingDepth; lia).
  reflexivity.
Qed.

Lemma decodeItem_itemValue (it : RestoreItem) : decodeItem zeroItem (itemValue it) = (it, []).
Proof. destruct it. reflexivity. Qed.

Lemma decodeElems_itemValue (l : list RestoreItem) :
  decodeElems [] (map itemValue l) = (l, []).
Proof.
  induction l as [| it l IH]; [reflexivity |].
  cbn [map decodeElems hd tl]. rewrite decodeItem_itemValue, IH. reflexivity.
Qed.

(** Decoding the text that was encoded gives the record back. *)
Lemma Unmarshal_MarshalIndent (metadata : RestoreMetadata) :
  validMetadata metadata = true ->
  Unmarshal (fst (MarshalIndent metadata)) = (metadata, None).
Proof.
  intros Hvalid. unfold Unmarshal. rewrite parse_MarshalIndent by exact Hvalid.
  destruct metadata as [[[| it l] |]]; try reflexivity.
  cbn [Items itemsValue fold_left decodeMetadataMember].
  change (fieldMatch "items" "items") with true. cbv iota.
  cbn [decodeItems map]. 
  change (itemValue it :: map itemValue l) with (map itemValue (it :: l)).
  rewrite decodeElems_itemValue. reflexivity.
Qed.

End sidecar_facts.

(** C8 (amended).  For every metadata value whose strings are valid
    UTF-8, in a file system that keeps what is written: after
    [SaveRestoreMetadata] has saved the value to the sidecar of a batch,
    loading the sidecar (list.go, restore.go) gives the same value back,
    with the same items in the same order. *)
Theorem saved_metadata_loads_back :
  forall {filepath : Filepath} (W : World) (trashDir : string)
         (metadata : RestoreMetadata) (s s1 : state W) (tr : list event),
    keepsWrites W ->
    validMetadata metadata = true ->
    run W (SaveRestoreMetadata trashDir metadata) s = (Done None, s1, tr) ->
    exists (s2 : state W) (tr' : list event),
      run W (load (Join [trashDir; ".restore"])) s1 = (Done (Loaded metadata), s2, tr').
Proof.
  intros filepath W trashDir metadata s s1 tr Hkeeps Hvalid Hsave.
  rewrite run_SaveRestoreMetadata in Hsave. cbv zeta in Hsave.
  destruct (handle W (WriteFile (Join [trashDir; ".restore"])
                                (fst (json.MarshalIndent metadata)) 420) s)
    as [[err |] s1'] eqn:Hwrite; [discriminate |].
  inversion Hsave; subst s1' tr. clear Hsave.
  destruct (Hkeeps _ _ _ _ _ Hwrite) as (info & s2 & s3 & Hstat & Hread).
  unfold load. cbn [bind call]. cbn [run]. rewrite Hstat. cbn [run]. rewrite Hread.
  rewrite sidecar_facts.Unmarshal_MarshalIndent by exact Hvalid.
  do 2 eexists. reflexivity.
Qed.


(** ** The round trip of any record *)

Module coerced_facts.
Import json utf8 utf8_facts json_facts sidecar_facts.

Lemma DecodeRune_bad (c : ascii) (s' : string) (r : N) :
  DecodeRune (String c s') = (r, 1%nat) -> (code c <? 128)%N = false -> r = RuneError.
Proof.
  intros H Hhigh. unfold DecodeRune in H. rewrite Hhigh in H.
  repeat match type of H with
         | (match ?x with _ => _ end) = _ => destruct x
         | (if ?b then _ else _) = _ => destruct b
         | (let '(_, _) := ?x in _) = _ => destruct x
         end;
    inversion H; reflexivity.
Qed.

Lemma scan_appendBody_any : forall (n : nat) (s rest : string) (fuel : nat),
  (String.length s <= n)%nat ->
  (String.length (appendBody n s) < fuel)%nat ->
  scanString fuel (appendBody n s ++ String dq rest) = Some (coerceN n s, rest).
Proof.
  induction n as [| n IH]; intros s rest fuel Hlen Hfuel.
  - destruct s; [| cbn in Hlen; lia].
    destruct fuel; [cbn in Hfuel; lia |]. reflexivity.
  - destruct s as [| c s'].
    { destruct fuel; [cbn in Hfuel; lia |]. reflexivity. }
    cbn [appendBody coerceN] in Hfuel |- *.
    cbn [String.length] in Hlen.
    destruct (code c <? 128)%N eqn:Hascii.
    + assert (Hw : (if htmlSafe (code c) then String c (appendBody n s')
                    else escapeByte (code c) ++ appendBody n s')
                   = written c ++ appendBody n s').
      { unfold written. destruct (htmlSafe (code c)); reflexivity. }
      rewrite Hw in Hfuel |- *. rewrite length_append in Hfuel.
      pose proof (written_length c) as Hwl.
      destruct fuel as [| fuel]; [lia |].
      rewrite append_assoc, scan_written by exact Hascii.
      rewrite IH by lia. reflexivity.
    + destruct (utf8.DecodeRune (String c s')) as [r size] eqn:Hdec.
      destruct (size =? 1)%nat eqn:Hsize.
      * (* a byte that starts no sequence *)
        apply Nat.eqb_eq in Hsize. subst size.
        pose proof (DecodeRune_bad _ _ _ Hdec Hascii) as Hr. subst r.
        cbn [N.eqb utf8.RuneError Pos.eqb andb Nat.eqb drop] in Hfuel |- *.
        rewrite length_append in Hfuel. cbn [String.length] in Hfuel.
        destruct fuel as [| fuel]; [lia |].
        assert (Hread : forall tail,
                   scanString (S fuel) (String bsl "ufffd" ++ tail)
                   = prepend (utf8.EncodeRune utf8.RuneError) (scanString fuel tail))
          by (intros tail; reflexivity).
        rewrite append_assoc, Hread, IH by lia. reflexivity.
      * destruct (DecodeRune_sequence _ _ _ _ Hascii Hdec Hsize)
          as (bytes & after & Hseq & Henc & Hagain).
        destruct (sequence_parts _ _ _ _ _ Hseq)
          as (Hs & Htake & Hdrop & Hdrop' & Hl & Hlb & Hpos & c0 & bytes' & Hb).
        rewrite Hdrop in *. rewrite andb_false_r in *.
        assert (Hc0 : c0 = c) by (rewrite Hb in Hs; inversion Hs; reflexivity).
        subst c0.
        assert (Hafter : (String.length after <= n)%nat)
          by (cbn [String.length] in Hl; lia).
        destruct ((r =? 8232)%N || (r =? 8233)%N) eqn:Hsep.
        -- destruct fuel as [| fuel]; [lia |].
           assert (Hread : forall tail,
                      scanString (S fuel)
                        (String bsl "u202" ++ String (hex (N.land r 15)) "" ++ tail)
                      = prepend (utf8.EncodeRune r) (scanString fuel tail)).
           { intros tail. apply orb_true_iff in Hsep.
             destruct Hsep as [H | H]; apply N.eqb_eq in H; subst r; reflexivity. }
           rewrite !length_append in Hfuel.
           rewrite !append_assoc, Hread, IH by (try assumption; cbn in Hfuel; lia).
           rewrite prepend_Some, Henc, Htake. reflexivity.
        -- rewrite Htake in Hfuel |- *. rewrite length_append, Hlb in Hfuel.
           destruct fuel as [| fuel]; [lia |].
           rewrite append_assoc.
           assert (Hstep : forall tail,
                      scanString (S fuel) (bytes ++ tail)
                      = prepend (utf8.EncodeRune r) (scanString fuel tail)).
           { intros tail. rewrite Hb. cbn [String.append scanString].
             assert (H34 : (code c =? 34)%N = false)
               by (apply N.eqb_neq; apply N.ltb_ge in Hascii; lia).
             assert (H92 : (code c =? 92)%N = false)
               by (apply N.eqb_neq; apply N.ltb_ge in Hascii; lia).
             assert (H32 : (code c <? 32)%N = false)
               by (apply N.ltb_ge; apply N.ltb_ge in Hascii; lia).
             rewrite H34, H92, H32, Hascii.
             change (String c (bytes' ++ tail)) with (String c bytes' ++ tail).
             rewrite <- Hb, Hagain, Hdrop'. reflexivity. }
           rewrite Hstep, IH by (try assumption; lia).
           rewrite prepend_Some, Henc. reflexivity.
Qed.

Lemma parse_quoted_any (s rest : string) (fuel : nat) (depth : N) :
  parseValue (S fuel) depth (appendString s ++ rest) = Some (Str (coerce s), rest).
Proof.
  unfold appendString. cbn [String.append].
  rewrite append_assoc. cbn [String.append].
  change (parseValue (S fuel) depth (String dq (appendBody (String.length s) s ++ String dq rest)))
    with (match scanString (String.length (appendBody (String.length s) s ++ String dq rest))
                  (appendBody (String.length s) s ++ String dq rest) with
          | Some (str, r) => Some (Str str, r)
          | None => None
          end).
  rewrite scan_appendBody_any; [reflexivity | lia |].
  rewrite length_append. cbn [String.length]. lia.
Qed.

Lemma parse_member_any (key val after : string) (fuel : nat) (depth : N) :
  utf8.ValidString key = true ->
  parseMembers (S (S fuel)) depth
    (nl ++ indent 3 ++ appendString key ++ ": " ++ appendString val ++ after)
  = membersAfter key (Str (coerce val)) (S fuel) depth after.
Proof.
  intros Hk.
  rewrite appendString_app, parseMembers_key3, memberAt_key by exact Hk.
  rewrite parseValue_space, parse_quoted_any.
  reflexivity.
Qed.

Lemma parse_item_any (it : RestoreItem) (rest : string) (fuel : nat) (depth : N) :
  (depth + 1 <= maxNestingDepth)%N ->
  parseValue (5 + fuel) depth (marshalItem it ++ rest)
  = Some (itemValue (coerceItem it), rest).
Proof.
  intros Hd. unfold marshalItem, member.
  rewrite !append_assoc.
  change (5 + fuel)%nat with (S (S (S (S (S fuel))))).
  rewrite parse_object_open by exact Hd.
  rewrite parse_member_any by reflexivity.
  unfold membersAfter at 1.
  change (skipSpace ("," ++ ?x)) with (String "," x). cbv iota beta.
  rewrite parse_member_any by reflexivity.
  unfold membersAfter at 1.
  change (skipSpace ("," ++ ?x)) with (String "," x). cbv iota beta.
  rewrite parse_member_any by reflexivity.
  reflexivity.
Qed.

Lemma parse_elems_any : forall (l : list RestoreItem) (it : RestoreItem)
                               (rest : string) (fuel : nat) (depth : N),
  (depth + 1 <= maxNestingDepth)%N ->
  parseElems (length l + 6 + fuel) depth
    (String.concat separator (map marshalItem (it :: l)) ++ nl ++ indent 1 ++ "]" ++ rest)
  = Some (map itemValue (map coerceItem (it :: l)), rest).
Proof.
  induction l as [| it' l IH]; intros it rest fuel depth Hd.
  - cbn [length map String.concat Nat.add].
    rewrite parseElems_unfold.
    rewrite (parse_item_any it _ fuel depth Hd).
    reflexivity.
  - cbn [map]. rewrite concat_cons, !append_assoc.
    cbn [length]. change (S (length l) + 6 + fuel)%nat with (S (length l + 6 + fuel)).
    rewrite parseElems_unfold.
    replace (length l + 6 + fuel)%nat with (5 + (length l + 1 + fuel))%nat by lia.
    rewrite (parse_item_any it _ _ depth Hd).
    unfold elemsAfter.
    change (skipSpace (separator ++ ?x)) with (String "," (nl ++ x)). cbv iota beta.
    replace (5 + (length l + 1 + fuel))%nat with (S (S (length l + 4 + fuel))) by lia.
    rewrite parseElems_nl.
    replace (S (S (length l + 4 + fuel))) with (length l + 6 + fuel)%nat by lia.
    change (marshalItem it' :: map marshalItem l) with (map marshalItem (it' :: l)).
    rewrite (IH it' rest fuel depth Hd). reflexivity.
Qed.

Lemma parse_MarshalIndent_any (metadata : RestoreMetadata) :
  parse (fst (MarshalIndent metadata))
  = Some (Object [("items", itemsValue (Items (coerceMetadata metadata)))]).
Proof.
  destruct metadata as [[[| it l] |]]; try reflexivity.
  unfold parse.
  set (data := fst (MarshalIndent (mkMetadata (Some (it :: l))))).
  assert (Hdata : data = "{" ++ nl ++ indent 1 ++ appendString "items" ++ ": " ++ "[" ++ nl
                    ++ String.concat separator (map marshalItem (it :: l))
                    ++ nl ++ indent 1 ++ "]" ++ nl ++ "}").
  { subst data. unfold MarshalIndent, member, marshalItems. cbn [fst Items].
    rewrite !append_assoc. reflexivity. }
  assert (Hlen : (length l + 9 <= String.length data)%nat).
  { rewrite Hdata. rewrite !length_append.
    pose proof (concat_length (it :: l)) as Hc. cbn [length] in Hc.
    remember (String.length (String.concat separator (map marshalItem (it :: l)))) as n.
    cbn. lia. }
  replace (S (String.length data))
    with (S (S (S (length l + 6 + (String.length data - length l - 8))))) by lia.
  set (fuel := (String.length data - length l - 8)%nat).
  rewrite Hdata.
  match goal with
  | |- match parseValue (S ?f) 0 ("{" ++ ?t) with _ => _ end = _ =>
    change (parseValue (S f) 0 ("{" ++ t))
      with (match parseMembers f 1 t with
            | Some (ms, r) => Some (Object ms, r)
            | None => None
            end)
  end.
  rewrite appendString_app, parseMembers_key1, memberAt_key by reflexivity.
  destruct (concat_head it l) as (tail & Htail).
  rewrite (parse_array_open it _ tail _ _ _ Htail) by (unfold maxNestingDepth; lia).
  replace (length l + 6 + fuel)%nat with (S (S (length l + 4 + fuel))) by lia.
  rewrite parseElems_nl.
  replace (S (S (length l + 4 + fuel))) with (length l + 6 + fuel)%nat by lia.
  change (1 + 1)%N with 2%N.
  rewrite (parse_elems_any l it _ fuel 2) by (unfold maxNestingDepth; lia).
  reflexivity.
Qed.

(** Decoding the text that was encoded gives the record back, coerced. *)
Lemma Unmarshal_MarshalIndent_any (metadata : RestoreMetadata) :
  Unmarshal (fst (MarshalIndent metadata)) = (coerceMetadata metadata, None).
Proof.
  unfold Unmarshal. rewrite parse_MarshalIndent_any.
  destruct metadata as [[[| it l] |]]; try reflexivity.
  cbn [Items coerceMetadata itemsValue fold_left decodeMetadataMember].
  change (fieldMatch "items" "items") with true. cbv iota.
  cbn [decodeItems map].
  change (itemValue (coerceItem it) :: map itemValue (map coerceItem l))
    with (map itemValue (coerceItem it :: map coerceItem l)).
  rewrite decodeElems_itemValue. reflexivity.
Qed.

(** A valid string is left as it is. *)
Lemma coerceN_valid : forall (n : nat) (s : string),
  (String.length s <= n)%nat -> utf8.validFuel n s = true -> coerceN n s = s.
Proof.
  induction n as [| n IH]; intros s Hlen Hvalid.
  - destruct s; [reflexivity | cbn in Hlen; lia].
  - destruct s as [| c s']; [reflexivity |].
    cbn [utf8.validFuel] in Hvalid. cbn [coerceN]. cbn [String.length] in Hlen.
    destruct (code c <? 128)%N eqn:Hascii.
    + rewrite IH by (try assumption; lia). reflexivity.
    + destruct (utf8.DecodeRune (String c s')) as [r size] eqn:Hdec.
      destruct (size =? 1)%nat eqn:Hsize; [discriminate |].
      destruct (DecodeRune_sequence _ _ _ _ Hascii Hdec Hsize)
        as (bytes & after & Hseq & _ & _).
      destruct (sequence_parts _ _ _ _ _ Hseq)
        as (Hs & Htake & Hdrop & _ & Hl & _ & Hpos & _).
      rewrite Htake, Hdrop in *.
      rewrite IH by (try assumption; cbn [String.length] in Hl; lia).
      symmetry. exact Hs.
Qed.

Lemma coerceMetadata_valid (metadata : RestoreMetadata) :
  validMetadata metadata = true -> coerceMetadata metadata = metadata.
Proof.
  destruct metadata as [[l |]]; [| reflexivity].
  unfold validMetadata, coerceMetadata. cbn [Items elems]. intros Hvalid.
  f_equal. f_equal. induction l as [| it l IH]; [reflexivity |].
  cbn [forallb] in Hvalid. apply andb_true_iff in Hvalid. destruct Hvalid as [Hit Hl].
  unfold validItem in Hit. apply andb_true_iff in Hit. destruct Hit as [Hit H3].
  apply andb_true_iff in Hit. destruct Hit as [H1 H2].
  cbn [map]. rewrite (IH Hl). f_equal.
  destruct it as [n o t]. unfold coerceItem, coerce. cbn [Name OriginalPath TrashedAt] in *.
  unfold utf8.ValidString in H1, H2, H3.
  rewrite !coerceN_valid by (try assumption; lia). reflexivity.
Qed.

Lemma validFuel_more : forall (n m : nat) (s : string),
  (String.length s <= n)%nat -> (String.length s <= m)%nat ->
  utf8.validFuel n s = utf8.validFuel m s.
Proof.
  induction n as [| n IH]; intros m s Hn Hm.
  - destruct s; [destruct m; reflexivity | cbn in Hn; lia].
  - destruct s as [| c s']; [destruct m; reflexivity |].
    destruct m as [| m]; [cbn in Hm; lia |].
    cbn [utf8.validFuel]. cbn [String.length] in Hn, Hm.
    destruct (code c <? 128)%N eqn:Hascii; [apply IH; lia |].
    destruct (utf8.DecodeRune (String c s')) as [r size] eqn:Hdec.
    destruct (size =? 1)%nat eqn:Hsize; [reflexivity |].
    destruct (DecodeRune_sequence _ _ _ _ Hascii Hdec Hsize)
      as (bytes & after & Hseq & _ & _).
    destruct (sequence_parts _ _ _ _ _ Hseq)
      as (_ & _ & Hdrop & _ & Hl & _ & Hpos & _).
    rewrite Hdrop. cbn [String.length] in Hl. apply IH; lia.
Qed.

(** What comes out is valid UTF-8. *)
Lemma coerceN_is_valid : forall (n : nat) (s : string),
  (String.length s <= n)%nat -> utf8.ValidString (coerceN n s) = true.
Proof.
  unfold utf8.ValidString.
  induction n as [| n IH]; intros s Hlen.
  - destruct s; [reflexivity | cbn in Hlen; lia].
  - destruct s as [| c s']; [reflexivity |].
    cbn [coerceN]. cbn [String.length] in Hlen.
    destruct (code c <? 128)%N eqn:Hascii.
    + cbn [String.length utf8.validFuel]. rewrite Hascii. apply IH. lia.
    + destruct (utf8.DecodeRune (String c s')) as [r size] eqn:Hdec.
      destruct (size =? 1)%nat eqn:Hsize.
      * set (X := coerceN n s').
        change (utf8.validFuel (String.length (utf8.EncodeRune utf8.RuneError ++ X))
                  (utf8.EncodeRune utf8.RuneError ++ X))
          with (utf8.validFuel (S (S (String.length X))) X).
        rewrite (validFuel_more _ (String.length X)) by lia. apply IH. lia.
      * destruct (DecodeRune_sequence _ _ _ _ Hascii Hdec Hsize)
          as (bytes & after & Hseq & _ & Hagain).
        destruct (sequence_parts _ _ _ _ _ Hseq)
          as (_ & Htake & Hdrop & Hdrop' & Hl & Hlb & Hpos & c0 & bytes' & Hb).
        rewrite Htake, Hdrop. set (X := coerceN n after).
        assert (Hc0 : sequence (String c s') r size (String c0 bytes') after)
          by (rewrite <- Hb; exact Hseq).
        assert (Hc : c0 = c) by (inversion Hc0; reflexivity). subst c0.
        rewrite length_append, Hlb.
        destruct size as [| size']; [lia |].
        rewrite Hb. cbn [Nat.add String.append utf8.validFuel]. rewrite Hascii.
        change (String c (bytes' ++ X)) with (String c bytes' ++ X).
        rewrite <- Hb, Hagain, Hsize, Hdrop'.
        rewrite (validFuel_more _ (String.length X)) by lia.
        apply IH. cbn [String.length] in Hl. lia.
Qed.

Lemma coerceMetadata_is_valid (metadata : RestoreMetadata) :
  validMetadata (coerceMetadata metadata) = true.
Proof.
  destruct metadata as [[l |]]; [| reflexivity].
  unfold validMetadata, coerceMetadata. cbn [Items elems].
  induction l as [| it l IH]; [reflexivity |].
  cbn [map forallb]. rewrite IH, andb_true_r.
  unfold validItem, coerceItem, coerce. cbn [Name OriginalPath TrashedAt].
  rewrite !coerceN_is_valid by lia. reflexivity.
Qed.

End coerced_facts.

(** X28.  Every sidecar the program saves can be loaded, whatever bytes
    the names and paths hold: in a file system that keeps what is
    written, loading the sidecar after [SaveRestoreMetadata] never fails
    to parse; it gives as many items, in the same order, each string
    coerced to valid UTF-8 (every byte that starts no valid sequence
    replaced by U+FFFD).  What is loaded is valid UTF-8, and a record of
    valid strings is loaded unchanged. *)
Theorem a_saved_sidecar_always_loads :
  forall {filepath : Filepath} (W : World) (trashDir : string)
         (metadata : RestoreMetadata) (s s1 : state W) (tr : list event),
    keepsWrites W ->
    run W (SaveRestoreMetadata trashDir metadata) s = (Done None, s1, tr) ->
    (exists (s2 : state W) (tr' : list event),
        run W (load (Join [trashDir; ".restore"])) s1
        = (Done (Loaded (coerceMetadata metadata)), s2, tr'))
    /\ len (Items (coerceMetadata metadata)) = len (Items metadata)
    /\ validMetadata (coerceMetadata metadata) = true
    /\ (validMetadata metadata = true -> coerceMetadata metadata = metadata).
Proof.
  intros filepath W trashDir metadata s s1 tr Hkeeps Hsave.
  split; [| split; [| split]].
  - rewrite run_SaveRestoreMetadata in Hsave. cbv zeta in Hsave.
    destruct (handle W (WriteFile (Join [trashDir; ".restore"])
                                  (fst (json.MarshalIndent metadata)) 420) s)
      as [[err |] s1'] eqn:Hwrite; [discriminate |].
    inversion Hsave; subst s1' tr. clear Hsave.
    destruct (Hkeeps _ _ _ _ _ Hwrite) as (info & s2 & s3 & Hstat & Hread).
    unfold load. cbn [bind call]. cbn [run]. rewrite Hstat. cbn [run]. rewrite Hread.
    rewrite coerced_facts.Unmarshal_MarshalIndent_any.
    do 2 eexists. reflexivity.
  - destruct metadata as [[l |]]; [| reflexivity].
    unfold coerceMetadata, len. cbn [Items elems]. apply length_map.
  - apply coerced_facts.coerceMetadata_is_valid.
  - apply coerced_facts.coerceMetadata_valid.
Qed.

(* ================================================================== *)
(** * internal/config: copies *)
(* ================================================================== *)

(** X1.  [CopyFile] always returns (it never ends the process), and the
    deferred calls close every file it opened, the destination first:
    no file when [os.Open] fails, the source alone when [os.Create]
    fails, both otherwise, whatever fails later.  When [os.Open] or
    [os.Create] fails, its error is the one returned. *)
Theorem CopyFile_closes_the_files_it_opened :
  forall (W : World) (src dst : string) (s : state W),
  exists (e : option error) (s' : state W) (tr : list event),
    run W (CopyFile src dst) s = (Done e, s', tr)
    /\ match handle W (Open src) s with
       | (inr err, _) => e = Some err /\ closed tr = []
       | (inl sourceFile, s1) =>
         match handle W (Create dst) s1 with
         | (inr err, _) => e = Some err /\ closed tr = [sourceFile]
         | (inl destFile, _) => closed tr = [destFile; sourceFile]
         end
       end.
Proof.
  intros W src dst s. unfold CopyFile. cbn [bind call]. cbn [run].
  destruct (handle W (Open src) s) as [[sourceFile | err] s1].
  2: { do 3 eexists. split; [reflexivity |]. split; reflexivity. }
  cbn [run]. destruct (handle W (Create dst) s1) as [[destFile | err] s2].
  2: { cbn [run]. destruct (handle W (Close sourceFile) s2) as [c s3].
       do 3 eexists. split; [reflexivity |]. split; reflexivity. }
  cbn [run]. destruct (handle W (ReadFrom destFile sourceFile) s2) as [[err |] s3].
  { cbn [run]. destruct (handle W (Close destFile) s3) as [c1 s4].
    cbn [run]. destruct (handle W (Close sourceFile) s4) as [c2 s5].
    do 3 eexists. split; reflexivity. }
  cbn [run]. destruct (handle W (Stat src) s3) as [[sourceInfo | err] s4].
  2: { cbn [run]. destruct (handle W (Close destFile) s4) as [c1 s5].
       cbn [run]. destruct (handle W (Close sourceFile) s5) as [c2 s6].
       do 3 eexists. split; reflexivity. }
  cbn [run]. destruct (handle W (Chmod dst (Mode sourceInfo)) s4) as [e s5].
  cbn [run]. destruct (handle W (Close destFile) s5) as [c1 s6].
  cbn [run]. destruct (handle W (Close sourceFile) s6) as [c2 s7].
  do 3 eexists. split; reflexivity.
Qed.

Section Confined.

Context {filepath : Filepath}.
Variable W : World.

Lemma within_trans (a b c : string) : within a b -> within b c -> within a c.
Proof.
  intros Hab Hbc. induction Hbc as [| dir name _ IH]; [exact Hab |].
  apply within_entry. exact IH.
Qed.

Lemma confined_within (root dst : string) (ev : event) :
  within root dst -> confined dst ev -> confined root ev.
Proof.
  intros Hw. destruct ev as [fd t | X op]; [trivial |].
  destruct op; cbn; trivial; apply within_trans; exact Hw.
Qed.

Lemma CopyFile_confined (src dst : string) (s : state W) :
  exists e s' tr,
    run W (CopyFile src dst) s = (Done e, s', tr) /\ Forall (confined dst) tr.
Proof.
  unfold CopyFile. cbn [bind call]. cbn [run].
  repeat match goal with
         | |- context [handle W ?op ?st] =>
           let x := fresh "x" in let st' := fresh "s" in
           destruct (handle W op st) as [x st']; try destruct x; cbn [run]
         end;
    do 3 eexists; (split; [reflexivity |]);
    repeat constructor.
Qed.

Lemma CopyDirN_confined (n : nat) :
  forall (src dst : string) (s : state W),
  exists o s' tr,
    run W (CopyDirN n src dst) s = (o, s', tr)
    /\ Forall (confined dst) tr
    /\ (forall c, o <> Exited c).
Proof.
  induction n as [| n IH]; intros src dst s.
  - do 3 eexists. split; [reflexivity |]. split; [constructor | discriminate].
  - cbn [CopyDirN bind call]. cbn [run].
    destruct (handle W (Stat src) s) as [[sourceInfo | err] s1]; cbn [run].
    2: { do 3 eexists. split; [reflexivity |]. split; [repeat constructor | discriminate]. }
    destruct (handle W (MkdirAll dst (Mode sourceInfo)) s1) as [[err |] s2]; cbn [run].
    { do 3 eexists. split; [reflexivity |].
      split; [repeat constructor | discriminate]. }
    destruct (handle W (ReadDir src) s2) as [[entries | err] s3]; cbn [run].
    2: { do 3 eexists. split; [reflexivity |].
         split; [repeat constructor | discriminate]. }
    match goal with |- context [run W (?each entries) s3] => set (loop := each) end.
    assert (Hloop : forall entries (s : state W),
               exists o s' tr, run W (loop entries) s = (o, s', tr)
                               /\ Forall (confined dst) tr /\ (forall c, o <> Exited c)).
    { clear entries. induction entries as [| entry rest IHrest]; intros s0.
      - do 3 eexists. split; [reflexivity |]. split; [constructor | discriminate].
      - cbn [loop]. fold loop. rewrite run_bind.
        assert (Hstep : exists o s' tr,
                   run W (if EntryIsDir entry
                          then CopyDirN n (Join [src; EntryName entry])
                                        (Join [dst; EntryName entry])
                          else CopyFile (Join [src; EntryName entry])
                                        (Join [dst; EntryName entry])) s0
                   = (o, s', tr)
                   /\ Forall (confined (Join [dst; EntryName entry])) tr
                   /\ (forall c, o <> Exited c)).
        { destruct (EntryIsDir entry); [apply IH |].
          destruct (CopyFile_confined (Join [src; EntryName entry])
                      (Join [dst; EntryName entry]) s0) as (e & s' & tr & Hrun & Hc).
          exists (Done e), s', tr. split; [exact Hrun |]. split; [exact Hc | discriminate]. }
        destruct Hstep as (o & s' & tr & Hrun & Hc & Hx). rewrite Hrun.
        assert (Hc' : Forall (confined dst) tr).
        { eapply Forall_impl; [| exact Hc]. intros ev.
          apply confined_within. apply within_entry, within_root. }
        destruct o as [[err |] | c |].
        + do 3 eexists. split; [reflexivity |]. rewrite app_nil_r.
          split; [exact Hc' | discriminate].
        + destruct (IHrest s') as (o2 & s2' & tr2 & Hrun2 & Hc2 & Hx2). rewrite Hrun2.
          do 3 eexists. split; [reflexivity |].
          split; [apply Forall_app; split; assumption | exact Hx2].
        + exfalso. apply (Hx c). reflexivity.
        + do 3 eexists. split; [reflexivity |]. split; [exact Hc' | discriminate]. }
    destruct (Hloop entries s3) as (o & s' & tr & Hrun & Hc & Hx). rewrite Hrun.
    do 3 eexists. split; [reflexivity |].
    split; [| exact Hx]. repeat constructor; try apply within_root. exact Hc.
Qed.

End Confined.

(** X2.  [CopyDir], however deep it goes and whatever the calls answer,
    changes nothing outside its destination: every directory it makes,
    every file it creates and every mode it sets is the destination or
    lies below it; it renames, removes and overwrites nothing, prints
    nothing, and never ends the process. *)
Theorem CopyDir_writes_only_below_its_destination :
  forall {filepath : Filepath} (W : World) (depth : nat) (src dst : string) (s : state W),
  exists (o : outcome (option error)) (s' : state W) (tr : list event),
    run W (CopyDir depth src dst) s = (o, s', tr)
    /\ Forall (confined dst) tr
    /\ (forall c, o <> Exited c).
Proof.
  intros filepath W depth src dst s. unfold CopyDir.
  destruct (CopyDirN_confined W depth src dst s) as (o & s' & tr & Hrun & Hc & Hx).
  exists o, s', tr. split; [exact Hrun |]. split; assumption.
Qed.

Section Complete.

Context {filepath : Filepath}.
Variable W : World.

Lemma CopyFile_copied (src dst : string) (s s' : state W) (tr : list event) :
  run W (CopyFile src dst) s = (Done None, s', tr) -> CopiedFile W src dst s s' tr.
Proof.
  unfold CopyFile, CopiedFile. cbn [bind call]. cbn [run].
  destruct (handle W (Open src) s) as [[sourceFile | err] s1] eqn:H1; [| discriminate].
  cbn [run]. destruct (handle W (Create dst) s1) as [[destFile | err] s2] eqn:H2.
  2: { cbn [run]. destruct (handle W (Close sourceFile) s2); discriminate. }
  cbn [run].
  destruct (handle W (ReadFrom destFile sourceFile) s2) as [[err |] s3] eqn:H3.
  { cbn [run]. destruct (handle W (Close destFile) s3) as [c1 s4].
    cbn [run]. destruct (handle W (Close sourceFile) s4); discriminate. }
  cbn [run]. destruct (handle W (Stat src) s3) as [[sourceInfo | err] s4] eqn:H4.
  2: { cbn [run]. destruct (handle W (Close destFile) s4) as [c1 s5].
       cbn [run]. destruct (handle W (Close sourceFile) s5); discriminate. }
  cbn [run]. destruct (handle W (Chmod dst (Mode sourceInfo)) s4) as [e s5] eqn:H5.
  cbn [run]. destruct (handle W (Close destFile) s5) as [c1 s6] eqn:H6.
  cbn [run]. destruct (handle W (Close sourceFile) s6) as [c2 s7] eqn:H7.
  intros H. inversion H; subst e s' tr.
  exists sourceFile, destFile, sourceInfo, s1, s2, s3, s4, s5, s6, c1, c2.
  repeat (split; [first [assumption | reflexivity] |]). reflexivity.
Qed.

Lemma CopyDirN_copied :
  forall (n : nat) (src dst : string) (s s' : state W) (tr : list event),
    run W (CopyDirN n src dst) s = (Done None, s', tr) -> Copied W src dst s s' tr.
Proof.
  induction n as [| n IHn]; intros src dst s s' tr; [discriminate |].
  cbn [CopyDirN bind call]. cbn [run].
  destruct (handle W (Stat src) s) as [[sourceInfo | err] s1] eqn:H1; cbn [run];
    [| discriminate].
  destruct (handle W (MkdirAll dst (Mode sourceInfo)) s1) as [[err |] s2] eqn:H2; cbn [run];
    [discriminate |].
  destruct (handle W (ReadDir src) s2) as [[entries | err] s3] eqn:H3; cbn [run];
    [| discriminate].
  match goal with |- context [run W (?each entries) s3] => set (loop := each) end.
  assert (Hloop : forall entries (s0 s0' : state W) tr0,
             run W (loop entries) s0 = (Done None, s0', tr0) ->
             CopiedEach W src dst entries s0 s0' tr0).
  { clear - IHn. induction entries as [| entry rest IHrest]; intros s0 s0' tr0 Hrun.
    - cbn in Hrun. injection Hrun as <- <-. constructor.
    - cbn [loop] in Hrun. fold loop in Hrun. rewrite run_bind in Hrun.
      match type of Hrun with context [run W ?p s0] =>
        destruct (run W p s0) as [[[[err |] | c |] s4] tr1] eqn:Hstep end;
        try discriminate.
      destruct (run W (loop rest) s4) as [[o s5] tr2] eqn:Hrest.
      injection Hrun as -> <- <-.
      destruct (EntryIsDir entry) eqn:Hd.
      + eapply CopiedEach_dir; [exact Hd | apply IHn; exact Hstep | apply IHrest; exact Hrest].
      + eapply CopiedEach_file;
          [exact Hd | apply CopyFile_copied; exact Hstep | apply IHrest; exact Hrest]. }
  destruct (run W (loop entries) s3) as [[o s4] tr0] eqn:Hrun.
  intros H. injection H as -> <- <-.
  econstructor; [exact H1 | exact H2 | exact H3 | apply Hloop; exact Hrun].
Qed.

End Complete.

(** X25.  [CopyDir] returns no error only when the whole directory has
    its copy, at every depth: the destination was made with the mode of
    the source, and for every entry that [os.ReadDir] listed, in order,
    a file was opened, created under the destination, had its content
    copied and was given the mode of its source, and a directory was
    copied in the same way, with all that it holds.  The calls of the
    run are exactly those.  A recursion that is cut off does not count
    as a success. *)
Theorem CopyDir_returns_nil_only_when_every_entry_has_its_copy :
  forall {filepath : Filepath} (W : World) (depth : nat) (src dst : string)
         (s s' : state W) (tr : list event),
    run W (CopyDir depth src dst) s = (Done None, s', tr) ->
    Copied W src dst s s' tr.
Proof.
  intros filepath W depth src dst s s' tr Hrun.
  unfold CopyDir in Hrun. eapply CopyDirN_copied. exact Hrun.
Qed.

(** X30.  [CopyFile] returns no error only after every step has
    succeeded: the source was opened, the destination created, the
    content copied from the one to the other, the source examined, and
    the destination given the mode of the source.  It makes these five
    calls and the two deferred calls to [Close], whose errors it does
    not look at, and no other. *)
Theorem CopyFile_returns_nil_only_after_the_content_and_the_mode :
  forall (W : World) (src dst : string) (s s' : state W) (tr : list event),
    run W (CopyFile src dst) s = (Done None, s', tr) ->
    exists (sourceFile destFile : File) (sourceInfo : FileInfo)
           (s1 s2 s3 s4 s5 : state W),
      handle W (Open src) s = (inl sourceFile, s1)
      /\ handle W (Create dst) s1 = (inl destFile, s2)
      /\ handle W (ReadFrom destFile sourceFile) s2 = (None, s3)
      /\ handle W (Stat src) s3 = (inl sourceInfo, s4)
      /\ handle W (Chmod dst (Mode sourceInfo)) s4 = (None, s5)
      /\ tr = [EvCall (Open src); EvCall (Create dst);
               EvCall (ReadFrom destFile sourceFile); EvCall (Stat src);
               EvCall (Chmod dst (Mode sourceInfo));
               EvCall (Close destFile); EvCall (Close sourceFile)].
Proof.
  intros W src dst s s' tr. unfold CopyFile. cbn [bind call]. cbn [run].
  destruct (handle W (Open src) s) as [[sourceFile | err] s1] eqn:H1; [| discriminate].
  cbn [run]. destruct (handle W (Create dst) s1) as [[destFile | err] s2] eqn:H2.
  2: { cbn [run]. destruct (handle W (Close sourceFile) s2); discriminate. }
  cbn [run].
  destruct (handle W (ReadFrom destFile sourceFile) s2) as [[err |] s3] eqn:H3.
  { cbn [run]. destruct (handle W (Close destFile) s3) as [c1 s4].
    cbn [run]. destruct (handle W (Close sourceFile) s4); discriminate. }
  cbn [run]. destruct (handle W (Stat src) s3) as [[sourceInfo | err] s4] eqn:H4.
  2: { cbn [run]. destruct (handle W (Close destFile) s4) as [c1 s5].
       cbn [run]. destruct (handle W (Close sourceFile) s5); discriminate. }
  cbn [run]. destruct (handle W (Chmod dst (Mode sourceInfo)) s4) as [e s5] eqn:H5.
  cbn [run]. destruct (handle W (Close destFile) s5) as [c1 s6].
  cbn [run]. destruct (handle W (Close sourceFile) s6) as [c2 s7].
  intros H. inversion H; subst e s' tr.
  exists sourceFile, destFile, sourceInfo, s1, s2, s3, s4, s5.
  repeat (split; [first [assumption | reflexivity] |]). reflexivity.
Qed.

(* ================================================================== *)
(** * internal/config: the move into a batch, and the directory *)
(* ================================================================== *)

(** X3.  [MoveToTrash] changes nothing when it cannot examine the path:
    if the absolute path cannot be made, or [os.Stat] fails on it, it
    returns the empty name and an error after these one or two calls.
    For a path that does not exist the message names the absolute path;
    for any other failure of [os.Stat] it carries the error. *)
Theorem MoveToTrash_leaves_a_path_it_cannot_examine :
  forall {filepath : Filepath} (W : World) (depth : nat) (sourcePath trashDir : string)
         (s s1 : state W) (r : result string),
    handle W (Abs sourcePath) s = (r, s1) ->
    match r with
    | inr err =>
      run W (MoveToTrash depth sourcePath trashDir) s
      = (Done ("", Some (Errorf ("failed to get absolute path: " ++ Error err))), s1,
         [EvCall (Abs sourcePath)])
    | inl absPath =>
      forall (err : error) (s2 : state W),
        handle W (Stat absPath) s1 = (inr err, s2) ->
        run W (MoveToTrash depth sourcePath trashDir) s
        = (Done ("", Some (Errorf (if IsNotExist err
                                   then "path does not exist: " ++ absPath
                                   else "failed to stat source: " ++ Error err))), s2,
           [EvCall (Abs sourcePath); EvCall (Stat absPath)])
    end.
Proof.
  intros filepath W depth sourcePath trashDir s s1 r Habs.
  unfold MoveToTrash. cbn [bind call]. cbn [run]. rewrite Habs.
  destruct r as [absPath | err]; [| reflexivity].
  intros err s2 Hstat. cbn [run]. rewrite Hstat.
  destruct (IsNotExist err); reflexivity.
Qed.

(** X4.  When [os.Rename] fails and the copy into the batch fails too,
    [MoveToTrash] returns the error "failed to copy ... to trash" and
    makes no further call: the original is neither removed nor changed
    (every call of the copy is confined to the destination in the
    batch), and what the copy left in the batch stays there. *)
Theorem MoveToTrash_keeps_the_original_when_the_copy_fails :
  forall {filepath : Filepath} (W : World) (depth : nat) (sourcePath trashDir : string)
         (absPath : string) (sourceInfo : FileInfo) (e err : error)
         (s s1 s2 s3 s4 : state W) (trc : list event),
    let destPath := Join [trashDir; Base absPath] in
    handle W (Abs sourcePath) s = (inl absPath, s1) ->
    handle W (Stat absPath) s1 = (inl sourceInfo, s2) ->
    handle W (Rename absPath destPath) s2 = (Some e, s3) ->
    run W (fallbackCopy depth sourceInfo absPath destPath) s3 = (Done (Some err), s4, trc) ->
    run W (MoveToTrash depth sourcePath trashDir) s
    = (Done ("", Some (Errorf ("failed to copy "
                                 ++ (if IsDir sourceInfo then "directory " else "file ")
                                 ++ absPath ++ " to trash: " ++ Error err))), s4,
       ([EvCall (Abs sourcePath); EvCall (Stat absPath); EvCall (Rename absPath destPath)]
          ++ trc)%list)
    /\ Forall (confined destPath) trc.
Proof.
  intros filepath W depth sourcePath trashDir absPath sourceInfo e err s s1 s2 s3 s4 trc
         destPath Habs Hstat Hmv Hcopy.
  split.
  - rewrite (run_MoveToTrash_fallback W depth sourcePath trashDir _ _ _ _ _ _ _ Habs Hstat Hmv).
    fold destPath. rewrite Hcopy. reflexivity.
  - unfold fallbackCopy in Hcopy. destruct (IsDir sourceInfo).
    + destruct (CopyDirN_confined W depth absPath destPath s3) as (o & s' & tr & Hrun & Hc & _).
      unfold CopyDir in Hcopy. rewrite Hcopy in Hrun. inversion Hrun; subst. exact Hc.
    + destruct (CopyFile_confined W absPath destPath s3) as (o & s' & tr & Hrun & Hc).
      rewrite Hcopy in Hrun. inversion Hrun; subst. exact Hc.
Qed.

(** X5.  [MoveToTrash] reports success only when the path has been
    moved: the name it returns is the base name of the absolute path,
    the place in the batch is the batch directory joined with that name,
    and either [os.Rename] to that place succeeded, or the copy to it
    and then the removal of the original both succeeded.  Before
    [os.Rename] the only calls are the two that examine the path: the
    place in the batch is not looked at. *)
Theorem MoveToTrash_succeeds_only_by_moving :
  forall {filepath : Filepath} (W : World) (depth : nat) (sourcePath trashDir : string)
         (baseName : string) (s s' : state W) (tr : list event),
    run W (MoveToTrash depth sourcePath trashDir) s = (Done (baseName, None), s', tr) ->
    exists (absPath : string) (sourceInfo : FileInfo) (e : option error)
           (s1 s2 s3 : state W),
      let destPath := Join [trashDir; baseName] in
      handle W (Abs sourcePath) s = (inl absPath, s1)
      /\ handle W (Stat absPath) s1 = (inl sourceInfo, s2)
      /\ baseName = Base absPath
      /\ handle W (Rename absPath destPath) s2 = (e, s3)
      /\ match e with
         | None =>
           s' = s3
           /\ tr = [EvCall (Abs sourcePath); EvCall (Stat absPath);
                    EvCall (Rename absPath destPath)]
         | Some _ =>
           exists (s4 : state W) (trc : list event),
             run W (fallbackCopy depth sourceInfo absPath destPath) s3 = (Done None, s4, trc)
             /\ handle W (removal sourceInfo absPath) s4 = (None, s')
             /\ tr = ([EvCall (Abs sourcePath); EvCall (Stat absPath);
                       EvCall (Rename absPath destPath)]
                        ++ trc ++ [EvCall (removal sourceInfo absPath)])%list
         end.
Proof.
  intros filepath W depth sourcePath trashDir baseName s s' tr Hrun.
  destruct (handle W (Abs sourcePath) s) as [[absPath | err] s1] eqn:Habs.
  2: { unfold MoveToTrash in Hrun. cbn [bind call] in Hrun. cbn [run] in Hrun.
       rewrite Habs in Hrun. discriminate. }
  destruct (handle W (Stat absPath) s1) as [[sourceInfo | err] s2] eqn:Hstat.
  2: { unfold MoveToTrash in Hrun. cbn [bind call] in Hrun. cbn [run] in Hrun.
       rewrite Habs in Hrun. cbn [run] in Hrun. rewrite Hstat in Hrun.
       destruct (IsNotExist err); discriminate. }
  destruct (handle W (Rename absPath (Join [trashDir; Base absPath])) s2) as [e s3] eqn:Hmv.
  destruct e as [e |].
  - rewrite (run_MoveToTrash_fallback W depth sourcePath trashDir _ _ _ _ _ _ _ Habs Hstat Hmv)
      in Hrun.
    destruct (run W (fallbackCopy depth sourceInfo absPath (Join [trashDir; Base absPath])) s3)
      as [[[[cerr |] | c |] s4] trc] eqn:Hcopy; cbn [after] in Hrun; try discriminate.
    destruct (handle W (removal sourceInfo absPath) s4) as [[err2 |] s5] eqn:Hrm;
      try discriminate.
    inversion Hrun; subst baseName s' tr.
    exists absPath, sourceInfo, (Some e), s1, s2, s3. cbv zeta.
    repeat (split; [first [assumption | reflexivity] |]).
    exists s4, trc. repeat split; assumption.
  - unfold MoveToTrash in Hrun. cbn [bind call] in Hrun. cbn [run] in Hrun.
    rewrite Habs in Hrun. cbn [run] in Hrun. rewrite Hstat in Hrun. cbn [run] in Hrun.
    rewrite Hmv in Hrun. cbn [run] in Hrun. inversion Hrun; subst baseName s' tr.
    exists absPath, sourceInfo, None, s1, s2, s3. cbv zeta.
    repeat (split; [first [assumption | reflexivity] |]). split; reflexivity.
Qed.

(** X6.  [EnsureConfigDir] makes the directory only when [os.Stat] says
    that it does not exist.  When the directory is there, and also when
    [os.Stat] fails for any other reason (the error is dropped), it
    returns no error after the two calls [os.UserHomeDir] and [os.Stat]:
    nothing is created and nothing is printed. *)
Theorem EnsureConfigDir_leaves_a_directory_it_does_not_find_absent :
  forall {filepath : Filepath} (W : World) (homeDir : string) (r : result FileInfo)
         (s s1 s2 : state W),
    let configDir := Join [homeDir; ".config"; "trash"] in
    handle W UserHomeDir s = (inl homeDir, s1) ->
    handle W (Stat configDir) s1 = (r, s2) ->
    match r with inr err => IsNotExist err | inl _ => false end = false ->
    run W EnsureConfigDir s
    = (Done None, s2, [EvCall UserHomeDir; EvCall (Stat configDir)]).
Proof.
  intros filepath W homeDir r s s1 s2 configDir Hhome Hstat Hthere.
  unfold EnsureConfigDir. rewrite run_bind, run_GetConfigDir, Hhome.
  cbn [bind call]. cbn [run]. fold configDir. rewrite Hstat.
  destruct r as [info | err]; [reflexivity |]. rewrite Hthere. reflexivity.
Qed.

(* ================================================================== *)
(** * The trash command as a whole *)
(* ================================================================== *)

Section TrashLoop.

Context {filepath : Filepath}.
Variable W : World.
Variable depth : nat.

Lemma MoveToTrash_renames sourcePath trashDir baseName (s s' : state W) tr :
  run W (MoveToTrash depth sourcePath trashDir) s = (Done (baseName, None), s', tr) ->
  exists absPath,
    baseName = Base absPath
    /\ In (EvCall (Rename absPath (Join [trashDir; baseName]))) tr.
Proof.
  intros Hrun.
  destruct (handle W (Abs sourcePath) s) as [[absPath | err] s1] eqn:Habs.
  2: { unfold MoveToTrash in Hrun. cbn [bind call] in Hrun. cbn [run] in Hrun.
       rewrite Habs in Hrun. discriminate. }
  destruct (handle W (Stat absPath) s1) as [[sourceInfo | err] s2] eqn:Hstat.
  2: { unfold MoveToTrash in Hrun. cbn [bind call] in Hrun. cbn [run] in Hrun.
       rewrite Habs in Hrun. cbn [run] in Hrun. rewrite Hstat in Hrun.
       destruct (IsNotExist err); discriminate. }
  destruct (handle W (Rename absPath (Join [trashDir; Base absPath])) s2) as [[e |] s3] eqn:Hmv.
  - rewrite (run_MoveToTrash_fallback W depth sourcePath trashDir _ _ _ _ _ _ _ Habs Hstat Hmv)
      in Hrun.
    destruct (run W (fallbackCopy depth sourceInfo absPath (Join [trashDir; Base absPath])) s3)
      as [[[[cerr |] | c |] s4] trc]; cbn [after] in Hrun; try discriminate.
    destruct (handle W (removal sourceInfo absPath) s4) as [[err2 |] s5];
      try discriminate.
    inversion Hrun; subst. exists absPath. split; [reflexivity |].
    right. right. left. reflexivity.
  - unfold MoveToTrash in Hrun. cbn [bind call] in Hrun. cbn [run] in Hrun.
    rewrite Habs in Hrun. cbn [run] in Hrun. rewrite Hstat in Hrun. cbn [run] in Hrun.
    rewrite Hmv in Hrun. cbn [run] in Hrun. inversion Hrun; subst.
    exists absPath. split; [reflexivity |]. right. right. left. reflexivity.
Qed.

Lemma MoveToTrash_returns_or_stops sourcePath trashDir (s : state W) :
  forall c, fst (fst (run W (MoveToTrash depth sourcePath trashDir) s)) <> Exited c.
Proof.
  intros c.
  destruct (handle W (Abs sourcePath) s) as [[absPath | err] s1] eqn:Habs.
  2: { unfold MoveToTrash. cbn [bind call]. cbn [run]. rewrite Habs. discriminate. }
  destruct (handle W (Stat absPath) s1) as [[sourceInfo | err] s2] eqn:Hstat.
  2: { unfold MoveToTrash. cbn [bind call]. cbn [run]. rewrite Habs. cbn [run].
       rewrite Hstat. destruct (IsNotExist err); discriminate. }
  destruct (handle W (Rename absPath (Join [trashDir; Base absPath])) s2) as [[e |] s3] eqn:Hmv.
  - rewrite (run_MoveToTrash_fallback W depth sourcePath trashDir _ _ _ _ _ _ _ Habs Hstat Hmv).
    assert (Hcopy : forall c',
               fst (fst (run W (fallbackCopy depth sourceInfo absPath
                                  (Join [trashDir; Base absPath])) s3)) <> Exited c').
    { intros c'. unfold fallbackCopy. destruct (IsDir sourceInfo).
      - destruct (CopyDirN_confined W depth absPath (Join [trashDir; Base absPath]) s3)
          as (o & s' & tr & Hrun & _ & Hx).
        unfold CopyDir. rewrite Hrun. apply Hx.
      - destruct (CopyFile_confined W absPath (Join [trashDir; Base absPath]) s3)
          as (e' & s' & tr & Hrun & _).
        rewrite Hrun. discriminate. }
    destruct (run W (fallbackCopy depth sourceInfo absPath (Join [trashDir; Base absPath])) s3)
      as [[[[cerr |] | c' |] s4] trc]; cbn [after fst]; try discriminate.
    + destruct (handle W (removal sourceInfo absPath) s4) as [e2 s5]. discriminate.
    + exfalso. apply (Hcopy c'). reflexivity.
  - unfold MoveToTrash. cbn [bind call]. cbn [run]. rewrite Habs. cbn [run].
    rewrite Hstat. cbn [run]. rewrite Hmv. discriminate.
Qed.

Lemma trashEach_returns_or_stops verbose trashDir :
  forall args successCount failedPaths metadata (s : state W) c,
    fst (fst (run W (trashEach depth verbose trashDir args successCount failedPaths
                       metadata) s)) <> Exited c.
Proof.
  induction args as [| path rest IH]; intros successCount failedPaths metadata s c;
    [discriminate |].
  rewrite run_trashEach_cons.
  destruct (absOf W path s) as [[absPath s1] tr0].
  pose proof (MoveToTrash_returns_or_stops path trashDir s1) as Hmove.
  destruct (run W (MoveToTrash depth path trashDir) s1)
    as [[[[baseName [e |]] | c' |] s2] tr1].
  - specialize (IH successCount (failedPaths ++ [path])%list metadata s2 c).
    destruct (run W (trashEach depth verbose trashDir rest successCount
                       (failedPaths ++ [path])%list metadata) s2) as [[o s3] tr2].
    exact IH.
  - destruct (handle W (Now RFC3339) s2) as [trashedAt s3].
    specialize (IH (S successCount) failedPaths
                   (mkMetadata (append (Items metadata) (mkItem baseName absPath trashedAt)))
                   s3 c).
    destruct (run W (trashEach depth verbose trashDir rest (S successCount) failedPaths
                       (mkMetadata (append (Items metadata)
                                           (mkItem baseName absPath trashedAt)))) s3)
      as [[o s4] tr2].
    exact IH.
  - exfalso. apply (Hmove c'). reflexivity.
  - discriminate.
Qed.

(** What the loop keeps: one item on record for each success, each under
    the base name its path was renamed to in the batch; every path
    counted once, as a success or as a failure. *)
Lemma trashEach_invariant verbose trashDir :
  forall args successCount failedPaths metadata (s : state W)
         successCount' failedPaths' metadata' (s' : state W) tr,
    run W (trashEach depth verbose trashDir args successCount failedPaths metadata) s
    = (Done (successCount', failedPaths', metadata'), s', tr) ->
    exists added failed,
      elems (Items metadata') = (elems (Items metadata) ++ added)%list
      /\ failedPaths' = (failedPaths ++ failed)%list
      /\ successCount' = successCount + length added
      /\ length added + length failed = length args
      /\ incl failed args
      /\ Forall (fun item =>
                   exists absPath,
                     Name item = Base absPath
                     /\ In (EvCall (Rename absPath (Join [trashDir; Name item]))) tr) added.
Proof.
  induction args as [| path rest IH];
    intros successCount failedPaths metadata s successCount' failedPaths' metadata' s' tr Hrun.
  - cbn in Hrun. inversion Hrun; subst. exists [], []. rewrite !app_nil_r.
    repeat split; auto. intros x [].
  - rewrite run_trashEach_cons in Hrun.
    destruct (absOf W path s) as [[absPath s1] tr0].
    destruct (run W (MoveToTrash depth path trashDir) s1)
      as [[[[baseName [e |]] | c |] s2] tr1] eqn:Hmove; try discriminate.
    + destruct (run W (trashEach depth verbose trashDir rest successCount
                         (failedPaths ++ [path])%list metadata) s2)
        as [[o s3] tr2] eqn:Hrest.
      cbn [after] in Hrun. inversion Hrun; subst o s3 tr. clear Hrun.
      destruct (IH _ _ _ _ _ _ _ _ _ Hrest)
        as (added & failed & Hitems & Hfailed & Hcount & Hlen & Hincl & Hren).
      exists added, (path :: failed). rewrite <- app_assoc in Hfailed.
      split; [exact Hitems |]. split; [exact Hfailed |]. split; [exact Hcount |].
      split; [cbn [length]; lia |]. split.
      * intros x [<- | Hx]; [left; reflexivity | right; apply Hincl; exact Hx].
      * eapply Forall_impl; [| exact Hren]. intros item (a & Hn & Hin).
        exists a. split; [exact Hn |]. apply in_or_app. right. exact Hin.
    + destruct (handle W (Now RFC3339) s2) as [trashedAt s3].
      destruct (run W (trashEach depth verbose trashDir rest (S successCount) failedPaths
                         (mkMetadata (append (Items metadata)
                                             (mkItem baseName absPath trashedAt)))) s3)
        as [[o s4] tr2] eqn:Hrest.
      cbn [after] in Hrun. inversion Hrun; subst o s4 tr. clear Hrun.
      destruct (IH _ _ _ _ _ _ _ _ _ Hrest)
        as (added & failed & Hitems & Hfailed & Hcount & Hlen & Hincl & Hren).
      exists (mkItem baseName absPath trashedAt :: added), failed.
      split.
      { rewrite Hitems. unfold append. cbn [Items elems]. rewrite <- app_assoc. reflexivity. }
      split; [exact Hfailed |]. split; [cbn [length]; lia |].
      split; [cbn [length]; lia |]. split.
      * intros x Hx. right. apply Hincl. exact Hx.
      * constructor.
        -- destruct (MoveToTrash_renames _ _ _ _ _ _ Hmove) as (a & Hb & Hin).
           exists a. cbn [Name]. split; [exact Hb |].
           apply in_or_app. left. apply in_or_app. right. apply in_or_app. left. exact Hin.
        -- eapply Forall_impl; [| exact Hren]. intros item (a & Hn & Hin).
           exists a. split; [exact Hn |]. apply in_or_app. right. exact Hin.
Qed.

End TrashLoop.

(** X7.  What the loop of the trash command keeps, whatever happens to
    each path: every path is counted once, as a success or as a failed
    path; the failed paths are among the arguments; for each success one
    item is added to the record, and the count of successes rises by
    one; the name of every item added is the base name of an absolute
    path that [os.Rename] was asked to move to the batch directory
    joined with that name.  Two paths with the same base name are thus
    sent to the same place in the batch, and both stay on record. *)
Theorem trashEach_records_each_success_under_its_base_name :
  forall {filepath : Filepath} (W : World) (depth : nat) (verbose : bool)
         (trashDir : string) (args : list string)
         (successCount : nat) (failedPaths : list string) (metadata : RestoreMetadata)
         (s : state W)
         (successCount' : nat) (failedPaths' : list string) (metadata' : RestoreMetadata)
         (s' : state W) (tr : list event),
    run W (trashEach depth verbose trashDir args successCount failedPaths metadata) s
    = (Done (successCount', failedPaths', metadata'), s', tr) ->
    exists (added : list RestoreItem) (failed : list string),
      elems (Items metadata') = (elems (Items metadata) ++ added)%list
      /\ failedPaths' = (failedPaths ++ failed)%list
      /\ successCount' = successCount + length added
      /\ length added + length failed = length args
      /\ incl failed args
      /\ Forall (fun item =>
                   exists absPath,
                     Name item = Base absPath
                     /\ In (EvCall (Rename absPath (Join [trashDir; Name item]))) tr) added.
Proof.
  intros filepath W depth verbose trashDir args successCount failedPaths metadata s
         successCount' failedPaths' metadata' s' tr Hrun.
  eapply trashEach_invariant. exact Hrun.
Qed.

Section TrashCommand.

Context {filepath : Filepath}.
Variable W : World.
Variable depth : nat.

Lemma run_CreateTrashTimestampDir (s : state W) :
  run W CreateTrashTimestampDir s
  = match handle W UserHomeDir s with
    | (inr err, s1) =>
      (Done ("", Some (Errorf ("failed to get user home directory: " ++ Error err))),
       s1, [EvCall UserHomeDir])
    | (inl homeDir, s1) =>
      let '(timestamp, s2) := handle W (Now "20060102_150405") s1 in
      let trashDir := Join [Join [homeDir; ".config"; "trash"]; timestamp] in
      let '(e, s3) := handle W (MkdirAll trashDir 493) s2 in
      (Done (match e with
             | Some err =>
               ("", Some (Errorf ("failed to create trash directory: " ++ Error err)))
             | None => (trashDir, None)
             end), s3,
       [EvCall UserHomeDir; EvCall (Now "20060102_150405"); EvCall (MkdirAll trashDir 493)])
    end.
Proof.
  unfold CreateTrashTimestampDir. rewrite run_bind, run_GetConfigDir.
  destruct (handle W UserHomeDir s) as [[homeDir | err] s1]; [| reflexivity].
  cbn [bind call]. cbn [run].
  destruct (handle W (Now "20060102_150405") s1) as [timestamp s2]. cbn [run].
  match goal with |- context [handle W ?op s2] => destruct (handle W op s2) as [[err |] s3] end;
    reflexivity.
Qed.

Lemma run_rootCmd_Run verbose args (s : state W) :
  args <> [] ->
  run W (rootCmd_Run depth verbose args) s
  = match run W CreateTrashTimestampDir s with
    | (Done (_, Some e), s1, trd) =>
      (Exited 1, s1,
       (trd ++ [EvPrint Stderr ("Error creating trash directory: " ++ Error e ++ nl)])%list)
    | (Done (trashDir, None), s1, trd) =>
      match run W (trashEach depth verbose trashDir args 0 [] (mkMetadata (Some []))) s1 with
      | (Done (successCount, failedPaths, metadata), s2, trl) =>
        let '(s3, trs) := saving W trashDir metadata s2 in
        (if (0 <? length failedPaths)%nat then Exited 1 else Done tt, s3,
         (trd ++ createdNote verbose trashDir ++ trl ++ trs
              ++ summary successCount failedPaths)%list)
      | (Exited c, s2, trl) =>
        (Exited c, s2, (trd ++ createdNote verbose trashDir ++ trl)%list)
      | (OutOfFuel, s2, trl) =>
        (OutOfFuel, s2, (trd ++ createdNote verbose trashDir ++ trl)%list)
      end
    | (Exited c, s1, trd) => (Exited c, s1, trd)
    | (OutOfFuel, s1, trd) => (OutOfFuel, s1, trd)
    end.
Proof.
  intros Hargs. unfold rootCmd_Run.
  destruct args as [| a args']; [contradiction |]. cbn [length Nat.eqb].
  rewrite run_bind.
  destruct (run W CreateTrashTimestampDir s) as [[[[trashDir [e |]] | c |] s1] trd];
    try reflexivity.
  rewrite run_bind, run_when_print. fold (createdNote verbose trashDir).
  rewrite run_bind.
  destruct (run W (trashEach depth verbose trashDir (a :: args') 0 [] (mkMetadata (Some []))) s1)
    as [[[[[successCount failedPaths] metadata] | c |] s2] trl];
    try (rewrite ?app_nil_r; reflexivity).
  rewrite run_bind. unfold saving, summary.
  destruct (0 <? len (Items metadata))%nat; cbn [when].
  - rewrite run_bind, run_SaveRestoreMetadata. cbv zeta.
    match goal with |- context [handle W ?op s2] => destruct (handle W op s2) as [[e |] s3] end;
      cbn [Error Errorf run print]; rewrite run_bind, run_when_print;
      destruct (0 <? length failedPaths)%nat; cbn [run print bind];
      rewrite <- ?app_assoc; cbn [app]; rewrite ?app_nil_r; reflexivity.
  - cbn [run]. rewrite run_bind, run_when_print.
    destruct (0 <? length failedPaths)%nat; cbn [run print bind];
      rewrite <- ?app_assoc; cbn [app]; rewrite ?app_nil_r; reflexivity.
Qed.

End TrashCommand.

(** X8.  When the batch directory cannot be made (the home directory is
    unknown, or [os.MkdirAll] fails), the trash command prints the error
    and exits with status 1 at once: it makes no call on any of the
    paths it was given. *)
Theorem trash_stops_when_the_batch_directory_cannot_be_made :
  forall {filepath : Filepath} (W : World) (depth : nat) (verbose : bool)
         (args : list string) (s s1 : state W) (r : result string),
    args <> [] ->
    handle W UserHomeDir s = (r, s1) ->
    match r with
    | inr err =>
      run W (rootCmd_Run depth verbose args) s
      = (Exited 1, s1,
         [EvCall UserHomeDir;
          EvPrint Stderr ("Error creating trash directory: "
                            ++ "failed to get user home directory: " ++ Error err ++ nl)])
    | inl homeDir =>
      forall (timestamp : string) (err : error) (s2 s3 : state W),
        let trashDir := Join [Join [homeDir; ".config"; "trash"]; timestamp] in
        handle W (Now "20060102_150405") s1 = (timestamp, s2) ->
        handle W (MkdirAll trashDir 493) s2 = (Some err, s3) ->
        run W (rootCmd_Run depth verbose args) s
        = (Exited 1, s3,
           [EvCall UserHomeDir; EvCall (Now "20060102_150405");
            EvCall (MkdirAll trashDir 493);
            EvPrint Stderr ("Error creating trash directory: "
                              ++ "failed to create trash directory: " ++ Error err ++ nl)])
    end.
Proof.
  intros filepath W depth verbose args s s1 r Hargs Hhome.
  rewrite (run_rootCmd_Run W depth verbose args s Hargs), run_CreateTrashTimestampDir, Hhome.
  destruct r as [homeDir | err]; [| reflexivity].
  intros timestamp err s2 s3 trashDir Hnow Hmk. rewrite Hnow. cbv beta iota zeta.
  fold trashDir. rewrite Hmk. reflexivity.
Qed.

(** X9.  The trash command with at least one path ends with status 0
    only when every path is on record: a sidecar with as many items as
    there are paths was handed to [os.WriteFile], and the line
    "Successfully moved N item(s) to trash" was printed for all N paths.
    Whenever it exits otherwise, the status is 1. *)
Theorem trash_ends_with_status_0_only_when_every_path_is_on_record :
  forall {filepath : Filepath} (W : World) (depth : nat) (verbose : bool)
         (args : list string) (s s' : state W) (o : outcome unit) (tr : list event),
    args <> [] ->
    run W (rootCmd_Run depth verbose args) s = (o, s', tr) ->
    match o with
    | Done _ =>
      exists (trashDir : string) (metadata : RestoreMetadata),
        len (Items metadata) = length args
        /\ In (EvCall (WriteFile (Join [trashDir; ".restore"])
                                 (fst (json.MarshalIndent metadata)) 420)) tr
        /\ In ("Successfully moved " ++ itoa (length args) ++ " item(s) to trash" ++ nl)
              (printed Stdout tr)
    | Exited c => c = 1%Z
    | OutOfFuel => True
    end.
Proof.
  intros filepath W depth verbose args s s' o tr Hargs Hrun.
  rewrite (run_rootCmd_Run W depth verbose args s Hargs), run_CreateTrashTimestampDir in Hrun.
  destruct (handle W UserHomeDir s) as [[homeDir | err] s1].
  2: { inversion Hrun; subst. reflexivity. }
  destruct (handle W (Now "20060102_150405") s1) as [timestamp s2].
  cbv zeta in Hrun.
  set (trashDir := Join [Join [homeDir; ".config"; "trash"]; timestamp]) in *.
  destruct (handle W (MkdirAll trashDir 493) s2) as [[err |] s3].
  { inversion Hrun; subst. reflexivity. }
  destruct (run W (trashEach depth verbose trashDir args 0 [] (mkMetadata (Some []))) s3)
    as [[[[[successCount failedPaths] metadata] | c |] s4] trl] eqn:Hloop.
  - destruct (trashEach_invariant W depth verbose trashDir _ _ _ _ _ _ _ _ _ _ Hloop)
      as (added & failed & Hitems & Hfailed & Hcount & Hlen & _).
    cbn [Items elems app] in Hitems. cbn [app] in Hfailed. subst failedPaths.
    destruct (saving W trashDir metadata s4) as [s5 trs] eqn:Hsave.
    destruct failed as [| f failed].
    + cbn [length Nat.ltb Nat.leb] in Hrun. inversion Hrun; subst o s' tr. clear Hrun.
      cbn [length] in Hlen. rewrite Nat.add_0_r in Hlen.
      assert (Hl : len (Items metadata) = length args)
        by (unfold len; rewrite Hitems; exact Hlen).
      assert (Hpos : (0 <? length args)%nat = true).
      { apply Nat.ltb_lt. destruct args; [contradiction | cbn; lia]. }
      exists trashDir, metadata. split; [exact Hl |]. split.
      * unfold saving in Hsave. rewrite Hl, Hpos in Hsave.
        destruct (handle W (WriteFile (Join [trashDir; ".restore"])
                                      (fst (json.MarshalIndent metadata)) 420) s4) as [e s6].
        injection Hsave as <- <-.
        cbn [app]. do 3 right. do 2 (apply in_or_app; right).
        left. reflexivity.
      * cbn [app printed]. rewrite !printed_app. do 3 (apply in_or_app; right).
        unfold summary. cbn [Nat.add] in Hcount. subst successCount. rewrite Hlen, Hpos.
        left. reflexivity.
    + cbn [length Nat.ltb Nat.leb] in Hrun. inversion Hrun; subst. reflexivity.
  - (* the loop makes no call to os.Exit *)
    exfalso.
    apply (trashEach_returns_or_stops W depth verbose trashDir args 0 []
             (mkMetadata (Some [])) s3 c).
    rewrite Hloop. reflexivity.
  - inversion Hrun; subst. exact I.
Qed.

Section TrashOutcomes.

Context {filepath : Filepath}.
Variable W : World.
Variable depth : nat.

Lemma absOf_quiet path (s s1 : state W) recordedPath tr0 :
  absOf W path s = (recordedPath, s1, tr0) ->
  quiet tr0 /\ forall fd, printed fd tr0 = [].
Proof.
  unfold absOf. destruct (handle W Getwd s) as [[wd | err] s0].
  - destruct (handle W (Abs path) s0) as [a s2]. intros H. inversion H; subst.
    split; [repeat constructor | intros fd; reflexivity].
  - intros H. inversion H; subst. split; [repeat constructor | intros fd; reflexivity].
Qed.

Lemma trashEach_NoneThere verbose trashDir args (s s' : state W) :
  NoneThere W args s s' ->
  forall successCount failedPaths metadata,
  exists trl,
    run W (trashEach depth verbose trashDir args successCount failedPaths metadata) s
    = (Done (successCount, (failedPaths ++ args)%list, metadata), s', trl)
    /\ quiet trl
    /\ printed Stdout trl = []
    /\ length (printed Stderr trl) = length args.
Proof.
  induction 1 as [s | path absPath rest s s1 s' Hmiss _ IH];
    intros successCount failedPaths metadata.
  - exists []. rewrite app_nil_r. split; [reflexivity |]. repeat split. constructor.
  - destruct Hmiss as (recordedPath & s0 & s0' & tr0 & err & Habs0 & Habs & Hstat & Hne).
    destruct (absOf_quiet _ _ _ _ _ Habs0) as [Hq0 Hp0].
    rewrite run_trashEach_cons, Habs0.
    rewrite (run_MoveToTrash_missing W depth path trashDir _ _ _ _ _ Habs Hstat Hne).
    destruct (IH successCount (failedPaths ++ [path])%list metadata)
      as (trl & Hrun & Hq & Hout & Herr).
    rewrite Hrun. cbn [after]. rewrite <- (app_assoc failedPaths [path] rest). cbn [app].
    eexists. split; [reflexivity |]. split; [| split].
    + apply quiet_app; [apply quiet_app; [exact Hq0 | repeat constructor] | exact Hq].
    + rewrite !printed_app, Hp0. cbn [app printed]. exact Hout.
    + rewrite !printed_app, Hp0. cbn [app printed length]. rewrite Herr. reflexivity.
Qed.

End TrashOutcomes.

(** X10.  When none of the paths exists, the trash command reports each
    of them and exits with status 1, having written no sidecar; the
    batch directory made at the start is left behind, empty: after its
    creation the command makes no call that changes the file system. *)
Theorem trash_of_missing_paths_leaves_an_empty_batch :
  forall {filepath : Filepath} (W : World) (depth : nat) (verbose : bool)
         (args : list string) (trashDir : string) (s sdir s' : state W)
         (trd : list event),
    args <> [] ->
    run W CreateTrashTimestampDir s = (Done (trashDir, None), sdir, trd) ->
    NoneThere W args sdir s' ->
    exists trl : list event,
      run W (rootCmd_Run depth verbose args) s
      = (Exited 1, s',
         (trd ++ createdNote verbose trashDir ++ trl
              ++ [EvPrint Stderr ("Failed to trash " ++ itoa (length args)
                                    ++ " item(s)" ++ nl)])%list)
      /\ quiet trl
      /\ printed Stdout trl = []
      /\ length (printed Stderr trl) = length args.
Proof.
  intros filepath W depth verbose args trashDir s sdir s' trd Hargs Hdir Hnone.
  destruct (trashEach_NoneThere W depth verbose trashDir args sdir s' Hnone 0 []
              (mkMetadata (Some []))) as (trl & Hrun & Hq & Hout & Herr).
  exists trl. split; [| repeat split; assumption].
  rewrite (run_rootCmd_Run W depth verbose args s Hargs), Hdir, Hrun.
  unfold saving, summary. cbn [Items len elems length Nat.ltb Nat.leb app].
  destruct args as [| a args']; [contradiction | reflexivity].
Qed.

(** X11.  When every path is moved into the batch but the sidecar cannot
    be written, the trash command prints a warning, still reports the
    success of all paths and ends with status 0: the items lie in the
    batch on no record. *)
Theorem trash_only_warns_when_the_sidecar_cannot_be_written :
  forall {filepath : Filepath} (W : World) (depth : nat) (verbose : bool)
         (args : list string) (trashDir : string) (s sdir s1 s2 : state W)
         (trd : list event) (err : error),
    args <> [] ->
    run W CreateTrashTimestampDir s = (Done (trashDir, None), sdir, trd) ->
    Trashed W depth trashDir args sdir s1 ->
    (forall data : string,
        handle W (WriteFile (Join [trashDir; ".restore"]) data 420) s1 = (Some err, s2)) ->
    exists tr : list event,
      run W (rootCmd_Run depth verbose args) s = (Done tt, s2, tr)
      /\ In ("Warning: failed to save restore metadata: failed to write .restore file: "
               ++ Error err ++ nl) (printed Stderr tr)
      /\ In ("Successfully moved " ++ itoa (length args) ++ " item(s) to trash" ++ nl)
            (printed Stdout tr).
Proof.
  intros filepath W depth verbose args trashDir s sdir s1 s2 trd err Hargs Hdir Hall Hwrite.
  destruct (trashEach_Trashed W depth verbose trashDir _ _ _ Hall [] 0 []
              (mkMetadata (Some []))) as (metadata & trl & Hrun & Hlen).
  rewrite app_nil_r in Hrun. cbn [trashEach run after Nat.add Items len elems length] in Hrun, Hlen.
  assert (Hpos : (0 <? length args)%nat = true).
  { apply Nat.ltb_lt. destruct args; [contradiction | cbn; lia]. }
  eexists. split; [| split].
  - rewrite (run_rootCmd_Run W depth verbose args s Hargs), Hdir, Hrun.
    unfold saving. rewrite Hlen, Hpos, Hwrite. reflexivity.
  - rewrite !printed_app. do 3 (apply in_or_app; right). apply in_or_app. left.
    cbn [printed]. left. reflexivity.
  - rewrite !printed_app. do 4 (apply in_or_app; right).
    unfold summary. rewrite Hpos. left. reflexivity.
Qed.

(** X29.  After a trash command that returned without a line on
    standard error, where written files read back as written, the
    sidecar of its batch loads, and the record holds one item for each
    path of this command and no other: each item is named after the
    base name of a path that [os.Rename] was asked to move into the
    batch during this run (names that are not valid UTF-8 load with U+FFFD in the
    place of each invalid byte).  The sidecar is written anew: what an
    earlier command of the same second had put on record is no longer
    there. *)
Theorem trash_records_the_paths_of_this_run_only :
  forall {filepath : Filepath} (W : World) (depth : nat) (verbose : bool)
         (args : list string) (s s' : state W) (tr : list event),
    keepsWrites W ->
    args <> [] ->
    run W (rootCmd_Run depth verbose args) s = (Done tt, s', tr) ->
    printed Stderr tr = [] ->
    exists (trashDir : string) (metadata : RestoreMetadata)
           (s'' : state W) (tr' : list event),
      In (EvCall (MkdirAll trashDir 493)) tr
      /\ run W (load (Join [trashDir; ".restore"])) s'
         = (Done (Loaded (coerceMetadata metadata)), s'', tr')
      /\ len (Items (coerceMetadata metadata)) = length args
      /\ Forall (fun item =>
                   exists absPath,
                     Name item = Base absPath
                     /\ In (EvCall (Rename absPath (Join [trashDir; Name item]))) tr)
                (elems (Items metadata)).
Proof.
  intros filepath W depth verbose args s s' tr Hkeeps Hargs Hrun Hclean.
  rewrite (run_rootCmd_Run W depth verbose args s Hargs), run_CreateTrashTimestampDir in Hrun.
  destruct (handle W UserHomeDir s) as [[homeDir | err] s1]; [| discriminate].
  destruct (handle W (Now "20060102_150405") s1) as [timestamp s2].
  cbv zeta in Hrun.
  set (trashDir := Join [Join [homeDir; ".config"; "trash"]; timestamp]) in *.
  destruct (handle W (MkdirAll trashDir 493) s2) as [[err |] s3]; [discriminate |].
  destruct (run W (trashEach depth verbose trashDir args 0 [] (mkMetadata (Some []))) s3)
    as [[[[[successCount failedPaths] metadata] | c |] s4] trl] eqn:Hloop;
    try discriminate.
  destruct (trashEach_invariant W depth verbose trashDir _ _ _ _ _ _ _ _ _ _ Hloop)
    as (added & failed & Hitems & Hfailed & Hcount & Hlen & _ & Hren).
  cbn [Items elems app] in Hitems. cbn [app] in Hfailed. subst failedPaths.
  rewrite <- Hitems in Hren.
  destruct (saving W trashDir metadata s4) as [s5 trs] eqn:Hsave.
  destruct failed as [| f failed]; [| cbn [length Nat.ltb Nat.leb] in Hrun; discriminate].
  cbn [length Nat.ltb Nat.leb] in Hrun. injection Hrun as <- <-.
  cbn [length] in Hlen. rewrite Nat.add_0_r in Hlen.
  assert (Hl : len (Items metadata) = length args)
    by (unfold len; rewrite Hitems; exact Hlen).
  assert (Hpos : (0 <? length args)%nat = true).
  { apply Nat.ltb_lt. destruct args; [contradiction | cbn; lia]. }
  unfold saving in Hsave. rewrite Hl, Hpos in Hsave.
  destruct (handle W (WriteFile (Join [trashDir; ".restore"])
                                (fst (json.MarshalIndent metadata)) 420) s4)
    as [[err |] s6] eqn:Hwrite.
  { exfalso. injection Hsave as <- <-. revert Hclean. cbn [app printed].
    rewrite !printed_app. cbn [printed].
    intros H. apply app_eq_nil in H. destruct H as [_ H].
    apply app_eq_nil in H. destruct H as [_ H]. discriminate. }
  injection Hsave as <- <-.
  destruct (Hkeeps _ _ _ _ _ Hwrite) as (info & s7 & s8 & Hstat & Hread).
  exists trashDir, metadata, s8. eexists.
  split; [cbn [app]; right; right; left; reflexivity |].
  split.
  { unfold load. cbn [bind call]. cbn [run]. rewrite Hstat. cbn [run]. rewrite Hread.
    rewrite coerced_facts.Unmarshal_MarshalIndent_any. reflexivity. }
  split.
  { rewrite <- Hl. destruct metadata as [[l |]]; [| reflexivity].
    unfold coerceMetadata, len. cbn [Items elems]. apply length_map. }
  eapply Forall_impl; [| exact Hren]. intros item (a & Hn & Hin).
  exists a. split; [exact Hn |].
  cbn [app]. do 3 right. apply in_or_app. right. apply in_or_app. left. exact Hin.
Qed.

(* ================================================================== *)
(** * Execute *)
(* ================================================================== *)

(** X12.  A failure to ensure the trash directory does not stop the
    program: [Execute] prints it as a warning and runs the command from
    the state it is in; the status is that of the command (1 when the
    command line is refused). *)
Theorem Execute_only_warns_when_the_directory_cannot_be_ensured :
  forall {filepath : Filepath} (W : World) (rootCmd_Execute : prog (option error))
         (err : error) (s s1 : state W) (tr1 : list event),
    run W EnsureConfigDir s = (Done (Some err), s1, tr1) ->
    run W (Execute rootCmd_Execute) s
    = after (tr1 ++ [EvPrint Stderr ("Warning: " ++ Error err ++ nl)])%list
            (finished W (run W rootCmd_Execute s1)).
Proof.
  intros filepath W cmd err s s1 tr1 Hensure.
  unfold Execute. rewrite run_bind, Hensure, run_bind. cbn [run print].
  rewrite run_bind.
  destruct (run W cmd s1) as [[[[e |] | c |] s2] tr2]; cbn [finished after run print bind];
    rewrite <- ?app_assoc, ?app_nil_r; reflexivity.
Qed.

(** X13.  When the trash directory does not exist, [Execute] creates it
    and says so before it runs the command, whichever command it is. *)
Theorem Execute_creates_the_missing_directory_before_the_command :
  forall {filepath : Filepath} (W : World) (rootCmd_Execute : prog (option error))
         (homeDir : string) (err : error) (s s1 s2 s3 : state W),
    let configDir := Join [homeDir; ".config"; "trash"] in
    handle W UserHomeDir s = (inl homeDir, s1) ->
    handle W (Stat configDir) s1 = (inr err, s2) ->
    IsNotExist err = true ->
    handle W (MkdirAll configDir 493) s2 = (None, s3) ->
    run W (Execute rootCmd_Execute) s
    = after [EvCall UserHomeDir; EvCall (Stat configDir); EvCall (MkdirAll configDir 493);
             EvPrint Stdout ("Created config directory: " ++ configDir ++ nl)]
            (finished W (run W rootCmd_Execute s3)).
Proof.
  intros filepath W cmd homeDir err s s1 s2 s3 configDir Hhome Hstat Hne Hmk.
  assert (Hensure : run W EnsureConfigDir s
                    = (Done None, s3,
                       [EvCall UserHomeDir; EvCall (Stat configDir);
                        EvCall (MkdirAll configDir 493);
                        EvPrint Stdout ("Created config directory: " ++ configDir ++ nl)])).
  { unfold EnsureConfigDir. rewrite run_bind, run_GetConfigDir, Hhome.
    cbn [bind call]. cbn [run]. fold configDir. rewrite Hstat, Hne. cbn [run].
    rewrite Hmk. reflexivity. }
  unfold Execute. rewrite run_bind, Hensure, run_bind. cbn [run].
  rewrite run_bind.
  destruct (run W cmd s3) as [[[[e |] | c |] s4] tr2]; cbn [finished after run print bind];
    rewrite ?app_nil_r; reflexivity.
Qed.

(* ================================================================== *)
(** * The list command *)
(* ================================================================== *)

Lemma prefix_append (a b : string) : String.prefix a (a ++ b) = true.
Proof.
  induction a as [| c a IH]; [destruct b; reflexivity |].
  cbn. destruct (ascii_dec c c) as [_ | H]; [exact IH | contradiction].
Qed.

Lemma bullets_app (l1 l2 : list string) : bullets (l1 ++ l2) = bullets l1 + bullets l2.
Proof. unfold bullets. rewrite filter_app, length_app. reflexivity. Qed.

Lemma statted_app (tr1 tr2 : list event) :
  statted (tr1 ++ tr2) = (statted tr1 ++ statted tr2)%list.
Proof. unfold statted. apply flat_map_app. Qed.

Lemma dirNames_spec (entries : list DirEntry) (trashDirs : list string) :
  dirNames entries trashDirs
  = (trashDirs ++ map EntryName (filter EntryIsDir entries))%list.
Proof.
  revert trashDirs. induction entries as [| entry rest IH]; intros trashDirs; cbn.
  - rewrite app_nil_r. reflexivity.
  - destruct (EntryIsDir entry); [| apply IH].
    rewrite IH, <- app_assoc. reflexivity.
Qed.

Section Listing.

Context {filepath : Filepath}.
Variable W : World.

Lemma load_shape restoreFile (s : state W) :
  exists l s' tr,
    run W (load restoreFile) s = (Done l, s', tr)
    /\ quiet tr /\ statted tr = [restoreFile] /\ (forall fd, printed fd tr = []).
Proof.
  unfold load. cbn [bind call]. cbn [run].
  destruct (handle W (Stat restoreFile) s) as [r s1].
  destruct (match r with inr err => IsNotExist err | inl _ => false end).
  - cbn [run]. do 3 eexists. split; [reflexivity |].
    split; [repeat constructor |]. split; [reflexivity | intros fd; reflexivity].
  - cbn [run]. destruct (handle W (ReadFile restoreFile) s1) as [[data [err |]] s2]; cbn [run].
    + do 3 eexists. split; [reflexivity |].
      split; [repeat constructor |]. split; [reflexivity | intros fd; reflexivity].
    + destruct (json.Unmarshal data) as [metadata [err |]]; cbn [run];
        do 3 eexists; (split; [reflexivity |]);
        (split; [repeat constructor |]); (split; [reflexivity | intros fd; reflexivity]).
Qed.

Lemma listItems_run verbose :
  forall items totalItems (s : state W),
  exists tr,
    run W (listItems verbose items totalItems) s = (Done (totalItems + length items), s, tr)
    /\ quiet tr /\ statted tr = []
    /\ bullets (printed Stdout tr) = length items
    /\ printed Stderr tr = [].
Proof.
  induction items as [| item rest IH]; intros totalItems s.
  - exists []. cbn. rewrite Nat.add_0_r. repeat split. constructor.
  - destruct (IH (S totalItems) s) as (tr & Hrun & Hq & Hs & Hb & He).
    cbn [listItems]. rewrite run_bind.
    destruct verbose.
    + cbn [print bind run]. rewrite Hrun. cbn [length].
      replace (S totalItems + length rest) with (totalItems + S (length rest)) by lia.
      eexists. split; [reflexivity |].
      split; [repeat constructor; exact Hq |]. split; [exact Hs |]. split; [| exact He].
      cbn [app printed]. unfold bullets in *. cbn [filter].
      change ("  • " ++ Name item ++ nl) with (bullet ++ Name item ++ nl).
      rewrite prefix_append.
      replace (String.prefix bullet ("    Original: " ++ OriginalPath item ++ nl))
        with false by reflexivity.
      replace (String.prefix bullet ("    Trashed:  " ++ TrashedAt item ++ nl))
        with false by reflexivity.
      cbn [length]. rewrite Hb. reflexivity.
    + cbn [print bind run]. rewrite Hrun. cbn [length].
      replace (S totalItems + length rest) with (totalItems + S (length rest)) by lia.
      eexists. split; [reflexivity |].
      split; [repeat constructor; exact Hq |]. split; [exact Hs |]. split; [| exact He].
      cbn [app printed]. unfold bullets in *. cbn [filter].
      change ("  • " ++ Name item ++ " (from " ++ OriginalPath item ++ ")" ++ nl)
        with (bullet ++ Name item ++ " (from " ++ OriginalPath item ++ ")" ++ nl).
      rewrite prefix_append. cbn [length]. rewrite Hb. reflexivity.
Qed.

Lemma listEach_run verbose configDir :
  forall trashDirs totalItems (s : state W),
  exists totalItems' s' tr,
    run W (listEach verbose configDir trashDirs totalItems) s = (Done totalItems', s', tr)
    /\ quiet tr
    /\ statted tr = map (sidecarOf configDir) trashDirs
    /\ totalItems' = totalItems + bullets (printed Stdout tr)
    /\ printed Stderr tr = [].
Proof.
  induction trashDirs as [| dirName rest IH]; intros totalItems s.
  - exists totalItems, s, []. cbn. rewrite Nat.add_0_r. repeat split. constructor.
  - cbn [listEach]. rewrite run_bind.
    destruct (load_shape (Join [Join [configDir; dirName]; ".restore"]) s)
      as (l & s1 & tr1 & Hload & Hq1 & Hs1 & Hp1).
    rewrite Hload.
    assert (Hskip : forall (b : bool) (line : string),
      String.prefix bullet line = false ->
      exists totalItems' s' tr,
        (let '(o, s2, tr2) :=
           run W (when b (print Stdout line) ;;
                  listEach verbose configDir rest totalItems) s1 in
         (o, s2, (tr1 ++ tr2)%list)) = (Done totalItems', s', tr)
        /\ quiet tr
        /\ statted tr = map (sidecarOf configDir) (dirName :: rest)
        /\ totalItems' = totalItems + bullets (printed Stdout tr)
        /\ printed Stderr tr = []).
    { intros b line Hline. rewrite run_bind, run_when_print.
      destruct (IH totalItems s1) as (t' & s' & tr & Hrun & Hq & Hs & Ht & He).
      rewrite Hrun. do 3 eexists. split; [reflexivity |].
      split; [| split; [| split]].
      - apply quiet_app; [exact Hq1 |]. apply quiet_app; [| exact Hq].
        destruct b; repeat constructor.
      - rewrite !statted_app, Hs1, Hs. destruct b; reflexivity.
      - rewrite !printed_app, Hp1. subst t'. cbn [app].
        assert (Hb : bullets (printed Stdout (if b then [EvPrint Stdout line] else [])) = 0).
        { destruct b; [| reflexivity]. unfold bullets. cbn [printed filter].
          rewrite Hline. reflexivity. }
        rewrite bullets_app, Hb. reflexivity.
      - rewrite !printed_app, Hp1, He. destruct b; reflexivity. }
    destruct l as [| err | err | metadata].
    + apply Hskip. reflexivity.
    + apply Hskip. reflexivity.
    + apply Hskip. reflexivity.
    + destruct (0 <? len (Items metadata))%nat.
      * cbn [print bind run]. rewrite run_bind.
        destruct (listItems_run verbose (elems (Items metadata)) totalItems s1)
          as (tr2 & Hitems & Hq2 & Hs2 & Hb2 & He2).
        rewrite Hitems.
        destruct (IH (totalItems + length (elems (Items metadata))) s1)
          as (t' & s' & tr & Hrun & Hq & Hs & Ht & He).
        rewrite Hrun. do 3 eexists. split; [reflexivity |].
        split; [| split; [| split]].
        -- apply quiet_app; [exact Hq1 |]. constructor; [reflexivity |].
           apply quiet_app; assumption.
        -- rewrite statted_app, Hs1. cbn [statted flat_map app].
           fold (statted (tr2 ++ tr)). rewrite statted_app, Hs2, Hs. reflexivity.
        -- rewrite printed_app, Hp1. cbn [app printed]. rewrite printed_app.
           change (?x :: ?l1 ++ ?l2)%list with ([x] ++ l1 ++ l2)%list.
           rewrite !bullets_app, Hb2. subst t'.
           replace (bullets [nl ++ "[" ++ dirName ++ "]" ++ nl]) with 0 by reflexivity.
           lia.
        -- rewrite printed_app, Hp1. cbn [app printed]. rewrite printed_app, He2, He.
           reflexivity.
      * destruct (IH totalItems s1) as (t' & s' & tr & Hrun & Hq & Hs & Ht & He).
        rewrite Hrun. do 3 eexists. split; [reflexivity |].
        split; [| split; [| split]].
        -- apply quiet_app; assumption.
        -- rewrite statted_app, Hs1, Hs. reflexivity.
        -- rewrite printed_app, Hp1. exact Ht.
        -- rewrite printed_app, Hp1, He. reflexivity.
Qed.

End Listing.

Section ListCommand.

Context {filepath : Filepath}.
Variable W : World.

Lemma run_listCmd_Run verbose (s : state W) :
  run W (listCmd_Run verbose) s
  = match handle W UserHomeDir s with
    | (inr err, s1) =>
      (Exited 1, s1,
       [EvCall UserHomeDir;
        EvPrint Stderr ("Error getting config directory: "
                          ++ "failed to get user home directory: " ++ Error err ++ nl)])
    | (inl homeDir, s1) =>
      let configDir := Join [homeDir; ".config"; "trash"] in
      match handle W (ReadDir configDir) s1 with
      | (inr err, s2) =>
        (Exited 1, s2,
         [EvCall UserHomeDir; EvCall (ReadDir configDir);
          EvPrint Stderr ("Error reading trash directory: " ++ Error err ++ nl)])
      | (inl entries, s2) =>
        match sortStrings (map EntryName (filter EntryIsDir entries)) with
        | [] =>
          (Done tt, s2,
           [EvCall UserHomeDir; EvCall (ReadDir configDir);
            EvPrint Stdout ("Trash is empty" ++ nl)])
        | trashDirs =>
          let '(o, s3, tr) := run W (listEach verbose configDir trashDirs 0) s2 in
          match o with
          | Done totalItems =>
            (Done tt, s3,
             ([EvCall UserHomeDir; EvCall (ReadDir configDir)] ++ tr
                ++ [EvPrint Stdout (nl ++ "Total: " ++ itoa totalItems
                                       ++ " item(s) in trash" ++ nl)])%list)
          | Exited c => (Exited c, s3, ([EvCall UserHomeDir; EvCall (ReadDir configDir)] ++ tr)%list)
          | OutOfFuel => (OutOfFuel, s3, ([EvCall UserHomeDir; EvCall (ReadDir configDir)] ++ tr)%list)
          end
        end
      end
    end.
Proof.
  unfold listCmd_Run. rewrite run_bind, run_GetConfigDir.
  destruct (handle W UserHomeDir s) as [[homeDir | err] s1]; [| reflexivity].
  cbv zeta. cbn [bind call]. cbn [run].
  destruct (handle W (ReadDir (Join [homeDir; ".config"; "trash"])) s1)
    as [[entries | err] s2]; [| reflexivity].
  rewrite dirNames_spec. cbn [app].
  destruct (sortStrings (map EntryName (filter EntryIsDir entries))) as [| d ds];
    [reflexivity |].
  cbn [length Nat.eqb]. rewrite run_bind.
  destruct (run W (listEach verbose (Join [homeDir; ".config"; "trash"]) (d :: ds) 0) s2)
    as [[[totalItems | c |] s3] tr]; reflexivity.
Qed.

End ListCommand.

(** X14.  The list command changes nothing: whatever the calls answer,
    it makes no call that changes the file system, and it ends with
    status 0, or with status 1 when the home directory is unknown or the
    trash directory cannot be read. *)
Theorem list_changes_nothing :
  forall {filepath : Filepath} (W : World) (verbose : bool) (s : state W),
  exists (o : outcome unit) (s' : state W) (tr : list event),
    run W (listCmd_Run verbose) s = (o, s', tr)
    /\ quiet tr
    /\ (o = Done tt \/ o = Exited 1).
Proof.
  intros filepath W verbose s. rewrite run_listCmd_Run.
  destruct (handle W UserHomeDir s) as [[homeDir | err] s1].
  2: { do 3 eexists. split; [reflexivity |]. split; [repeat constructor | right; reflexivity]. }
  cbv zeta.
  destruct (handle W (ReadDir (Join [homeDir; ".config"; "trash"])) s1)
    as [[entries | err] s2].
  2: { do 3 eexists. split; [reflexivity |]. split; [repeat constructor | right; reflexivity]. }
  destruct (sortStrings (map EntryName (filter EntryIsDir entries))) as [| d ds].
  { do 3 eexists. split; [reflexivity |]. split; [repeat constructor | left; reflexivity]. }
  destruct (listEach_run W verbose (Join [homeDir; ".config"; "trash"]) (d :: ds) 0 s2)
    as (total & s3 & tr & Hrun & Hq & _).
  rewrite Hrun. do 3 eexists. split; [reflexivity |]. split; [| left; reflexivity].
  repeat constructor. apply quiet_app; [exact Hq | repeat constructor].
Qed.

(** X15.  The total that the list command prints is the number of items
    it has shown: when it ends with status 0, it has printed either the
    one line "Trash is empty", or lines that end with "Total: N item(s)
    in trash" where N is the number of lines before it that start with
    the mark of an item.  Batches without a readable sidecar add
    nothing to the total. *)
Theorem list_total_counts_the_items_shown :
  forall {filepath : Filepath} (W : World) (verbose : bool) (s s' : state W)
         (tr : list event),
    run W (listCmd_Run verbose) s = (Done tt, s', tr) ->
    printed Stdout tr = ["Trash is empty" ++ nl]
    \/ exists lines : list string,
         printed Stdout tr
         = (lines ++ [(nl ++ "Total: " ++ itoa (bullets lines)
                          ++ " item(s) in trash" ++ nl)%string])%list.
Proof.
  intros filepath W verbose s s' tr Hrun. rewrite run_listCmd_Run in Hrun.
  destruct (handle W UserHomeDir s) as [[homeDir | err] s1]; [| discriminate].
  cbv zeta in Hrun.
  destruct (handle W (ReadDir (Join [homeDir; ".config"; "trash"])) s1)
    as [[entries | err] s2]; [| discriminate].
  destruct (sortStrings (map EntryName (filter EntryIsDir entries))) as [| d ds].
  { left. inversion Hrun; subst. reflexivity. }
  destruct (listEach_run W verbose (Join [homeDir; ".config"; "trash"]) (d :: ds) 0 s2)
    as (total & s3 & tr3 & Hloop & _ & _ & Htotal & _).
  rewrite Hloop in Hrun. inversion Hrun; subst s' tr. clear Hrun.
  right. exists (printed Stdout tr3).
  cbn [app printed]. rewrite printed_app. cbn [printed]. subst total. reflexivity.
Qed.

(** X16.  The list command takes the entries of the trash directory
    that are directories, files being ignored, and looks at the sidecar
    of each of them once, in ascending order of their names (oldest
    batch first, where the restore command goes newest first). *)
Theorem list_reads_the_batches_in_ascending_order :
  forall {filepath : Filepath} (W : World) (verbose : bool) (home : string)
         (entries : list DirEntry) (s s1 s2 : state W),
    let configDir := Join [home; ".config"; "trash"] in
    let names := map EntryName (filter EntryIsDir entries) in
    handle W UserHomeDir s = (inl home, s1) ->
    handle W (ReadDir configDir) s1 = (inl entries, s2) ->
    exists (trashDirs : list string) (s' : state W) (tr : list event),
      run W (listCmd_Run verbose) s = (Done tt, s', tr)
      /\ statted tr = map (sidecarOf configDir) trashDirs
      /\ Permutation names trashDirs
      /\ StronglySorted (fun a b => String.leb a b = true) trashDirs.
Proof.
  intros filepath W verbose home entries s s1 s2 configDir names Hhome Hdir.
  exists (sortStrings names).
  assert (Hperm : Permutation names (sortStrings names)) by apply sortBy_perm.
  assert (Hsorted : StronglySorted (fun a b => String.leb a b = true) (sortStrings names)).
  { apply sortBy_sorted; [apply String.leb_total | apply leb_trans]. }
  rewrite run_listCmd_Run, Hhome. cbv zeta. fold configDir. rewrite Hdir. fold names.
  destruct (sortStrings names) as [| d ds] eqn:Hsort.
  { do 2 eexists. split; [reflexivity |]. split; [reflexivity |]. split; assumption. }
  destruct (listEach_run W verbose configDir (d :: ds) 0 s2)
    as (total & s3 & tr & Hrun & _ & Hs & _).
  rewrite Hrun. do 2 eexists. split; [reflexivity |].
  split; [| split; assumption].
  cbn [app statted flat_map]. fold (statted (tr ++ [EvPrint Stdout
    (nl ++ "Total: " ++ itoa total ++ " item(s) in trash" ++ nl)])).
  rewrite statted_app, Hs. cbn [statted flat_map]. rewrite app_nil_r. reflexivity.
Qed.

(* ================================================================== *)
(** * The restore command as a whole *)
(* ================================================================== *)

Section Search.

Context {filepath : Filepath}.
Variable W : World.

Lemma load_trace restoreFile (s : state W) :
  exists l s' tr,
    run W (load restoreFile) s = (Done l, s', tr)
    /\ (tr = [EvCall (Stat restoreFile)]
        \/ tr = [EvCall (Stat restoreFile); EvCall (ReadFile restoreFile)]).
Proof.
  unfold load. cbn [bind call]. cbn [run].
  destruct (handle W (Stat restoreFile) s) as [r s1].
  destruct (match r with inr err => IsNotExist err | inl _ => false end).
  - cbn [run]. do 3 eexists. split; [reflexivity | left; reflexivity].
  - cbn [run]. destruct (handle W (ReadFile restoreFile) s1) as [[data [err |]] s2]; cbn [run].
    + do 3 eexists. split; [reflexivity | right; reflexivity].
    + destruct (json.Unmarshal data) as [metadata [err |]]; cbn [run];
        do 3 eexists; (split; [reflexivity | right; reflexivity]).
Qed.

Lemma findMatches_silent itemName ts configDir :
  forall trashDirs matches (s : state W) o s' tr,
    run W (findMatches itemName ts configDir trashDirs matches) s = (o, s', tr) ->
    forall fd, printed fd tr = [].
Proof.
  induction trashDirs as [| dirName rest IH]; intros matches s o s' tr Hrun fd.
  - inversion Hrun; subst. reflexivity.
  - cbn [findMatches] in Hrun.
    destruct (negb (String.eqb ts "") && negb (String.eqb dirName ts)).
    + eapply IH. exact Hrun.
    + rewrite run_bind in Hrun.
      destruct (load_trace (Join [Join [configDir; dirName]; ".restore"]) s)
        as (l & s1 & tr1 & Hload & Htr1).
      rewrite Hload in Hrun.
      assert (Hp : printed fd tr1 = []) by (destruct Htr1 as [-> | ->]; reflexivity).
      destruct l as [| err | err | metadata];
        match type of Hrun with context [run W ?p s1] =>
          destruct (run W p s1) as [[o2 s2] tr2] eqn:Hrest end;
        inversion Hrun; subst; rewrite printed_app, Hp; cbn [app];
        eapply IH; exact Hrest.
Qed.

Lemma findMatches_of_a_timestamp itemName ts configDir :
  ts <> "" ->
  forall trashDirs matches (s : state W),
  exists found s' tr,
    run W (findMatches itemName ts configDir trashDirs matches) s
    = (Done (matches ++ found)%list, s', tr)
    /\ Forall (fun m => Timestamp m = ts /\ Name (Item m) = itemName
                        /\ TrashDirPath m = Join [configDir; ts]) found
    /\ Forall (fun ev => ev = EvCall (Stat (sidecarOf configDir ts))
                         \/ ev = EvCall (ReadFile (sidecarOf configDir ts))) tr
    /\ (~ In ts trashDirs -> found = [] /\ tr = []).
Proof.
  intros Hts. induction trashDirs as [| dirName rest IH]; intros matches s.
  - exists [], s, []. rewrite app_nil_r. split; [reflexivity |].
    split; [constructor |]. split; [constructor |]. intros _. split; reflexivity.
  - cbn [findMatches].
    destruct (String.eqb ts "") eqn:Hempty; [apply String.eqb_eq in Hempty; contradiction |].
    cbn [negb andb].
    destruct (String.eqb dirName ts) eqn:Hdir; cbn [negb].
    + apply String.eqb_eq in Hdir. subst dirName. rewrite run_bind.
      destruct (load_trace (Join [Join [configDir; ts]; ".restore"]) s)
        as (l & s1 & tr1 & Hload & Htr1).
      rewrite Hload.
      assert (Hev : Forall (fun ev => ev = EvCall (Stat (sidecarOf configDir ts))
                                      \/ ev = EvCall (ReadFile (sidecarOf configDir ts))) tr1).
      { unfold sidecarOf.
        destruct Htr1 as [-> | ->]; repeat (apply Forall_cons || apply Forall_nil); auto. }
      assert (Hgo : forall here,
        Forall (fun m => Timestamp m = ts /\ Name (Item m) = itemName
                         /\ TrashDirPath m = Join [configDir; ts]) here ->
        exists found s' tr,
          (let '(o, s2, tr2) :=
             run W (findMatches itemName ts configDir rest (matches ++ here)%list) s1 in
           (o, s2, (tr1 ++ tr2)%list)) = (Done (matches ++ found)%list, s', tr)
          /\ Forall (fun m => Timestamp m = ts /\ Name (Item m) = itemName
                              /\ TrashDirPath m = Join [configDir; ts]) found
          /\ Forall (fun ev => ev = EvCall (Stat (sidecarOf configDir ts))
                               \/ ev = EvCall (ReadFile (sidecarOf configDir ts))) tr
          /\ (~ In ts (ts :: rest) -> found = [] /\ tr = [])).
      { intros here Hhere.
        destruct (IH (matches ++ here)%list s1) as (found & s' & tr & Hrun & Hm & Ht & _).
        rewrite Hrun. exists (here ++ found)%list, s', (tr1 ++ tr)%list.
        rewrite app_assoc. split; [reflexivity |].
        split; [apply Forall_app; split; assumption |].
        split; [apply Forall_app; split; assumption |].
        intros Hnot. exfalso. apply Hnot. left. reflexivity. }
      destruct l as [| err | err | metadata].
      1-3: destruct (Hgo [] (Forall_nil _)) as (found & s' & tr & Hrun & H);
           rewrite app_nil_r in Hrun; exists found, s', tr; split; [exact Hrun | exact H].
      rewrite matchItems_spec. apply Hgo.
      apply Forall_forall. intros m Hin. apply in_map_iff in Hin.
      destruct Hin as (item & <- & Hin). apply filter_In in Hin.
      destruct Hin as [_ Heq]. apply String.eqb_eq in Heq. cbn. auto.
    + destruct (IH matches s) as (found & s' & tr & Hrun & Hm & Ht & Hnone).
      exists found, s', tr. split; [exact Hrun |]. split; [exact Hm |].
      split; [exact Ht |]. intros Hnot. apply Hnone. intros Hin. apply Hnot.
      right. exact Hin.
Qed.

End Search.

(** X17.  The restore of a name that no sidecar has on record prints
    "Error: item '...' not found in trash" and exits with status 1; it
    has only read: no call changes the file system, and nothing else is
    printed. *)
Theorem restore_of_a_name_not_on_record_changes_nothing :
  forall {filepath : Filepath} (W : World) (depth : nat) (verbose force showAll : bool)
         (specifiedTimestamp itemName home : string) (entries : list DirEntry)
         (s s1 s2 s3 : state W) (tr : list event),
    let configDir := Join [home; ".config"; "trash"] in
    handle W UserHomeDir s = (inl home, s1) ->
    handle W (ReadDir configDir) s1 = (inl entries, s2) ->
    run W (findMatches itemName specifiedTimestamp configDir
             (sortReverse (dirNames entries [])) []) s2 = (Done [], s3, tr) ->
    exists tr' : list event,
      run W (restoreCmd_Run depth verbose force showAll specifiedTimestamp itemName) s
      = (Exited 1, s3, tr')
      /\ quiet tr'
      /\ printed Stdout tr' = []
      /\ printed Stderr tr' = ["Error: item '" ++ itemName ++ "' not found in trash" ++ nl].
Proof.
  intros filepath W depth verbose force showAll ts itemName home entries s s1 s2 s3 tr
         configDir Hhome Hdir Hfind.
  destruct (findMatches_run W itemName ts configDir
              (sortReverse (dirNames entries [])) [] s2)
    as (found & s3' & tr0 & Hrun & Hq & _).
  rewrite Hfind in Hrun. inversion Hrun; subst found s3' tr0. clear Hrun.
  pose proof (findMatches_silent W itemName ts configDir _ _ _ _ _ _ Hfind) as Hsilent.
  unfold restoreCmd_Run. rewrite run_bind, run_GetConfigDir, Hhome.
  cbn [bind call]. cbn [run]. fold configDir. rewrite Hdir.
  rewrite run_bind, Hfind. unfold restoreMatches. cbn [length Nat.eqb print bind run].
  eexists. split; [reflexivity |]. split; [| split].
  - repeat constructor. apply quiet_app; [exact Hq | repeat constructor].
  - cbn [app printed]. rewrite printed_app, Hsilent. reflexivity.
  - cbn [app printed]. rewrite printed_app, Hsilent. reflexivity.
Qed.

(** X18.  With --timestamp the search looks at the one batch named: its
    only calls are [os.Stat] and [os.ReadFile] on the sidecar of that
    batch, every match it returns lies in that batch and bears the name
    asked for, and when no batch directory has that name it makes no
    call and finds nothing. *)
Theorem restore_with_a_timestamp_looks_at_that_batch_only :
  forall {filepath : Filepath} (W : World)
         (itemName specifiedTimestamp configDir : string) (trashDirs : list string)
         (s : state W),
    specifiedTimestamp <> "" ->
    exists (found : list MatchedItem) (s' : state W) (tr : list event),
      run W (findMatches itemName specifiedTimestamp configDir trashDirs []) s
      = (Done found, s', tr)
      /\ Forall (fun m => Timestamp m = specifiedTimestamp /\ Name (Item m) = itemName
                          /\ TrashDirPath m = Join [configDir; specifiedTimestamp]) found
      /\ Forall (fun ev =>
                   ev = EvCall (Stat (sidecarOf configDir specifiedTimestamp))
                   \/ ev = EvCall (ReadFile (sidecarOf configDir specifiedTimestamp))) tr
      /\ (~ In specifiedTimestamp trashDirs -> found = [] /\ tr = []).
Proof.
  intros filepath W itemName ts configDir trashDirs s Hts.
  destruct (findMatches_of_a_timestamp W itemName ts configDir Hts trashDirs [] s)
    as (found & s' & tr & Hrun & H).
  exists found, s', tr. split; [exact Hrun | exact H].
Qed.

Section Showing.

Variable W : World.

Lemma showEach_lines :
  forall matches i (s : state W),
  exists tr,
    run W (showEach i matches) s = (Done tt, s, tr)
    /\ printed Stderr tr = []
    /\ length (printed Stdout tr) = 3 * length matches
    /\ forall k m, nth_error matches k = Some m ->
         nth_error (printed Stdout tr) (3 * k)
         = Some (itoa (i + k + 1) ++ ". [" ++ Timestamp m ++ "]" ++ nl)
         /\ nth_error (printed Stdout tr) (3 * k + 1)
            = Some ("   Original: " ++ OriginalPath (Item m) ++ nl)
         /\ nth_error (printed Stdout tr) (3 * k + 2)
            = Some ("   Trashed:  " ++ TrashedAt (Item m) ++ nl ++ nl).
Proof.
  induction matches as [| m0 rest IH]; intros i s.
  - exists []. split; [reflexivity |]. split; [reflexivity |]. split; [reflexivity |].
    intros k m H. destruct k; discriminate.
  - destruct (IH (S i) s) as (tr & Hrun & Herr & Hlen & Hnth).
    cbn [showEach print bind run]. rewrite Hrun.
    eexists. split; [reflexivity |]. cbn [printed].
    split; [exact Herr |]. split; [cbn [length]; lia |].
    intros k m H. destruct k as [| k].
    + cbn in H. inversion H; subst m0. rewrite Nat.add_0_r. repeat split.
    + cbn [nth_error] in H. destruct (Hnth k m H) as (H1 & H2 & H3).
      replace (3 * S k) with (S (S (S (3 * k)))) by lia. cbn [Nat.add nth_error].
      replace (i + S k + 1) with (S i + k + 1) by lia.
      split; [exact H1 |]. split; assumption.
Qed.

End Showing.

(** X20.  The listing under --all shows every match in turn: after the
    heading come three lines for each match, in the order of the search
    (newest batch first), numbered from 1, with the batch, the original
    path and the time of trashing of that match; two closing lines
    follow, and nothing goes to standard error. *)
Theorem restore_all_shows_every_match_in_turn :
  forall (W : World) (itemName : string) (matches : list MatchedItem) (s : state W),
  exists tr : list event,
    run W (showMatches itemName matches) s = (Done tt, s, tr)
    /\ printed Stderr tr = []
    /\ length (printed Stdout tr) = 3 * length matches + 3
    /\ forall (k : nat) (m : MatchedItem),
         nth_error matches k = Some m ->
         nth_error (printed Stdout tr) (1 + 3 * k)
         = Some (itoa (k + 1) ++ ". [" ++ Timestamp m ++ "]" ++ nl)
         /\ nth_error (printed Stdout tr) (1 + 3 * k + 1)
            = Some ("   Original: " ++ OriginalPath (Item m) ++ nl)
         /\ nth_error (printed Stdout tr) (1 + 3 * k + 2)
            = Some ("   Trashed:  " ++ TrashedAt (Item m) ++ nl ++ nl).
Proof.
  intros W itemName matches s.
  destruct (showEach_lines W matches 0 s) as (tr & Hrun & Herr & Hlen & Hnth).
  unfold showMatches. cbn [print bind run]. rewrite run_bind, Hrun. cbn [print bind run].
  eexists. split; [reflexivity |]. cbn [printed]. rewrite !printed_app. cbn [printed].
  split; [rewrite Herr; reflexivity |].
  split; [cbn [length]; rewrite length_app, Hlen; cbn [length]; lia |].
  intros k m H. destruct (Hnth k m H) as (H1 & H2 & H3). cbn [Nat.add nth_error].
  assert (Hk : 3 * k + 2 < length (printed Stdout tr)).
  { rewrite Hlen. assert (k < length matches); [| lia].
    apply nth_error_Some. rewrite H. discriminate. }
  rewrite !nth_error_app1 by lia.
  split; [exact H1 |]. split; assumption.
Qed.

(** X21.  In the restore, a failure to remove the item from the batch
    after it has been copied back is a warning, not an error (unlike the
    same failure in the trash command): the transfer returns, so the
    command goes on to take the item off the record although its file is
    still in the batch. *)
Theorem restore_only_warns_when_the_copied_item_stays_in_the_batch :
  forall {filepath : Filepath} (W : World) (depth : nat) (verbose : bool)
         (itemName sourcePath destPath : string) (sourceInfo : FileInfo)
         (e err : error) (s s1 s2 s3 s4 : state W) (trc : list event),
    handle W (Rename sourcePath destPath) s = (Some e, s1) ->
    handle W (Stat sourcePath) s1 = (inl sourceInfo, s2) ->
    run W (fallbackCopy depth sourceInfo sourcePath destPath) s2 = (Done None, s3, trc) ->
    handle W (RemoveAll sourcePath) s3 = (Some err, s4) ->
    run W (transfer depth verbose itemName sourcePath destPath) s
    = (Done tt, s4,
       ([EvCall (Rename sourcePath destPath); EvCall (Stat sourcePath)] ++ trc
          ++ [EvCall (RemoveAll sourcePath);
              EvPrint Stderr ("Warning: failed to remove from trash: " ++ Error err ++ nl)]
          ++ (if verbose
              then [EvPrint Stdout ("Restored (copied): " ++ itemName ++ " -> "
                                      ++ destPath ++ nl)]
              else []))%list).
Proof.
  intros filepath W depth verbose itemName sourcePath destPath sourceInfo e err
         s s1 s2 s3 s4 trc Hmv Hstat Hcopy Hrm.
  unfold transfer. cbn [bind call]. cbn [run]. rewrite Hmv. cbn [run]. rewrite Hstat.
  rewrite run_bind. unfold fallbackCopy in Hcopy.
  destruct (IsDir sourceInfo); rewrite run_bind, Hcopy; cbn [run bind call];
    rewrite Hrm; cbn [run print bind]; rewrite run_when_print;
    rewrite <- ?app_assoc; cbn [app]; rewrite <- ?app_assoc; reflexivity.
Qed.

(** X22.  The update after a restore, on a sidecar as the program saves
    it (for a record whose strings are valid UTF-8): the items read back
    are the items saved, so the sidecar is written again with exactly
    the saved items of other names, in their order, or the batch is
    removed when there is none.  An error that [os.ReadFile] returns
    with the text changes nothing. *)
Theorem update_of_a_saved_sidecar_keeps_the_other_items :
  forall {filepath : Filepath} (W : World) (verbose : bool) (itemName : string)
         (m : MatchedItem) (metadata : RestoreMetadata) (s s1 : state W)
         (e0 : option error),
    let trashDir := TrashDirPath m in
    let restoreFile := Join [trashDir; ".restore"] in
    let remaining := others itemName (elems (Items metadata)) in
    validMetadata metadata = true ->
    handle W (ReadFile restoreFile) s = ((fst (json.MarshalIndent metadata), e0), s1) ->
    run W (updateMetadata verbose itemName m) s
    = after [EvCall (ReadFile restoreFile)]
        match remaining with
        | [] =>
          let '(e, s2) := handle W (RemoveAll trashDir) s1 in
          (Done tt, s2,
           (EvCall (RemoveAll trashDir) :: removalWarning e
              ++ removedNote verbose (Timestamp m))%list)
        | _ :: _ =>
          let '(e, s2) := handle W (WriteFile restoreFile (sidecarText remaining) 420) s1 in
          (Done tt, s2,
           (EvCall (WriteFile restoreFile (sidecarText remaining) 420) :: saveWarning e)%list)
        end.
Proof.
  intros filepath W verbose itemName m metadata s s1 e0 trashDir restoreFile remaining
         Hvalid Hread.
  rewrite run_updateMetadata. cbv zeta. fold trashDir restoreFile. rewrite Hread.
  unfold updated, recorded.
  rewrite (sidecar_facts.Unmarshal_MarshalIndent metadata Hvalid). cbn [fst].
  fold trashDir restoreFile remaining.
  destruct remaining as [| item rest]; reflexivity.
Qed.

(** X23.  The restore undoes the rename of the trash command.  When the
    trash command moves a path by [os.Rename], the item it records bears
    the base name and the absolute path; the restore of that item, with
    the destination free, asks [os.Rename] for exactly the opposite
    move, from the place in the batch to the absolute path, after
    ensuring the parent directory. *)
Theorem restore_renames_back_what_trash_renamed :
  forall {filepath : Filepath} (W : World) (depth : nat) (verbose : bool)
         (path trashDir timestamp absPath trashedAt : string) (sourceInfo : FileInfo)
         (s s1 s2 s3 s4 s5 : state W) (tr0 : list event),
    let inBatch := Join [trashDir; Base absPath] in
    let item := mkItem (Base absPath) absPath trashedAt in
    absOf W path s = (absPath, s1, tr0) ->
    handle W (Abs path) s1 = (inl absPath, s2) ->
    handle W (Stat absPath) s2 = (inl sourceInfo, s3) ->
    handle W (Rename absPath inBatch) s3 = (None, s4) ->
    handle W (Now RFC3339) s4 = (trashedAt, s5) ->
    run W (trashEach depth verbose trashDir [path] 0 [] (mkMetadata (Some []))) s
    = (Done (1, [], mkMetadata (Some [item])), s5,
       (tr0 ++ [EvCall (Abs path); EvCall (Stat absPath); EvCall (Rename absPath inBatch)]
            ++ movedNote verbose path ++ [EvCall (Now RFC3339)])%list)
    /\ forall (verbose' force : bool) (err : error) (s6 s7 s8 s9 : state W),
         handle W (Stat absPath) s6 = (inr err, s7) ->
         handle W (MkdirAll (Dir absPath) 493) s7 = (None, s8) ->
         handle W (Rename inBatch absPath) s8 = (None, s9) ->
         run W (moveOut depth verbose' force (Name item) (mkMatch timestamp item trashDir)) s6
         = (Done tt, s9,
            ([EvCall (Stat absPath); EvCall (MkdirAll (Dir absPath) 493);
              EvCall (Rename inBatch absPath)]
               ++ restoredNote verbose' (Name item) absPath)%list).
Proof.
  intros filepath W depth verbose path trashDir timestamp absPath trashedAt sourceInfo
         s s1 s2 s3 s4 s5 tr0 inBatch item Habs0 Habs Hstat Hmv Hnow.
  split.
  - rewrite run_trashEach_cons, Habs0.
    assert (Hmove : run W (MoveToTrash depth path trashDir) s1
                    = (Done (Base absPath, None), s4,
                       [EvCall (Abs path); EvCall (Stat absPath);
                        EvCall (Rename absPath inBatch)])).
    { unfold MoveToTrash. cbn [bind call]. cbn [run]. rewrite Habs. cbn [run].
      rewrite Hstat. cbn [run]. fold inBatch. rewrite Hmv. reflexivity. }
    rewrite Hmove, Hnow. cbn [trashEach run after append Items elems app].
    rewrite app_nil_r. reflexivity.
  - intros verbose' force err s6 s7 s8 s9 Hfree Hmk Hback.
    pose proof (run_moveOut W depth verbose' force (Name item)
                  (mkMatch timestamp item trashDir) s6) as Hrun.
    cbv zeta in Hrun. subst item. cbn [Item OriginalPath TrashDirPath Name] in Hrun |- *.
    rewrite Hfree in Hrun. rewrite Hrun. unfold ensuredThenTransferred.
    rewrite Hmk. unfold transfer. cbn [bind call]. cbn [run]. fold inBatch.
    rewrite Hback. rewrite run_when_print. reflexivity.
Qed.

Section Leaving.

Context {filepath : Filepath}.
Variable W : World.
Variable depth : nat.

Lemma transfer_exits_with_status_1 verbose itemName sourcePath destPath
      (s s' : state W) c tr :
  run W (transfer depth verbose itemName sourcePath destPath) s = (Exited c, s', tr) ->
  c = 1%Z.
Proof.
  unfold transfer. cbn [bind call]. cbn [run].
  destruct (handle W (Rename sourcePath destPath) s) as [[e |] s1].
  2: { rewrite run_when_print. discriminate. }
  cbn [run]. destruct (handle W (Stat sourcePath) s1) as [[sourceInfo | err] s2].
  2: { cbn [run print bind]. intros H. inversion H. reflexivity. }
  rewrite run_bind.
  assert (Hcopy : forall (p : prog (option error)) (what : string),
             (forall c', fst (fst (run W p s2)) <> Exited c') ->
             forall r,
               run W (e1 <- p ;;
                      match e1 with
                      | Some err => print Stderr (what ++ Error err ++ nl) ;; Exit 1
                      | None => Ret tt
                      end) s2 = r ->
               forall c', fst (fst r) = Exited c' -> c' = 1%Z).
  { intros p what Hp r Hr c' Hc. subst r. rewrite run_bind in Hc.
    destruct (run W p s2) as [[[[err |] | c'' |] s3] tr3]; cbn in Hc.
    - inversion Hc. reflexivity.
    - discriminate.
    - exfalso. apply (Hp c''). reflexivity.
    - discriminate. }
  match goal with |- context [run W (if IsDir sourceInfo then ?a else ?b) s2] =>
    destruct (run W (if IsDir sourceInfo then a else b) s2) as [[[[] | c1 |] s3] tr3] eqn:Hstep
  end.
  - cbn [bind call]. cbn [run]. destruct (handle W (RemoveAll sourcePath) s3) as [[err |] s4];
      cbn [run print bind]; rewrite ?run_when_print; discriminate.
  - intros H. inversion H; subst c1. clear H.
    destruct (IsDir sourceInfo).
    + eapply (Hcopy (CopyDir depth sourcePath destPath) "Error copying directory: ");
        [| exact Hstep | reflexivity].
      intros c'. unfold CopyDir.
      destruct (CopyDirN_confined W depth sourcePath destPath s2) as (o & s5 & tr5 & Hr & _ & Hx).
      rewrite Hr. apply Hx.
    + eapply (Hcopy (CopyFile sourcePath destPath) "Error copying file: ");
        [| exact Hstep | reflexivity].
      intros c'.
      destruct (CopyFile_confined W sourcePath destPath s2) as (e' & s5 & tr5 & Hr & _).
      rewrite Hr. discriminate.
  - discriminate.
Qed.

Lemma moveOut_exits_with_status_1 verbose force itemName m (s s' : state W) c tr :
  run W (moveOut depth verbose force itemName m) s = (Exited c, s', tr) -> c = 1%Z.
Proof.
  intros Hrun.
  assert (Hens : forall (s0 s0' : state W) c0 tr0,
             ensuredThenTransferred W depth verbose itemName
               (Join [TrashDirPath m; itemName]) (OriginalPath (Item m)) s0
             = (Exited c0, s0', tr0) -> c0 = 1%Z).
  { intros s0 s0' c0 tr0. unfold ensuredThenTransferred.
    destruct (handle W (MkdirAll (Dir (OriginalPath (Item m))) 493) s0) as [[err |] s1].
    - intros H. inversion H. reflexivity.
    - destruct (run W (transfer depth verbose itemName (Join [TrashDirPath m; itemName])
                         (OriginalPath (Item m))) s1) as [[o s2] tr2] eqn:Ht.
      cbn [after]. intros H. inversion H; subst.
      eapply transfer_exits_with_status_1. exact Ht. }
  pose proof (run_moveOut W depth verbose force itemName m s) as H. cbv zeta in H.
  destruct (handle W (Stat (OriginalPath (Item m))) s) as [[info | err] s1].
  - destruct force.
    + destruct (handle W (RemoveAll (OriginalPath (Item m))) s1) as [[err |] s2].
      * rewrite H in Hrun. inversion Hrun. reflexivity.
      * rewrite H in Hrun.
        destruct (ensuredThenTransferred W depth verbose itemName
                    (Join [TrashDirPath m; itemName]) (OriginalPath (Item m)) s2)
          as [[o s3] tr3] eqn:He.
        cbn [after] in Hrun. inversion Hrun; subst. eapply Hens. exact He.
    + rewrite H in Hrun. inversion Hrun. reflexivity.
  - rewrite H in Hrun.
    destruct (ensuredThenTransferred W depth verbose itemName
                (Join [TrashDirPath m; itemName]) (OriginalPath (Item m)) s1)
      as [[o s3] tr3] eqn:He.
    cbn [after] in Hrun. inversion Hrun; subst. eapply Hens. exact He.
Qed.

Lemma updateMetadata_returns verbose itemName m (s : state W) :
  exists s' tr, run W (updateMetadata verbose itemName m) s = (Done tt, s', tr).
Proof.
  rewrite run_updateMetadata. cbv zeta.
  destruct (handle W (ReadFile (Join [TrashDirPath m; ".restore"])) s) as [[data e0] s1].
  unfold updated.
  destruct (others itemName (recorded data)).
  - destruct (handle W (RemoveAll (TrashDirPath m)) s1) as [e s2].
    do 2 eexists. reflexivity.
  - match goal with |- context [handle W ?op s1] => destruct (handle W op s1) as [e s2] end.
    do 2 eexists. reflexivity.
Qed.

End Leaving.

(** X26.  A restore that fails leaves the record alone.  Whenever the
    restore of a match ends through [os.Exit], the status is 1 and the
    exit happened during the transfer (an occupied destination, a
    failed removal of it, a parent that cannot be made, a source that
    cannot be read or copied): the metadata update was not started, so
    the sidecar still lists the item.  The update itself never ends the
    command. *)
Theorem restore_that_fails_leaves_the_record_alone :
  forall {filepath : Filepath} (W : World) (depth : nat) (verbose force : bool)
         (itemName : string) (m : MatchedItem) (s s' : state W) (c : Z)
         (tr : list event),
    run W (restoreMatch depth verbose force itemName m) s = (Exited c, s', tr) ->
    c = 1%Z
    /\ run W (moveOut depth verbose force itemName m) s = (Exited c, s', tr).
Proof.
  intros filepath W depth verbose force itemName m s s' c tr Hrun.
  unfold restoreMatch in Hrun. rewrite run_bind in Hrun.
  destruct (run W (moveOut depth verbose force itemName m) s) as [[[[] | c1 |] s1] tr1] eqn:Hmove.
  - exfalso. rewrite run_bind in Hrun.
    destruct (updateMetadata_returns W verbose itemName m s1) as (s2 & tr2 & Hup).
    rewrite Hup in Hrun. cbn [run print] in Hrun. discriminate.
  - inversion Hrun; subst c1 s1 tr1. split; [| reflexivity].
    eapply moveOut_exits_with_status_1. exact Hmove.
  - discriminate.
Qed.

(** X27.  With --timestamp and without --all, the restore command
    restores from the batch named, also when newer batches hold the
    name: the first match lies in that batch, and the command goes on as
    the restore of that match, without the announcement it prints when
    it chooses the most recent of several. *)
Theorem restore_with_a_timestamp_restores_from_that_batch :
  forall {filepath : Filepath} (W : World) (depth : nat) (verbose force : bool)
         (specifiedTimestamp itemName home : string) (entries : list DirEntry)
         (m : MatchedItem) (rest : list MatchedItem)
         (s s1 s2 s3 : state W) (tr : list event),
    let configDir := Join [home; ".config"; "trash"] in
    specifiedTimestamp <> "" ->
    handle W UserHomeDir s = (inl home, s1) ->
    handle W (ReadDir configDir) s1 = (inl entries, s2) ->
    run W (findMatches itemName specifiedTimestamp configDir
             (sortReverse (dirNames entries [])) []) s2 = (Done (m :: rest), s3, tr) ->
    Timestamp m = specifiedTimestamp
    /\ Name (Item m) = itemName
    /\ TrashDirPath m = Join [configDir; specifiedTimestamp]
    /\ run W (restoreCmd_Run depth verbose force false specifiedTimestamp itemName) s
       = after ([EvCall UserHomeDir; EvCall (ReadDir configDir)] ++ tr)%list
               (run W (restoreMatch depth verbose force itemName m) s3).
Proof.
  intros filepath W depth verbose force ts itemName home entries m rest s s1 s2 s3 tr
         configDir Hts Hhome Hdir Hfind.
  destruct (findMatches_run W itemName ts configDir
              (sortReverse (dirNames entries [])) [] s2)
    as (found & s3' & tr0 & Hrun & _ & Hm & _).
  rewrite Hfind in Hrun. cbn [app] in Hrun. inversion Hrun; subst found s3' tr0. clear Hrun.
  inversion Hm as [| ? ? Hm0 _]; subst. destruct Hm0 as (Hin & Hname & Hpath & Hstamp).
  specialize (Hstamp Hts).
  split; [exact Hstamp |]. split; [exact Hname |].
  split; [rewrite Hpath, Hstamp; reflexivity |].
  unfold restoreCmd_Run. rewrite run_bind, run_GetConfigDir, Hhome.
  cbn [bind call]. cbn [run]. fold configDir. rewrite Hdir.
  rewrite run_bind, Hfind. unfold restoreMatches. cbv zeta. cbn [length Nat.eqb hd].
  assert (Hne : String.eqb ts "" = false) by (apply String.eqb_neq; exact Hts).
  destruct (run W (restoreMatch depth verbose force itemName m) s3) as [[o s'] tr'] eqn:Hr.
  destruct (1 <? S (length rest))%nat.
  - rewrite Hne. cbn [when bind]. rewrite Hr. reflexivity.
  - rewrite Hr. reflexivity.
Qed.


(* ================================================================== *)
(** * The --verbose flag *)
(* ================================================================== *)

Section Alike.

Variable W : World.

Lemma unheard_app tr1 tr2 : unheard (tr1 ++ tr2) = (unheard tr1 ++ unheard tr2)%list.
Proof. unfold unheard. apply filter_app. Qed.

Lemma alike_refl A (p : prog A) : alike W p p.
Proof. intros s. repeat split. Qed.

Lemma alike_bind A B (p q : prog A) (f g : A -> prog B) :
  alike W p q -> (forall a, alike W (f a) (g a)) -> alike W (bind p f) (bind q g).
Proof.
  intros Hpq Hfg s. rewrite !run_bind. destruct (Hpq s) as (Ho & Hs & Ht).
  destruct (run W p s) as [[o1 s1] tr1]. destruct (run W q s) as [[o2 s2] tr2].
  cbn [fst snd] in Ho, Hs, Ht. subst o2 s2.
  destruct o1 as [a | c |]; cbn [fst snd]; try (repeat split; assumption).
  destruct (Hfg a s1) as (Ho' & Hs' & Ht').
  destruct (run W (f a) s1) as [[o3 s3] tr3]. destruct (run W (g a) s1) as [[o4 s4] tr4].
  cbn [fst snd] in *. subst o4 s4. repeat split. rewrite !unheard_app, Ht, Ht'. reflexivity.
Qed.

Lemma alike_call A X (op : Op X) (f g : X -> prog A) :
  (forall x, alike W (f x) (g x)) -> alike W (bind (call op) f) (bind (call op) g).
Proof. intros H. apply alike_bind; [apply alike_refl | exact H]. Qed.

Lemma alike_note A (b b' : bool) (t t' : string) (p q : prog A) :
  alike W p q ->
  alike W (when b (print Stdout t) ;; p) (when b' (print Stdout t') ;; q).
Proof.
  intros H s. rewrite !run_bind, !run_when_print. destruct (H s) as (Ho & Hs & Ht).
  destruct (run W p s) as [[o1 s1] tr1]. destruct (run W q s) as [[o2 s2] tr2].
  cbn [fst snd] in *. subst o2 s2. repeat split.
  rewrite !unheard_app, Ht. destruct b, b'; reflexivity.
Qed.

Lemma alike_note_end (b b' : bool) (t t' : string) :
  alike W (when b (print Stdout t)) (when b' (print Stdout t')).
Proof. intros s. rewrite !run_when_print. destruct b, b'; repeat split. Qed.

Lemma alike_said A (t t' : string) (p q : prog A) :
  alike W p q -> alike W (print Stdout t ;; p) (print Stdout t' ;; q).
Proof. apply (alike_note A true true). Qed.

End Alike.

Section Verbose.

Context {filepath : Filepath}.
Variable W : World.
Variable depth : nat.

Lemma trashEach_alike trashDir :
  forall args successCount failedPaths metadata,
    alike W (trashEach depth true trashDir args successCount failedPaths metadata)
            (trashEach depth false trashDir args successCount failedPaths metadata).
Proof.
  induction args as [| path rest IH]; intros successCount failedPaths metadata.
  - apply alike_refl.
  - cbn [trashEach]. apply alike_call. intros wd.
    apply alike_bind; [apply alike_refl |]. intros absPath.
    apply alike_bind; [apply alike_refl |]. intros [baseName [e |]].
    + apply alike_bind; [apply alike_refl |]. intros _. apply IH.
    + apply alike_note. apply alike_call. intros trashedAt. apply IH.
Qed.

Lemma rootCmd_Run_alike args :
  alike W (rootCmd_Run depth true args) (rootCmd_Run depth false args).
Proof.
  unfold rootCmd_Run. destruct (length args =? 0)%nat; [apply alike_refl |].
  apply alike_bind; [apply alike_refl |]. intros [trashDir [e |]]; [apply alike_refl |].
  apply alike_note. apply alike_bind; [apply trashEach_alike |].
  intros [[successCount failedPaths] metadata]. apply alike_refl.
Qed.

Lemma listItems_alike :
  forall items totalItems,
    alike W (listItems true items totalItems) (listItems false items totalItems).
Proof.
  induction items as [| item rest IH]; intros totalItems; [apply alike_refl |].
  cbn [listItems]. intros s. rewrite !run_bind. cbn [print bind run].
  destruct (IH (S totalItems) s) as (Ho & Hs & Ht).
  destruct (run W (listItems true rest (S totalItems)) s) as [[o1 s1] tr1].
  destruct (run W (listItems false rest (S totalItems)) s) as [[o2 s2] tr2].
  cbn [fst snd] in *. subst o2 s2. repeat split. exact Ht.
Qed.

Lemma listEach_alike configDir :
  forall trashDirs totalItems,
    alike W (listEach true configDir trashDirs totalItems)
            (listEach false configDir trashDirs totalItems).
Proof.
  induction trashDirs as [| dirName rest IH]; intros totalItems; [apply alike_refl |].
  cbn [listEach]. apply alike_bind; [apply alike_refl |].
  intros [| err | err | metadata]; try (apply alike_note; apply IH).
  destruct (0 <? len (Items metadata))%nat; [| apply IH].
  apply alike_said. apply alike_bind; [apply listItems_alike |]. intros total. apply IH.
Qed.

Lemma listCmd_Run_alike : alike W (listCmd_Run true) (listCmd_Run false).
Proof.
  unfold listCmd_Run. apply alike_bind; [apply alike_refl |].
  intros [configDir [e |]]; [apply alike_refl |].
  apply alike_call. intros [entries | e]; [| apply alike_refl].
  cbv zeta. destruct (length (sortStrings (dirNames entries [])) =? 0)%nat;
    [apply alike_refl |].
  apply alike_bind; [apply listEach_alike |]. intros total. apply alike_refl.
Qed.

Lemma restoreMatch_alike force itemName m :
  alike W (restoreMatch depth true force itemName m)
          (restoreMatch depth false force itemName m).
Proof.
  unfold restoreMatch. apply alike_bind.
  - unfold moveOut. apply alike_bind.
    + unfold prepareDestination. apply alike_call. intros [info | e]; [| apply alike_refl].
      destruct (negb force); [apply alike_refl |].
      apply alike_note. apply alike_refl.
    + intros _. apply alike_bind; [apply alike_refl |]. intros _.
      unfold transfer. apply alike_call. intros [e |].
      * apply alike_call. intros [sourceInfo | e']; [| apply alike_refl].
        apply alike_bind; [apply alike_refl |]. intros _.
        apply alike_call. intros e2.
        apply alike_bind; [apply alike_refl |]. intros _. apply alike_note_end.
      * apply alike_note_end.
  - intros _. apply alike_bind; [| intros _; apply alike_refl].
    unfold updateMetadata. apply alike_call. intros [data e0]. cbv zeta.
    destruct (json.Unmarshal data) as [metadata err].
    match goal with |- context [if ?c then _ else _] => destruct c end;
      [| apply alike_refl].
    apply alike_call. intros e.
    apply alike_bind; [apply alike_refl |]. intros _. apply alike_note_end.
Qed.

Lemma restoreCmd_Run_alike force showAll specifiedTimestamp itemName :
  alike W (restoreCmd_Run depth true force showAll specifiedTimestamp itemName)
          (restoreCmd_Run depth false force showAll specifiedTimestamp itemName).
Proof.
  unfold restoreCmd_Run. apply alike_bind; [apply alike_refl |].
  intros [configDir [e |]]; [apply alike_refl |].
  apply alike_call. intros [entries | e]; [| apply alike_refl].
  cbv zeta. apply alike_bind; [apply alike_refl |]. intros matches.
  unfold restoreMatches. destruct (length matches =? 0)%nat; [apply alike_refl |].
  cbv zeta. destruct (1 <? length matches)%nat; [| apply restoreMatch_alike].
  destruct showAll; [apply alike_refl |].
  apply alike_bind; [apply alike_refl |]. intros _. apply restoreMatch_alike.
Qed.

End Verbose.

(** X24.  The --verbose flag changes nothing but what is printed on
    standard output: for the trash, list and restore commands, from
    every state and whatever the calls answer, the run with the flag and
    the run without it have the same outcome and exit status, the same
    final state, the same calls in the same order and the same lines on
    standard error. *)
Theorem verbose_changes_standard_output_only :
  forall {filepath : Filepath} (W : World) (depth : nat),
    (forall args : list string,
        alike W (rootCmd_Run depth true args) (rootCmd_Run depth false args))
    /\ alike W (listCmd_Run true) (listCmd_Run false)
    /\ (forall (force showAll : bool) (specifiedTimestamp itemName : string),
           alike W (restoreCmd_Run depth true force showAll specifiedTimestamp itemName)
                   (restoreCmd_Run depth false force showAll specifiedTimestamp itemName)).
Proof.
  intros filepath W depth. split; [| split].
  - intros args. apply rootCmd_Run_alike.
  - apply listCmd_Run_alike.
  - intros force showAll specifiedTimestamp itemName. apply restoreCmd_Run_alike.
Qed.

(* ================================================================== *)
(** * Runs in the small file system *)
(* ================================================================== *)

Module Witness.

Import Sim Scenario.

(** a.txt lies in two batches; the restore brings back the one trashed
    last and leaves the older one in its batch. *)
Lemma restore_takes_the_most_recent_batch_witness :
  exists (s' : fs) (tr : list event),
    run world (restoreCmd_Run 0 false false false "" "a.txt") twice = (Done tt, s', tr)
    /\ find s' "/data/a.txt" = Some (FileNode "second" 420)
    /\ find s' (batch1 ++ "/a.txt") = Some (FileNode "first" 420).
Proof.
  destruct (@restore_takes_the_most_recent_batch paths world 0 false false
              "a.txt" "/home/u"
              [mkEntry "20250101_000000" true; mkEntry "20250102_000000" true]
              twoMatches twice twice twice twice
              [EvCall (Stat (batch2 ++ "/.restore")); EvCall (ReadFile (batch2 ++ "/.restore"));
               EvCall (Stat (batch1 ++ "/.restore")); EvCall (ReadFile (batch1 ++ "/.restore"))])
    as (m & rest & Heq & _ & _ & _ & _ & _ & Hrun & _).
  - (* os.UserHomeDir *) reflexivity.
  - (* os.ReadDir *) vm_compute. reflexivity.
  - (* the search *) vm_compute. reflexivity.
  - (* matches in two batches *)
    exists (matchA batch2 "20250102_000000" "2025-01-02T00:00:00Z"),
           (matchA batch1 "20250101_000000" "2025-01-01T00:00:00Z").
    split; [left; reflexivity |]. split; [right; left; reflexivity |]. discriminate.
  - injection Heq as <- _. rewrite Hrun.
    do 2 eexists. split; [vm_compute; reflexivity |].
    split; vm_compute; reflexivity.
Defined.

(** ** A locked file *)

(** C2, as stated, fails on a locked file.  [os.Rename] fails, the copy
    into the batch is made, [os.Remove] fails; [MoveToTrash] then returns
    an error and the empty name, not the base name, and the trash command
    counts the path as failed: it reports no success and exits with
    status 1. *)
Lemma MoveToTrash_failed_removal_counterexample :
  fst (handle world (Rename "/data/b.txt" (newBatch ++ "/b.txt")) started) = Some EPERM
  /\ run world (CopyFile "/data/b.txt" (newBatch ++ "/b.txt")) started
     = (Done None, copied, copying)
  /\ find copied (newBatch ++ "/b.txt") = Some (FileNode "beta" 420)
  /\ fst (handle world (Remove "/data/b.txt") copied) = Some EPERM
  /\ fst (fst (run world (MoveToTrash 0 "b.txt" newBatch) started))
     = Done ("", Some (Errorf
          "failed to remove original file /data/b.txt: operation not permitted"))
  /\ fst (fst (run world (MoveToTrash 0 "b.txt" newBatch) started))
     <> Done (Base "/data/b.txt", None)
  /\ (let '(o, s', tr) := run world (rootCmd_Run 0 false ["b.txt"]) fresh in
      o = Exited 1
      /\ printed Stdout tr = []
      /\ printed Stderr tr
         = ["Error: failed to remove original file /data/b.txt: operation not permitted" ++ nl;
            "Failed to trash 1 item(s)" ++ nl]
      /\ find s' (newBatch ++ "/b.txt") = Some (FileNode "beta" 420)
      /\ find s' (newBatch ++ "/.restore") = None).
Proof.
  repeat split; try (vm_compute; reflexivity).
  vm_compute. discriminate.
Qed.

Lemma MoveToTrash_reports_a_failed_removal_as_an_error_witness :
  run world (MoveToTrash 0 "b.txt" newBatch) started
  = (Done ("", Some (Errorf
        "failed to remove original file /data/b.txt: operation not permitted")),
     copied,
     ([EvCall (Abs "b.txt"); EvCall (Stat "/data/b.txt");
       EvCall (Rename "/data/b.txt" (newBatch ++ "/b.txt"))]
        ++ copying ++ [EvCall (Remove "/data/b.txt")])%list).
Proof.
  refine (proj1 (@MoveToTrash_reports_a_failed_removal_as_an_error paths world 0 false
            "b.txt" newBatch [] 0 [] (mkMetadata (Some []))
            started started started started started copied copied
            "/data/b.txt" "/data/b.txt" [EvCall Getwd; EvCall (Abs "b.txt")] copying
            (mkInfo false 420) EPERM EPERM _ _ _ _ _ _));
    vm_compute; reflexivity.
Defined.

(** ** --all with a single match *)

(** C3 fails on the code when the name has exactly one match: under
    --all the command restores it. *)
Lemma restore_all_of_a_single_match_restores :
  exists (s' : fs) (tr : list event),
    run world (restoreCmd_Run 0 false false true "" "a.txt") single = (Done tt, s', tr)
    /\ tr = [EvCall UserHomeDir; EvCall (ReadDir trashRoot);
             EvCall (Stat (batch1 ++ "/.restore"));
             EvCall (ReadFile (batch1 ++ "/.restore"));
             EvCall (Stat "/data/a.txt"); EvCall (MkdirAll "/data" 493);
             EvCall (Rename (batch1 ++ "/a.txt") "/data/a.txt");
             EvCall (ReadFile (batch1 ++ "/.restore"));
             EvCall (RemoveAll batch1);
             EvPrint Stdout ("Successfully restored: /data/a.txt" ++ nl)]
    /\ existsb isMutation tr = true
    /\ find single "/data/a.txt" = None
    /\ find s' "/data/a.txt" = Some (FileNode "alpha" 420)
    /\ find single batch1 = Some (DirNode 493)
    /\ find s' batch1 = None.
Proof.
  do 2 eexists. split; [vm_compute; reflexivity |].
  repeat split; vm_compute; reflexivity.
Qed.

(** ** The update of the sidecar *)


(** ** Three paths, the second missing *)

Lemma trash_with_one_missing_path_witness :
  exists (s' : fs) (tr : list event),
    run world (rootCmd_Run 0 false ["a.txt"; "nope"; "d"]) fresh = (Exited 1, s', tr)
    /\ In ("Error: path does not exist: /data/nope" ++ nl) (printed Stderr tr)
    /\ In ("Failed to trash 1 item(s)" ++ nl) (printed Stderr tr)
    /\ In ("Successfully moved 2 item(s) to trash" ++ nl) (printed Stdout tr).
Proof.
  destruct (@trash_with_one_missing_path paths world 0 false
              ["a.txt"] ["d"] "nope" "/data/nope" newBatch
              fresh batchMade afterFirst afterFirst afterLast
              [EvCall UserHomeDir; EvCall (Now "20060102_150405");
               EvCall (MkdirAll newBatch 493)])
    as (metadata & s' & trl & tr & _ & _ & Hrun & Herr & Hfail & Hok).
  - (* the batch directory is created *) vm_compute. reflexivity.
  - (* a.txt is moved *)
    eapply Trashed_cons; [vm_compute; reflexivity | vm_compute; reflexivity |].
    vm_compute. apply Trashed_nil.
  - (* nope does not exist *)
    exists "/data/nope", afterFirst, afterFirst, [EvCall Getwd; EvCall (Abs "nope")], ENOENT.
    repeat split; vm_compute; reflexivity.
  - (* d is moved *)
    eapply Trashed_cons; [vm_compute; reflexivity | vm_compute; reflexivity |].
    vm_compute. apply Trashed_nil.
  - exists s', tr. split; [exact Hrun |]. split; [exact Herr |]. split; [exact Hfail |].
    apply Hok. vm_compute. lia.
Defined.

(** ** A forced restore of an item that is gone *)

Lemma forced_restore_of_a_missing_item_destroys_the_destination_witness :
  exists (s' : fs) (tr : list event),
    run world (restoreMatch 0 false true "a.txt"
                 (matchA batch1 "20250101_000000" "2025-01-01T00:00:00Z")) gone
    = (Exited 1, s', tr)
    /\ find gone "/data/a.txt" = Some (FileNode "precious" 420)
    /\ find s' "/data/a.txt" = None.
Proof.
  set (after_removal :=
         snd (answer (RemoveAll "/data/a.txt") gone)).
  destruct (@forced_restore_of_a_missing_item_destroys_the_destination paths world
              0 false "a.txt" (matchA batch1 "20250101_000000" "2025-01-01T00:00:00Z")
              gone gone after_removal after_removal after_removal after_removal
              (mkInfo false 420) None None ENOENT ENOENT)
    as (s' & tr' & Hrun & Hs); try (vm_compute; reflexivity).
  destruct (Hs eq_refl eq_refl) as [-> _].
  do 2 eexists. split; [exact Hrun |]. split; vm_compute; reflexivity.
Defined.

(** ** A sidecar that can no longer be read *)

Lemma update_without_recorded_items_removes_the_batch_witness :
  exists (s' : fs) (tr : list event),
    run world (updateMetadata false "a.txt"
                 (matchA batch1 "20250101_000000" "2025-01-01T00:00:00Z")) damaged
    = (Done tt, s', tr)
    /\ find damaged (batch1 ++ "/b.txt") = Some (FileNode "beta" 420)
    /\ find s' (batch1 ++ "/b.txt") = None
    /\ find s' batch1 = None.
Proof.
  destruct (@update_without_recorded_items_removes_the_batch paths world false "a.txt"
              (matchA batch1 "20250101_000000" "2025-01-01T00:00:00Z")
              damaged damaged "{ items: " None) as [_ Hrun].
  - vm_compute. reflexivity.
  - right. vm_compute. reflexivity.
  - remember (run world (updateMetadata false "a.txt"
                           (matchA batch1 "20250101_000000" "2025-01-01T00:00:00Z")) damaged)
      as R eqn:HR.
    vm_compute in Hrun. rewrite Hrun. do 2 eexists. split; [reflexivity |].
    repeat split; vm_compute; reflexivity.
Defined.

(** C10, as stated, fails when the read fails after it has returned the
    text.  a.txt is restored from a batch that also holds b.txt; the
    search reads the sidecar, a.txt is renamed back, and the second
    [os.ReadFile] returns the whole sidecar together with an error.  The
    error is dropped, the text yields b.txt, and the sidecar is written
    again: the batch is not removed. *)
Lemma a_failed_read_that_returned_the_text_keeps_the_batch :
  (let '(o, s', tr) :=
     run worn (restoreCmd_Run 0 false false false "" "a.txt") (pair, 0) in
   o = Done tt
   /\ tr = [EvCall UserHomeDir; EvCall (ReadDir "/home/u/.config/trash");
            EvCall (Stat (batch1 ++ "/.restore"));
            EvCall (ReadFile (batch1 ++ "/.restore"));
            EvCall (Stat "/data/a.txt"); EvCall (MkdirAll "/data" 493);
            EvCall (Rename (batch1 ++ "/a.txt") "/data/a.txt");
            EvCall (ReadFile (batch1 ++ "/.restore"));
            EvCall (WriteFile (batch1 ++ "/.restore")
                              (sidecarText [itemB "2025-01-01T00:00:00Z"]) 420);
            EvPrint Stdout ("Successfully restored: /data/a.txt" ++ nl)]
   /\ find (fst s') batch1 = Some (DirNode 493)
   /\ find (fst s') (batch1 ++ "/b.txt") = Some (FileNode "beta" 420)
   /\ find (fst s') (batch1 ++ "/.restore")
      = Some (FileNode (sidecarText [itemB "2025-01-01T00:00:00Z"]) 420))
  /\ snd (fst (run worn (moveOut 0 false false "a.txt"
                          (matchA batch1 "20250101_000000" "2025-01-01T00:00:00Z"))
                   (pair, 1)))
     = (movedOut, 1)
  /\ handle worn (ReadFile (batch1 ++ "/.restore")) (movedOut, 1)
     = ((sidecarText [itemA "2025-01-01T00:00:00Z"; itemB "2025-01-01T00:00:00Z"],
         Some EIO),
        (movedOut, 2)).
Proof.
  split; [vm_compute; repeat split; reflexivity |].
  split; vm_compute; reflexivity.
Qed.

(** Restoring the name .restore moves the sidecar out; the update then
    finds no sidecar, hence no item on record, and removes the batch with
    a.txt in it. *)
Example restoring_the_sidecar_name_loses_the_batch :
  let '(o, s', tr) := run world (restoreCmd_Run 0 false false false "" ".restore") shadowed in
  o = Done tt
  /\ find shadowed (batch1 ++ "/a.txt") = Some (FileNode "alpha" 420)
  /\ find s' (batch1 ++ "/a.txt") = None
  /\ find s' "/data/a.txt" = None
  /\ find s' batch1 = None.
Proof. vm_compute. repeat split; reflexivity. Qed.

(** ** Saving and loading a sidecar *)

Lemma lookup_store (ns : list (string * node)) (p : string) (n : node) :
  lookup (store ns p n) p = Some n.
Proof.
  induction ns as [| [q m] ns IH]; simpl.
  - rewrite String.eqb_refl. reflexivity.
  - destruct (String.eqb q p) eqn:Hq; simpl.
    + rewrite String.eqb_refl. reflexivity.
    + rewrite Hq. exact IH.
Qed.

(** The small file system keeps what is written. *)
Lemma world_keepsWrites : keepsWrites world.
Proof.
  intros name data perm s s1 Hwrite. cbn in Hwrite.
  destruct (writable s name) eqn:Hw; [| discriminate].
  inversion Hwrite as [Hs1]. clear Hwrite.
  assert (Hroot : String.eqb name "/" = false).
  { destruct (String.eqb name "/") eqn:Hn; [| reflexivity].
    apply String.eqb_eq in Hn. subst name.
    unfold writable in Hw. apply andb_true_iff in Hw. destruct Hw as [Hw _].
    apply andb_true_iff in Hw. destruct Hw as [_ Hw]. cbn in Hw. discriminate. }
  set (mode := match find s name with Some (FileNode _ m) => m | _ => perm end) in *.
  assert (Hfind : find (withNodes s (store (nodes s) name (FileNode data mode))) name
                  = Some (FileNode data mode)).
  { unfold find. rewrite Hroot. cbn [nodes withNodes]. apply lookup_store. }
  subst s1.
  exists (mkInfo false mode),
         (withNodes s (store (nodes s) name (FileNode data mode))),
         (withNodes s (store (nodes s) name (FileNode data mode))).
  split; cbn [handle world answer]; rewrite Hfind; reflexivity.
Qed.

Lemma saved_metadata_loads_back_witness :
  exists (s2 : fs) (tr : list event),
    run world (load (batch1 ++ "/.restore"))
        (snd (fst (run world (SaveRestoreMetadata batch1 sidecarOfPair) single)))
    = (Done (Loaded sidecarOfPair), s2, tr).
Proof.
  apply (@saved_metadata_loads_back paths world batch1 sidecarOfPair single
           (snd (fst (run world (SaveRestoreMetadata batch1 sidecarOfPair) single)))
           [EvCall (WriteFile (batch1 ++ "/.restore") (fst (json.MarshalIndent sidecarOfPair)) 420)]).
  - exact world_keepsWrites.
  - vm_compute. reflexivity.
  - vm_compute. reflexivity.
Defined.

(** C8, as stated, fails on a name that is not valid UTF-8 (a file name
    may be any bytes): the encoder writes the byte 255 as the escape of
    U+FFFD, and the item that loads back bears a name of three other
    bytes. *)
Lemma save_then_load_changes_a_raw_name :
  let saved := run world (SaveRestoreMetadata batch1 sidecarOfRaw) single in
  let loaded := run world (load (batch1 ++ "/.restore")) (snd (fst saved)) in
  fst (fst saved) = Done None
  /\ fst (fst loaded)
     = Done (Loaded (mkMetadata
          (Some [mkItem (String (chr 239) (String (chr 191) (String (chr 189) ".txt")))
                        "/data/raw" "2025-01-01T00:00:00Z"])))
  /\ fst (fst loaded) <> Done (Loaded sidecarOfRaw)
  /\ (forall metadata, fst (fst loaded) = Done (Loaded metadata) ->
      elems (Items metadata) <> elems (Items sidecarOfRaw)).
Proof.
  cbv zeta. split; [vm_compute; reflexivity |].
  assert (H : fst (fst (run world (load (batch1 ++ "/.restore"))
                          (snd (fst (run world (SaveRestoreMetadata batch1 sidecarOfRaw)
                                         single)))))
              = Done (Loaded (mkMetadata
                   (Some [mkItem (String (chr 239) (String (chr 191) (String (chr 189) ".txt")))
                                 "/data/raw" "2025-01-01T00:00:00Z"]))))
    by (vm_compute; reflexivity).
  split; [exact H |]. rewrite H. split.
  - vm_compute. discriminate.
  - intros metadata Heq. inversion Heq; subst metadata. vm_compute. discriminate.
Qed.

(** ** An occupied destination *)

(** Without --force the restore is refused and nothing changes. *)
Example restore_onto_an_existing_file_is_refused :
  run world (restoreCmd_Run 0 false false false "" "a.txt") occupied
  = (Exited 1, occupied,
     [EvCall UserHomeDir; EvCall (ReadDir trashRoot);
      EvCall (Stat (batch1 ++ "/.restore")); EvCall (ReadFile (batch1 ++ "/.restore"));
      EvCall (Stat "/data/a.txt");
      EvPrint Stderr ("Error: destination already exists: /data/a.txt" ++ nl);
      EvPrint Stderr ("Use --force to overwrite" ++ nl)]).
Proof. vm_compute. reflexivity. Qed.

(** With --force the file in the way is removed, then the item is moved
    back. *)
Example forced_restore_replaces_the_existing_file :
  let '(o, s', tr) := run world (restoreCmd_Run 0 false true false "" "a.txt") occupied in
  o = Done tt
  /\ find s' "/data/a.txt" = Some (FileNode "alpha" 420)
  /\ filter isMutation tr
     = [EvCall (RemoveAll "/data/a.txt"); EvCall (MkdirAll "/data" 493);
        EvCall (Rename (batch1 ++ "/a.txt") "/data/a.txt");
        EvCall (RemoveAll batch1)].
Proof. vm_compute. repeat split; reflexivity. Qed.

(** With --all and two matches nothing changes. *)
Example restore_all_of_two_matches_lists_them :
  let '(o, s', tr) := run world (restoreCmd_Run 0 false false true "" "a.txt") twice in
  o = Done tt /\ s' = twice /\ filter isMutation tr = []
  /\ printed Stdout tr
     = ["Found 2 instances of 'a.txt':" ++ nl ++ nl;
        "1. [20250102_000000]" ++ nl;
        "   Original: /data/a.txt" ++ nl;
        "   Trashed:  2025-01-02T00:00:00Z" ++ nl ++ nl;
        "2. [20250101_000000]" ++ nl;
        "   Original: /data/a.txt" ++ nl;
        "   Trashed:  2025-01-01T00:00:00Z" ++ nl ++ nl;
        "Use --timestamp flag to specify which one to restore" ++ nl;
        "Example: trash restore a.txt --timestamp 20250102_000000" ++ nl].
Proof. vm_compute. repeat split; reflexivity. Qed.

(** ** Further runs *)

(** A path that does not exist is reported by its absolute path. *)
Lemma MoveToTrash_leaves_a_path_it_cannot_examine_witness :
  run world (MoveToTrash 0 "nope" newBatch) batchMade
  = (Done ("", Some (Errorf "path does not exist: /data/nope")), batchMade,
     [EvCall (Abs "nope"); EvCall (Stat "/data/nope")]).
Proof.
  refine (@MoveToTrash_leaves_a_path_it_cannot_examine paths world 0 "nope" newBatch
            batchMade batchMade (inl "/data/nope") _ ENOENT batchMade _);
    vm_compute; reflexivity.
Defined.

(** The batch directory is missing: the rename fails, the copy cannot
    create its file, and a.txt stays where it is. *)
Lemma MoveToTrash_keeps_the_original_when_the_copy_fails_witness :
  exists (s' : fs) (tr : list event),
    run world (MoveToTrash 0 "a.txt" newBatch) fresh
    = (Done ("", Some (Errorf
          "failed to copy file /data/a.txt to trash: operation not permitted")), s', tr)
    /\ find s' "/data/a.txt" = Some (FileNode "alpha" 420)
    /\ filter isMutation tr
       = [EvCall (Rename "/data/a.txt" (newBatch ++ "/a.txt"));
          EvCall (Create (newBatch ++ "/a.txt"))].
Proof.
  destruct (@MoveToTrash_keeps_the_original_when_the_copy_fails paths world 0
              "a.txt" newBatch "/data/a.txt" (mkInfo false 420) EPERM EPERM
              fresh fresh fresh fresh
              (snd (fst (run world (CopyFile "/data/a.txt" (newBatch ++ "/a.txt")) fresh)))
              (snd (run world (CopyFile "/data/a.txt" (newBatch ++ "/a.txt")) fresh)))
    as [Hrun _]; try (vm_compute; reflexivity).
  do 2 eexists. split; [exact Hrun |]. split; vm_compute; reflexivity.
Defined.

(** a.txt is moved by a rename. *)
Lemma MoveToTrash_succeeds_only_by_moving_witness :
  exists (absPath : string) (sourceInfo : FileInfo) (s3 : fs),
    handle world (Stat absPath) batchMade = (inl sourceInfo, batchMade)
    /\ "a.txt" = Base absPath
    /\ handle world (Rename absPath (Join [newBatch; "a.txt"])) batchMade = (None, s3)
    /\ find s3 (newBatch ++ "/a.txt") = Some (FileNode "alpha" 420).
Proof.
  destruct (@MoveToTrash_succeeds_only_by_moving paths world 0 "a.txt" newBatch "a.txt"
              batchMade afterFirst
              [EvCall (Abs "a.txt"); EvCall (Stat "/data/a.txt");
               EvCall (Rename "/data/a.txt" (newBatch ++ "/a.txt"))])
    as (absPath & sourceInfo & e & s1 & s2 & s3 & Habs & Hstat & Hbase & Hmv & Hend).
  - vm_compute. reflexivity.
  - assert (Ha : absPath = "/data/a.txt" /\ s1 = batchMade).
    { vm_compute in Habs. inversion Habs. split; reflexivity. }
    destruct Ha as [-> ->].
    assert (Hs2 : s2 = batchMade) by (vm_compute in Hstat; inversion Hstat; reflexivity).
    subst s2.
    exists "/data/a.txt", sourceInfo, s3.
    split; [exact Hstat |]. split; [exact Hbase |].
    assert (He : e = None /\ s3 = afterFirst).
    { vm_compute in Hmv. inversion Hmv. split; reflexivity. }
    destruct He as [-> ->]. split; [exact Hmv |]. vm_compute. reflexivity.
Defined.

(** The trash directory exists. *)
Lemma EnsureConfigDir_leaves_a_directory_it_does_not_find_absent_witness :
  run world EnsureConfigDir fresh
  = (Done None, fresh, [EvCall UserHomeDir; EvCall (Stat trashRoot)]).
Proof.
  refine (@EnsureConfigDir_leaves_a_directory_it_does_not_find_absent paths world
            "/home/u" (inl (mkInfo true 493)) fresh fresh fresh _ _ _);
    vm_compute; reflexivity.
Defined.

(** Two files of the same base name, trashed together: both are sent to
    the same place in the batch, where the second replaces the first,
    and both are on record. *)
Lemma trashEach_records_each_success_under_its_base_name_witness :
  exists (s' : fs) (tr : list event) (t : string),
    run world (trashEach 0 false newBatch ["n.txt"; "d/n.txt"] 0 [] (mkMetadata (Some [])))
        namesakes
    = (Done (2, [], mkMetadata (Some [mkItem "n.txt" "/data/n.txt" t;
                                      mkItem "n.txt" "/data/d/n.txt" t])), s', tr)
    /\ In (EvCall (Rename "/data/n.txt" (newBatch ++ "/n.txt"))) tr
    /\ In (EvCall (Rename "/data/d/n.txt" (newBatch ++ "/n.txt"))) tr
    /\ find s' (newBatch ++ "/n.txt") = Some (FileNode "two" 420)
    /\ find s' "/data/n.txt" = None
    /\ find s' "/data/d/n.txt" = None.
Proof.
  set (R := run world (trashEach 0 false newBatch ["n.txt"; "d/n.txt"] 0 []
                         (mkMetadata (Some []))) namesakes).
  assert (HR : R = (Done (2, [], mkMetadata (Some [mkItem "n.txt" "/data/n.txt"
                                                     "2025-01-03T12:00:00Z";
                                                   mkItem "n.txt" "/data/d/n.txt"
                                                     "2025-01-03T12:00:00Z"])),
                    snd (fst R), snd R)) by (vm_compute; reflexivity).
  destruct (@trashEach_records_each_success_under_its_base_name paths world 0 false
              newBatch ["n.txt"; "d/n.txt"] 0 [] (mkMetadata (Some [])) namesakes
              _ _ _ _ _ HR)
    as (added & failed & Hitems & _ & _ & _ & _ & Hren).
  cbn [Items elems app] in Hitems. subst added.
  exists (snd (fst R)), (snd R), "2025-01-03T12:00:00Z".
  split; [exact HR |].
  split; [vm_compute; repeat (first [left; reflexivity | right]) |].
  split; [vm_compute; repeat (first [left; reflexivity | right]) |].
  repeat split; vm_compute; reflexivity.
Defined.

(** A file lies where the trash directory should be. *)
Lemma trash_stops_when_the_batch_directory_cannot_be_made_witness :
  run world (rootCmd_Run 0 false ["a.txt"]) blocked
  = (Exited 1, blocked,
     [EvCall UserHomeDir; EvCall (Now "20060102_150405"); EvCall (MkdirAll newBatch 493);
      EvPrint Stderr ("Error creating trash directory: failed to create trash directory: "
                        ++ "not a directory" ++ nl)]).
Proof.
  refine (@trash_stops_when_the_batch_directory_cannot_be_made paths world 0 false
            ["a.txt"] blocked blocked (inl "/home/u") _ _
            "20250103_120000" ENOTDIR blocked blocked _ _);
    try discriminate; vm_compute; reflexivity.
Defined.

(** A file and a directory are trashed. *)
Lemma trash_ends_with_status_0_only_when_every_path_is_on_record_witness :
  exists (trashDir : string) (metadata : RestoreMetadata),
    len (Items metadata) = 2
    /\ In (EvCall (WriteFile (Join [trashDir; ".restore"])
                             (fst (json.MarshalIndent metadata)) 420))
          (snd (run world (rootCmd_Run 0 false ["a.txt"; "d"]) fresh))
    /\ In ("Successfully moved 2 item(s) to trash" ++ nl)
          (printed Stdout (snd (run world (rootCmd_Run 0 false ["a.txt"; "d"]) fresh))).
Proof.
  set (R := run world (rootCmd_Run 0 false ["a.txt"; "d"]) fresh).
  assert (HR : R = (Done tt, snd (fst R), snd R)) by (vm_compute; reflexivity).
  refine (@trash_ends_with_status_0_only_when_every_path_is_on_record paths world 0 false
            ["a.txt"; "d"] fresh _ (Done tt) _ _ HR).
  discriminate.
Defined.

(** Two paths that do not exist. *)
Lemma trash_of_missing_paths_leaves_an_empty_batch_witness :
  exists (s' : fs) (tr : list event),
    run world (rootCmd_Run 0 false ["nope"; "none"]) fresh = (Exited 1, s', tr)
    /\ filter isMutation tr = [EvCall (MkdirAll newBatch 493)]
    /\ find s' newBatch = Some (DirNode 493)
    /\ find s' (newBatch ++ "/.restore") = None.
Proof.
  destruct (@trash_of_missing_paths_leaves_an_empty_batch paths world 0 false
              ["nope"; "none"] newBatch fresh batchMade batchMade
              [EvCall UserHomeDir; EvCall (Now "20060102_150405");
               EvCall (MkdirAll newBatch 493)])
    as (trl & Hrun & Hq & _).
  - discriminate.
  - vm_compute. reflexivity.
  - apply NoneThere_cons with (absPath := "/data/nope") (s1 := batchMade).
    { exists "/data/nope", batchMade, batchMade, [EvCall Getwd; EvCall (Abs "nope")], ENOENT.
      repeat split; vm_compute; reflexivity. }
    apply NoneThere_cons with (absPath := "/data/none") (s1 := batchMade).
    { exists "/data/none", batchMade, batchMade, [EvCall Getwd; EvCall (Abs "none")], ENOENT.
      repeat split; vm_compute; reflexivity. }
    apply NoneThere_nil.
  - do 2 eexists. split; [exact Hrun |].
    assert (Hnone : filter isMutation trl = []).
    { clear Hrun. induction Hq as [| ev trl Hev _ IH]; [reflexivity |].
      cbn [filter]. rewrite Hev. exact IH. }
    split; [| split; vm_compute; reflexivity].
    cbn [app createdNote filter isMutation mutating]. rewrite filter_app, Hnone.
    reflexivity.
Defined.

(** The sidecar cannot be written: a.txt is in the batch, on no record. *)
Lemma trash_only_warns_when_the_sidecar_cannot_be_written_witness :
  exists (s' : fs) (tr : list event),
    run world (rootCmd_Run 0 false ["a.txt"]) sealed = (Done tt, s', tr)
    /\ In ("Warning: failed to save restore metadata: failed to write .restore file: "
             ++ "operation not permitted" ++ nl) (printed Stderr tr)
    /\ find s' (newBatch ++ "/a.txt") = Some (FileNode "alpha" 420)
    /\ find s' (newBatch ++ "/.restore") = None.
Proof.
  set (made := snd (fst (run world CreateTrashTimestampDir sealed))).
  set (moved := snd (fst (run world (MoveToTrash 0 "a.txt" newBatch) made))).
  destruct (@trash_only_warns_when_the_sidecar_cannot_be_written paths world 0 false
              ["a.txt"] newBatch sealed made moved moved
              [EvCall UserHomeDir; EvCall (Now "20060102_150405");
               EvCall (MkdirAll newBatch 493)] EPERM)
    as (tr & Hrun & Hwarn & _).
  - discriminate.
  - vm_compute. reflexivity.
  - eapply Trashed_cons; [vm_compute; reflexivity | vm_compute; reflexivity |].
    vm_compute. apply Trashed_nil.
  - intros data. vm_compute. reflexivity.
  - exists moved, tr. split; [exact Hrun |]. split; [exact Hwarn |].
    split; vm_compute; reflexivity.
Defined.

(** The version command, with a file where .config should be. *)
Lemma Execute_only_warns_when_the_directory_cannot_be_ensured_witness :
  run world (Execute (versionCmd_Run "0.1.0" "unknown" "unknown" ;; Ret None)) noConfig
  = (Done tt, noConfig,
     [EvCall UserHomeDir; EvCall (Stat trashRoot); EvCall (MkdirAll trashRoot 493);
      EvPrint Stderr ("Warning: failed to create config directory: not a directory" ++ nl);
      EvPrint Stdout ("Trash v0.1.0" ++ nl);
      EvPrint Stdout ("Build Date: unknown" ++ nl);
      EvPrint Stdout ("Git Commit: unknown" ++ nl)]).
Proof.
  refine (@Execute_only_warns_when_the_directory_cannot_be_ensured paths world
            (versionCmd_Run "0.1.0" "unknown" "unknown" ;; Ret None)
            (Errorf "failed to create config directory: not a directory")
            noConfig noConfig
            [EvCall UserHomeDir; EvCall (Stat trashRoot); EvCall (MkdirAll trashRoot 493)] _).
  vm_compute. reflexivity.
Defined.

(** The list command on the first run. *)
Lemma Execute_creates_the_missing_directory_before_the_command_witness :
  exists (s' : fs) (tr : list event),
    run world (Execute (listCmd_Run false ;; Ret None)) firstRun = (Done tt, s', tr)
    /\ find firstRun trashRoot = None
    /\ find s' trashRoot = Some (DirNode 493)
    /\ printed Stdout tr
       = ["Created config directory: /home/u/.config/trash" ++ nl; "Trash is empty" ++ nl].
Proof.
  set (made := snd (handle world (MkdirAll trashRoot 493) firstRun)).
  pose proof (@Execute_creates_the_missing_directory_before_the_command paths world
                (listCmd_Run false ;; Ret None) "/home/u" ENOENT
                firstRun firstRun firstRun made) as H.
  cbv zeta in H. rewrite H; try (vm_compute; reflexivity).
  do 2 eexists. split; [vm_compute; reflexivity |].
  repeat split; vm_compute; reflexivity.
Defined.

(** The listing of one batch with two items. *)
Lemma list_total_counts_the_items_shown_witness :
  exists lines : list string,
    printed Stdout (snd (run world (listCmd_Run false) pair))
    = (lines ++ [(nl ++ "Total: " ++ itoa (bullets lines) ++ " item(s) in trash" ++ nl)%string])%list
    /\ bullets lines = 2.
Proof.
  set (R := run world (listCmd_Run false) pair).
  assert (HR : R = (Done tt, snd (fst R), snd R)) by (vm_compute; reflexivity).
  destruct (@list_total_counts_the_items_shown paths world false pair _ _ HR)
    as [Hempty | (lines & Hlines)].
  - vm_compute in Hempty. discriminate.
  - exists lines. split; [exact Hlines |].
    assert (Hshown : printed Stdout (snd R)
                     = ([(nl ++ "[20250101_000000]" ++ nl)%string;
                         ("  • a.txt (from /data/a.txt)" ++ nl)%string;
                         ("  • b.txt (from /data/b.txt)" ++ nl)%string]
                          ++ [(nl ++ "Total: 2 item(s) in trash" ++ nl)%string])%list)
      by (vm_compute; reflexivity).
    rewrite Hshown in Hlines. apply app_inj_tail in Hlines. destruct Hlines as [<- _].
    vm_compute. reflexivity.
Defined.

(** Two batches and a file in the trash directory. *)
Lemma list_reads_the_batches_in_ascending_order_witness :
  exists (s' : fs) (tr : list event),
    run world (listCmd_Run false)
        (withNodes twice (nodes twice ++ [(trashRoot ++ "/notes.txt", FileNode "" 420)]))
    = (Done tt, s', tr)
    /\ statted tr = [batch1 ++ "/.restore"; batch2 ++ "/.restore"].
Proof.
  set (s := withNodes twice (nodes twice ++ [(trashRoot ++ "/notes.txt", FileNode "" 420)])).
  destruct (@list_reads_the_batches_in_ascending_order paths world false "/home/u"
              [mkEntry "20250101_000000" true; mkEntry "20250102_000000" true;
               mkEntry "notes.txt" false] s s s)
    as (trashDirs & s' & tr & Hrun & Hstat & Hperm & Hsorted);
    try (vm_compute; reflexivity).
  exists s', tr. split; [exact Hrun |].
  assert (Hdirs : trashDirs = ["20250101_000000"; "20250102_000000"]).
  { rewrite (sortBy_unique String.leb String.leb_total leb_trans String.leb_antisym
               _ _ Hperm Hsorted).
    vm_compute. reflexivity. }
  rewrite Hstat, Hdirs. vm_compute. reflexivity.
Defined.

(** A name that is on no record. *)
Lemma restore_of_a_name_not_on_record_changes_nothing_witness :
  exists tr : list event,
    run world (restoreCmd_Run 0 false true false "" "z.txt") single = (Exited 1, single, tr)
    /\ printed Stderr tr = ["Error: item 'z.txt' not found in trash" ++ nl].
Proof.
  destruct (@restore_of_a_name_not_on_record_changes_nothing paths world 0 false true false
              "" "z.txt" "/home/u" [mkEntry "20250101_000000" true]
              single single single single
              [EvCall (Stat (batch1 ++ "/.restore")); EvCall (ReadFile (batch1 ++ "/.restore"))])
    as (tr & Hrun & _ & _ & Herr); try (vm_compute; reflexivity).
  exists tr. split; assumption.
Defined.

(** a.txt is in two batches; the older one is asked for. *)
Lemma restore_with_a_timestamp_looks_at_that_batch_only_witness :
  exists (s' : fs) (tr : list event),
    run world (findMatches "a.txt" "20250101_000000" trashRoot
                 ["20250102_000000"; "20250101_000000"] []) twice
    = (Done [matchA batch1 "20250101_000000" "2025-01-01T00:00:00Z"], s', tr)
    /\ Forall (fun ev => ev = EvCall (Stat (batch1 ++ "/.restore"))
                         \/ ev = EvCall (ReadFile (batch1 ++ "/.restore"))) tr.
Proof.
  destruct (@restore_with_a_timestamp_looks_at_that_batch_only paths world
              "a.txt" "20250101_000000" trashRoot
              ["20250102_000000"; "20250101_000000"] twice)
    as (found & s' & tr & Hrun & _ & Hev & _); [discriminate |].
  assert (Hfound : found = [matchA batch1 "20250101_000000" "2025-01-01T00:00:00Z"]).
  { vm_compute in Hrun. inversion Hrun. reflexivity. }
  subst found. exists s', tr. split; [exact Hrun | exact Hev].
Defined.

(** --all with a.txt in two batches. *)
Lemma restore_all_of_several_matches_only_lists_witness :
  exists tr : list event,
    run world (restoreCmd_Run 0 false false true "" "a.txt") twice = (Done tt, twice, tr)
    /\ quiet tr.
Proof.
  refine (@restore_all_of_several_matches_only_lists paths world 0 false false
            "" "a.txt" "/home/u"
            [mkEntry "20250101_000000" true; mkEntry "20250102_000000" true]
            twoMatches twice twice twice twice
            [EvCall (Stat (batch2 ++ "/.restore")); EvCall (ReadFile (batch2 ++ "/.restore"));
             EvCall (Stat (batch1 ++ "/.restore")); EvCall (ReadFile (batch1 ++ "/.restore"))]
            _ _ _ _); [vm_compute; reflexivity .. | vm_compute; lia].
Defined.

(** The item in the batch can be read but not renamed or removed: it
    is copied back and stays in the batch. *)
Lemma restore_only_warns_when_the_copied_item_stays_in_the_batch_witness :
  exists (s' : fs) (tr : list event),
    run world (transfer 0 false "a.txt" (batch1 ++ "/a.txt") "/data/a.txt") held
    = (Done tt, s', tr)
    /\ printed Stderr tr
       = ["Warning: failed to remove from trash: operation not permitted" ++ nl]
    /\ find s' "/data/a.txt" = Some (FileNode "alpha" 384)
    /\ find s' (batch1 ++ "/a.txt") = Some (FileNode "alpha" 384).
Proof.
  set (C := run world (CopyFile (batch1 ++ "/a.txt") "/data/a.txt") held).
  pose proof (@restore_only_warns_when_the_copied_item_stays_in_the_batch paths world 0
                false "a.txt" (batch1 ++ "/a.txt") "/data/a.txt" (mkInfo false 384)
                EPERM EPERM held held held (snd (fst C)) (snd (fst C)) (snd C)) as H.
  rewrite H; try (vm_compute; reflexivity).
  do 2 eexists. split; [reflexivity |]. repeat split; vm_compute; reflexivity.
Defined.

(** The update after a.txt was restored from a batch with a.txt and
    b.txt. *)
Lemma update_of_a_saved_sidecar_keeps_the_other_items_witness :
  exists (s' : fs) (tr : list event),
    run world (updateMetadata false "a.txt"
                 (matchA batch1 "20250101_000000" "2025-01-01T00:00:00Z")) pair
    = (Done tt, s', tr)
    /\ find s' (batch1 ++ "/.restore")
       = Some (FileNode (sidecarText [itemB "2025-01-01T00:00:00Z"]) 420).
Proof.
  pose proof (@update_of_a_saved_sidecar_keeps_the_other_items paths world false "a.txt"
                (matchA batch1 "20250101_000000" "2025-01-01T00:00:00Z")
                sidecarOfPair pair pair None) as H.
  cbv zeta in H. rewrite H; try (vm_compute; reflexivity).
  do 2 eexists. split; [vm_compute; reflexivity |]. vm_compute. reflexivity.
Defined.

(** a.txt goes into the batch and comes back. *)
Lemma restore_renames_back_what_trash_renamed_witness :
  exists (s5 s9 : fs) (tr tr' : list event),
    run world (trashEach 0 false newBatch ["a.txt"] 0 [] (mkMetadata (Some []))) batchMade
    = (Done (1, [], mkMetadata (Some [mkItem "a.txt" "/data/a.txt" "2025-01-03T12:00:00Z"])),
       s5, tr)
    /\ find s5 "/data/a.txt" = None
    /\ run world (moveOut 0 false false "a.txt"
                    (mkMatch "20250103_120000"
                             (mkItem "a.txt" "/data/a.txt" "2025-01-03T12:00:00Z") newBatch)) s5
       = (Done tt, s9, tr')
    /\ find s9 "/data/a.txt" = find batchMade "/data/a.txt"
    /\ find s9 (newBatch ++ "/a.txt") = None.
Proof.
  set (back := snd (handle world (Rename (newBatch ++ "/a.txt") "/data/a.txt") afterFirst)).
  destruct (@restore_renames_back_what_trash_renamed paths world 0 false
              "a.txt" newBatch "20250103_120000" "/data/a.txt" "2025-01-03T12:00:00Z"
              (mkInfo false 420) batchMade batchMade batchMade batchMade afterFirst afterFirst
              [EvCall Getwd; EvCall (Abs "a.txt")])
    as [Htrash Hrestore]; try (vm_compute; reflexivity).
  specialize (Hrestore false false ENOENT afterFirst afterFirst afterFirst back).
  exists afterFirst, back. do 2 eexists.
  split; [exact Htrash |]. split; [vm_compute; reflexivity |].
  split; [apply Hrestore; vm_compute; reflexivity |].
  split; vm_compute; reflexivity.
Defined.

(** The copy of /data/d into the batch: the file x, the directory sub
    and the file y in it. *)
Lemma CopyDir_returns_nil_only_when_every_entry_has_its_copy_witness :
  exists (s' : fs) (tr : list event),
    run world (CopyDir 3 "/data/d" (newBatch ++ "/d")) nested = (Done None, s', tr)
    /\ Copied world "/data/d" (newBatch ++ "/d") nested s' tr
    /\ find s' (newBatch ++ "/d/x") = Some (FileNode "x" 420)
    /\ find s' (newBatch ++ "/d/sub") = Some (DirNode 448)
    /\ find s' (newBatch ++ "/d/sub/y") = Some (FileNode "why" 384).
Proof.
  set (R := run world (CopyDir 3 "/data/d" (newBatch ++ "/d")) nested).
  assert (HR : R = (Done None, snd (fst R), snd R)) by (vm_compute; reflexivity).
  exists (snd (fst R)), (snd R). split; [exact HR |]. split.
  - exact (@CopyDir_returns_nil_only_when_every_entry_has_its_copy paths world 3
             "/data/d" (newBatch ++ "/d") nested _ _ HR).
  - repeat split; vm_compute; reflexivity.
Defined.

(** The destination is occupied and --force is not given. *)
Lemma restore_that_fails_leaves_the_record_alone_witness :
  run world (moveOut 0 false false "a.txt"
               (matchA batch1 "20250101_000000" "2025-01-01T00:00:00Z")) occupied
  = (Exited 1, occupied,
     [EvCall (Stat "/data/a.txt");
      EvPrint Stderr ("Error: destination already exists: /data/a.txt" ++ nl);
      EvPrint Stderr ("Use --force to overwrite" ++ nl)]).
Proof.
  refine (proj2 (@restore_that_fails_leaves_the_record_alone paths world 0 false false
                   "a.txt" (matchA batch1 "20250101_000000" "2025-01-01T00:00:00Z")
                   occupied occupied 1%Z _ _)).
  vm_compute. reflexivity.
Defined.

(** a.txt is in two batches; the older one is asked for and restored. *)
Lemma restore_with_a_timestamp_restores_from_that_batch_witness :
  exists (s' : fs) (tr : list event),
    run world (restoreCmd_Run 0 false false false "20250101_000000" "a.txt") twice
    = (Done tt, s', tr)
    /\ find s' "/data/a.txt" = Some (FileNode "first" 420)
    /\ find s' (batch2 ++ "/a.txt") = Some (FileNode "second" 420)
    /\ printed Stdout tr = ["Successfully restored: /data/a.txt" ++ nl].
Proof.
  destruct (@restore_with_a_timestamp_restores_from_that_batch paths world 0 false false
              "20250101_000000" "a.txt" "/home/u"
              [mkEntry "20250101_000000" true; mkEntry "20250102_000000" true]
              (matchA batch1 "20250101_000000" "2025-01-01T00:00:00Z") []
              twice twice twice twice
              [EvCall (Stat (batch1 ++ "/.restore")); EvCall (ReadFile (batch1 ++ "/.restore"))])
    as (_ & _ & _ & Hrun); [discriminate | vm_compute; reflexivity ..|].
  rewrite Hrun. do 2 eexists. split; [vm_compute; reflexivity |].
  repeat split; vm_compute; reflexivity.
Defined.

(** The name that is not valid UTF-8 is saved and loads, coerced. *)
Lemma a_saved_sidecar_always_loads_witness :
  exists (s2 : fs) (tr : list event),
    run world (load (batch1 ++ "/.restore"))
        (snd (fst (run world (SaveRestoreMetadata batch1 sidecarOfRaw) single)))
    = (Done (Loaded (mkMetadata
         (Some [mkItem (String (chr 239) (String (chr 191) (String (chr 189) ".txt")))
                       "/data/raw" "2025-01-01T00:00:00Z"]))), s2, tr).
Proof.
  destruct (@a_saved_sidecar_always_loads paths world batch1 sidecarOfRaw single
              (snd (fst (run world (SaveRestoreMetadata batch1 sidecarOfRaw) single)))
              [EvCall (WriteFile (batch1 ++ "/.restore")
                                 (fst (json.MarshalIndent sidecarOfRaw)) 420)])
    as [(s2 & tr & Hload) _].
  - exact world_keepsWrites.
  - vm_compute. reflexivity.
  - exists s2, tr. exact Hload.
Defined.

(** b.txt is copied into the batch with the mode of the source. *)
Lemma CopyFile_returns_nil_only_after_the_content_and_the_mode_witness :
  exists (sourceFile destFile : File) (sourceInfo : FileInfo) (s1 s2 s3 s4 s5 : fs),
    handle world (Open "/data/b.txt") started = (inl sourceFile, s1)
    /\ handle world (Create (newBatch ++ "/b.txt")) s1 = (inl destFile, s2)
    /\ handle world (ReadFrom destFile sourceFile) s2 = (None, s3)
    /\ handle world (Stat "/data/b.txt") s3 = (inl sourceInfo, s4)
    /\ handle world (Chmod (newBatch ++ "/b.txt") (Mode sourceInfo)) s4 = (None, s5)
    /\ copying = [EvCall (Open "/data/b.txt"); EvCall (Create (newBatch ++ "/b.txt"));
                  EvCall (ReadFrom destFile sourceFile); EvCall (Stat "/data/b.txt");
                  EvCall (Chmod (newBatch ++ "/b.txt") (Mode sourceInfo));
                  EvCall (Close destFile); EvCall (Close sourceFile)].
Proof.
  refine (@CopyFile_returns_nil_only_after_the_content_and_the_mode world
            "/data/b.txt" (newBatch ++ "/b.txt") started copied copying _).
  vm_compute. reflexivity.
Defined.

(** The batch of this second already holds b.txt and a sidecar that
    lists it; a.txt is trashed, and the sidecar that loads afterwards
    lists a.txt alone. *)
Lemma trash_records_the_paths_of_this_run_only_witness :
  exists (trashDir : string) (metadata : RestoreMetadata) (s'' : fs) (tr' : list event),
    In (EvCall (MkdirAll trashDir 493))
       (snd (run world (rootCmd_Run 0 false ["a.txt"]) again))
    /\ run world (load (Join [trashDir; ".restore"]))
           (snd (fst (run world (rootCmd_Run 0 false ["a.txt"]) again)))
       = (Done (Loaded (coerceMetadata metadata)), s'', tr')
    /\ len (Items (coerceMetadata metadata)) = 1
    /\ Forall (fun item =>
                 exists absPath,
                   Name item = Base absPath
                   /\ In (EvCall (Rename absPath (Join [trashDir; Name item])))
                         (snd (run world (rootCmd_Run 0 false ["a.txt"]) again)))
              (elems (Items metadata)).
Proof.
  set (R := run world (rootCmd_Run 0 false ["a.txt"]) again).
  assert (HR : R = (Done tt, snd (fst R), snd R)) by (vm_compute; reflexivity).
  refine (@trash_records_the_paths_of_this_run_only paths world 0 false ["a.txt"]
            again (snd (fst R)) (snd R) world_keepsWrites _ HR _).
  - discriminate.
  - vm_compute. reflexivity.
Defined.

End Witness.
